(** * fpl-value: the FPL analysis pipeline of [src/analysis.js]

    A shallow embedding of the three analyzer classes of the repository
    ([FPLAnalyzer], [TeamDefenseAnalyzer], [PlayerFixtureAnalyzer]) and
    the properties of the defense aggregation, the vulnerability score,
    the gameweek resolution, the fixture-based recommendations and the
    views over the player snapshot.

    Conventions of the embedding.
    - A JavaScript number is a [JS.number]: an exact rational, one of the
      two infinities, or NaN.  Finite arithmetic is exact.  The sums of
      the program are sums of integers, which a double holds exactly
      below 2^53; a quotient or a product of the program is the double
      nearest to the exact one.  What is proved of a printed decimal is
      therefore a bound ([two_decimal_average], [score_of_average]) that
      the exact value and its nearest double both meet, and what is
      proved of the order of a sum is proved below 2^53
      ([exactly_added]).  Zero carries no sign: every zero denominator
      of the program is a counter or a length.
    - The string produced by [Number.prototype.toFixed] is a [JS.numstr]:
      the number of fraction digits with the scaled integer, or one of
      the three non-finite spellings.
    - [Array.prototype.sort] is a stable insertion sort.  ECMAScript
      requires stability; for a comparator that is consistent on the
      array every stable sort returns the same array, and for any other
      comparator the order is left to the engine.  An order of the
      output is proved for comparators that are consistent on the input
      (a difference of keys, or [chains] for the ranking of the
      recommendations).
    - A plain object whose keys are integer ids is a list of bindings in
      ascending key order: the enumeration order of [Object.values] for
      keys that are array indices ([array_index]).
    - A [TypeError] raised by a property access on [undefined] is the
      [TypeError] outcome of [JS.result]. *)

From Stdlib Require Import ZArith QArith Qround Qabs Qminmax Lqa Lia.
From Stdlib Require Import List String Bool Permutation Sorted.
Import ListNotations.

(* ================================================================== *)
(** * The fragment of JavaScript the analyzers use *)
(* ================================================================== *)

Module JS.

(** ** Numbers *)

Inductive number : Type :=
| Fin (q : Q)
| PosInf
| NegInf
| NaN.

Definition of_Z (z : Z) : number := Fin (inject_Z z).

(** The sign a comparator result has for [sort]: a negative value
    keeps the first argument first, a positive one swaps, anything
    else (zero, NaN) counts as equal. *)
Definition sgn (x : number) : comparison :=
  match x with
  | Fin q => (q ?= 0)%Q
  | PosInf => Gt
  | NegInf => Lt
  | NaN => Eq
  end.

Definition neg (x : number) : number :=
  match x with
  | Fin q => Fin (Qred (- q)%Q)
  | PosInf => NegInf
  | NegInf => PosInf
  | NaN => NaN
  end.

Definition add (x y : number) : number :=
  match x, y with
  | NaN, _ | _, NaN => NaN
  | Fin a, Fin b => Fin (Qred (a + b)%Q)
  | PosInf, NegInf | NegInf, PosInf => NaN
  | PosInf, _ | _, PosInf => PosInf
  | NegInf, _ | _, NegInf => NegInf
  end.

Definition sub (x y : number) : number := add x (neg y).

(** An infinity with the sign of [c]; NaN when [c] is [Eq]. *)
Definition inf_of (c : comparison) : number :=
  match c with
  | Gt => PosInf
  | Lt => NegInf
  | Eq => NaN
  end.

Definition mul (x y : number) : number :=
  match x, y with
  | NaN, _ | _, NaN => NaN
  | Fin a, Fin b => Fin (Qred (a * b)%Q)
  | Fin a, PosInf | PosInf, Fin a => inf_of (a ?= 0)%Q
  | Fin a, NegInf | NegInf, Fin a => inf_of (0 ?= a)%Q
  | PosInf, PosInf | NegInf, NegInf => PosInf
  | PosInf, NegInf | NegInf, PosInf => NegInf
  end.

(** [x / y]; a zero denominator is +0. *)
Definition div (x y : number) : number :=
  match x, y with
  | NaN, _ | _, NaN => NaN
  | Fin a, Fin b =>
      if Qeq_bool b 0 then inf_of (a ?= 0)%Q else Fin (Qred (a / b)%Q)
  | Fin _, _ => Fin 0
  | PosInf, Fin b => if Qle_bool 0 b then PosInf else NegInf
  | NegInf, Fin b => if Qle_bool 0 b then NegInf else PosInf
  | _, _ => NaN
  end.

Definition abs (x : number) : number :=
  match x with
  | Fin q => Fin (Qred (Qabs q))
  | PosInf | NegInf => PosInf
  | NaN => NaN
  end.

(** [x < y]; false as soon as one side is NaN. *)
Definition ltb (x y : number) : bool :=
  match x, y with
  | NaN, _ | _, NaN => false
  | Fin a, Fin b => negb (Qle_bool b a)
  | PosInf, _ | _, NegInf => false
  | NegInf, _ | _, PosInf => true
  end.

Definition gtb (x y : number) : bool := ltb y x.

(** [x === y] on numbers. *)
Definition eqb (x y : number) : bool :=
  match x, y with
  | Fin a, Fin b => Qeq_bool a b
  | PosInf, PosInf | NegInf, NegInf => true
  | _, _ => false
  end.

(** [Math.max(x, y)] and [Math.min(x, y)]. *)
Definition max (x y : number) : number :=
  match x, y with
  | NaN, _ | _, NaN => NaN
  | _, _ => if ltb x y then y else x
  end.

Definition min (x y : number) : number :=
  match x, y with
  | NaN, _ | _, NaN => NaN
  | _, _ => if ltb y x then y else x
  end.

(** [Math.max(...l)]: minus infinity on the empty list. *)
Definition max_list (l : list number) : number := fold_left max l NegInf.

(** [Math.ceil] on a finite value. *)
Definition ceil (x : number) : number :=
  match x with
  | Fin q => of_Z (Qceiling q)
  | _ => x
  end.

(** ** Decimal strings *)

Inductive numstr : Type :=
| Decimal (digits : nat) (n : Z)   (* n / 10^digits, [digits] fraction digits *)
| StrNaN
| StrInfinity
| StrNegInfinity.

Definition pow10 (d : nat) : Z := 10 ^ Z.of_nat d.

(** The integer nearest to [q], the one farther from zero on a tie:
    [toFixed] drops the sign, takes the larger of two nearest integers
    and puts the sign back. *)
Definition round_half_away (q : Q) : Z :=
  if Qle_bool 0 q then Qfloor (q + (1 # 2))%Q
  else (- Qfloor (- q + (1 # 2))%Q)%Z.

(** [x.toFixed(d)], below the 1e21 switch to exponent notation. *)
Definition toFixed (d : nat) (x : number) : numstr :=
  match x with
  | Fin q => Decimal d (round_half_away (q * inject_Z (pow10 d))%Q)
  | PosInf => StrInfinity
  | NegInf => StrNegInfinity
  | NaN => StrNaN
  end.

(** [parseFloat(s)] on such a string. *)
Definition parseFloat (s : numstr) : number :=
  match s with
  | Decimal d n => Fin (Qred (inject_Z n / inject_Z (pow10 d))%Q)
  | StrNaN => NaN
  | StrInfinity => PosInf
  | StrNegInfinity => NegInf
  end.

(** ** Nullable numbers *)

(** [ToNumber] of a field that is an integer or [null]. *)
Definition to_number (o : option Z) : number :=
  match o with
  | Some z => of_Z z
  | None => of_Z 0
  end.

(** Truthiness of such a field: [null] and [0] are falsy. *)
Definition truthy (o : option Z) : bool :=
  match o with
  | Some z => negb (z =? 0)%Z
  | None => false
  end.

(** ** Outcomes *)

Inductive result (A : Type) : Type :=
| Ok (a : A)
| TypeError.
Arguments Ok {A} a.
Arguments TypeError {A}.

Definition bind {A B} (r : result A) (k : A -> result B) : result B :=
  match r with
  | Ok a => k a
  | TypeError => TypeError
  end.

(** [l.map(f)] for a callback that may throw: the first throw aborts. *)
Fixpoint mapM {A B} (f : A -> result B) (l : list A) : result (list B) :=
  match l with
  | [] => Ok []
  | x :: l' =>
      bind (f x) (fun y => bind (mapM f l') (fun ys => Ok (y :: ys)))
  end.

(** ** [Array.prototype.sort] *)

Section Sort.
Context {A : Type} (cmp : A -> A -> number).

(** A stable insertion sort, from the last element to the first.  [x]
    stood before every element of [l] in the input: it stays in front of
    [y] unless the comparator says [x] goes after [y].  This is the
    array every engine returns when the comparator is consistent on the
    input. *)
Fixpoint insert (x : A) (l : list A) : list A :=
  match l with
  | [] => [x]
  | y :: l' =>
      match sgn (cmp x y) with
      | Gt => y :: insert x l'
      | _ => x :: l
      end
  end.

Definition sort (l : list A) : list A := fold_right insert [] l.
End Sort.

(** ** Objects keyed by integer ids *)

Section Obj.
Context {V : Type}.

(** The bindings in ascending key order, as an object enumerates keys
    that are array indices. *)
Definition obj : Type := list (Z * V).

(** [o[k]] *)
Fixpoint obj_get (k : Z) (o : obj) : option V :=
  match o with
  | [] => None
  | (k', v) :: o' => if (k =? k')%Z then Some v else obj_get k o'
  end.

(** [o[k] = v] *)
Fixpoint obj_set (k : Z) (v : V) (o : obj) : obj :=
  match o with
  | [] => [(k, v)]
  | (k', v') :: o' =>
      if (k <? k')%Z then (k, v) :: o
      else if (k =? k')%Z then (k, v) :: o'
      else (k', v') :: obj_set k v o'
  end.

(** [Object.values(o)] *)
Definition obj_values (o : obj) : list V := List.map snd o.
End Obj.
Arguments obj : clear implicits.

(** ** Further operators *)

(** [x <= y]; false as soon as one side is NaN. *)
Definition leb (x y : number) : bool := orb (ltb x y) (eqb x y).

(** [l.slice(0, limit)] for an integer [limit]: a negative one counts
    from the end of the array. *)
Definition slice0 {A : Type} (limit : Z) (l : list A) : list A :=
  let len := Z.of_nat (List.length l) in
  let final :=
    if (limit <? 0)%Z then Z.max (len + limit) 0 else Z.min limit len in
  firstn (Z.to_nat final) l.

End JS.

Declare Scope js_scope.
Delimit Scope js_scope with js.
Notation "x <- c ;; k" := (JS.bind c (fun x => k))
  (at level 61, c at next level, right associativity) : js_scope.

Local Open Scope Z_scope.
Local Open Scope js_scope.

(* ================================================================== *)
(** * The data the FPL API delivers *)
(* ================================================================== *)

(** An element of [bootstrap.teams]. *)
Module Team.
Record t : Type := { id : Z; name : string }.
End Team.

(** An element of [bootstrap.elements]; [form] and [selected_by_percent]
    arrive as decimal strings. *)
Module Player.
Record t : Type := {
  id : Z;
  first_name : string;
  second_name : string;
  web_name : string;
  team : Z;
  element_type : Z;
  status : string;
  minutes : Z;
  form : JS.numstr;
  total_points : Z;
  now_cost : Z;
  selected_by_percent : JS.numstr;
  goals_scored : Z;
  assists : Z;
  clean_sheets : Z
}.
End Player.

(** An element of the fixtures feed; [event] and [kickoff_time] are
    [null] until the match is scheduled.  [kickoff_time] holds the time
    value (milliseconds) of the date string. *)
Module Fixture.
Record t : Type := {
  id : Z;
  event : option Z;
  team_h : Z;
  team_a : Z;
  finished : bool;
  started : bool;
  kickoff_time : option Z;
  team_h_difficulty : Z;
  team_a_difficulty : Z
}.
End Fixture.

(** An element of a player's [history]. *)
Module Gameweek.
Record t : Type := {
  opponent_team : option Z;
  minutes : Z;
  total_points : Z
}.
End Gameweek.

(** The answer of [getPlayerData]; [history] may be missing. *)
Module PlayerData.
Record t : Type := { history : option (list Gameweek.t) }.
End PlayerData.

(** [new Date(k)] as a time value: [new Date(null)] is the epoch. *)
Definition new_Date (k : option Z) : JS.number := JS.to_number k.

(* ================================================================== *)
(** * class FPLAnalyzer *)
(* ================================================================== *)

Module FPLAnalyzer.

(** [x >= y] *)
Definition geb (x y : JS.number) : bool :=
  JS.ltb y x || JS.eqb x y.

(** The two local constants of [isRegularStarter]. *)
Definition estimatedGamesPlayed (player : Player.t) : JS.number :=
  JS.max (JS.of_Z 1)
         (JS.ceil (JS.div (JS.of_Z (Player.minutes player)) (JS.of_Z 90))).

Definition avgMinutesPerGame (player : Player.t) : JS.number :=
  JS.div (JS.of_Z (Player.minutes player)) (estimatedGamesPlayed player).

Definition isRegularStarter (player : Player.t) : bool :=
  if Player.minutes player <? 450 then false
  else
    let hasRecentPlayingTime :=
      negb (JS.eqb (JS.parseFloat (Player.form player)) (JS.of_Z 0))
      || (1800 <=? Player.minutes player) in
    geb (avgMinutesPerGame player) (JS.of_Z 60) && hasRecentPlayingTime.

(** The [averagePoints] field starts as the number 0 and is overwritten
    by a [toFixed] string. *)
Inductive average : Type :=
| AvgNumber (n : JS.number)
| AvgString (s : JS.numstr).

Record TeamStat : Type := {
  name : string;
  totalPoints : Z;
  playerCount : Z;
  averagePoints : average;
  totalGoals : Z;
  totalAssists : Z;
  cleanSheets : Z
}.

(** [teams.forEach(team => teamStats[team.id] = {...})] *)
Definition initStats (teams : list Team.t) : JS.obj TeamStat :=
  fold_left
    (fun teamStats team =>
       JS.obj_set (Team.id team)
         {| name := Team.name team; totalPoints := 0; playerCount := 0;
            averagePoints := AvgNumber (JS.of_Z 0);
            totalGoals := 0; totalAssists := 0; cleanSheets := 0 |}
         teamStats)
    teams [].

(** [allPlayersData.forEach(player => if (teamStats[player.team]) ...)] *)
Definition addPlayers (players : list Player.t) (teamStats : JS.obj TeamStat)
  : JS.obj TeamStat :=
  fold_left
    (fun teamStats player =>
       let teamId := Player.team player in
       match JS.obj_get teamId teamStats with
       | Some s =>
           JS.obj_set teamId
             {| name := name s;
                totalPoints := totalPoints s + Player.total_points player;
                playerCount := playerCount s + 1;
                averagePoints := averagePoints s;
                totalGoals := totalGoals s + Player.goals_scored player;
                totalAssists := totalAssists s + Player.assists player;
                cleanSheets := cleanSheets s + Player.clean_sheets player |}
             teamStats
       | None => teamStats
       end)
    players teamStats.

(** [team.averagePoints = (team.totalPoints / team.playerCount).toFixed(1)] *)
Definition setAverage (team : TeamStat) : TeamStat :=
  {| name := name team;
     totalPoints := totalPoints team;
     playerCount := playerCount team;
     averagePoints :=
       AvgString
         (JS.toFixed 1
            (JS.div (JS.of_Z (totalPoints team)) (JS.of_Z (playerCount team))));
     totalGoals := totalGoals team;
     totalAssists := totalAssists team;
     cleanSheets := cleanSheets team |}.

Definition analyzeTeamPerformance (teams : list Team.t)
    (allPlayersData : list Player.t) : list TeamStat :=
  let teamStats := addPlayers allPlayersData (initStats teams) in
  let teamStats := List.map (fun kv => (fst kv, setAverage (snd kv))) teamStats in
  JS.sort
    (fun a b => JS.sub (JS.of_Z (totalPoints b)) (JS.of_Z (totalPoints a)))
    (JS.obj_values teamStats).

(** ** The views over the player snapshot *)

(** The template [`${player.first_name} ${player.second_name}`]. *)
Definition fullName (player : Player.t) : string :=
  (Player.first_name player ++ " " ++ Player.second_name player)%string.

(** [player.now_cost / 10] *)
Definition price (player : Player.t) : JS.number :=
  JS.div (JS.of_Z (Player.now_cost player)) (JS.of_Z 10).

(** The comparator [(a, b) => b.total_points - a.total_points]. *)
Definition byTotalPoints (a b : Player.t) : JS.number :=
  JS.sub (JS.of_Z (Player.total_points b)) (JS.of_Z (Player.total_points a)).

(** The object [{1: 'Goalkeeper', 2: 'Defender', 3: 'Midfielder',
    4: 'Forward'}]; [None] is [undefined]. *)
Definition positionNames (elementType : Z) : option string :=
  match elementType with
  | 1 => Some "Goalkeeper"%string
  | 2 => Some "Defender"%string
  | 3 => Some "Midfielder"%string
  | 4 => Some "Forward"%string
  | _ => None
  end.

Definition getPositionName (elementType : Z) : string :=
  match positionNames elementType with
  | Some positionName => positionName
  | None => "Unknown"%string
  end.

Definition getTeamName (teams : list Team.t) (teamId : Z) : string :=
  match find (fun t => Team.id t =? teamId) teams with
  | Some team => Team.name team
  | None => "Unknown"%string
  end.

(** An element of the list [getTopScorers] returns. *)
Module TopScorer.
Record t : Type := {
  name : string;
  webName : string;
  totalPoints : Z;
  pointsPerGame : JS.number;
  form : JS.number;
  cost : JS.number;
  selectedBy : JS.number
}.
End TopScorer.

Section TopScorers.
(** The field [points_per_game] of an element, a decimal string;
    [Player.t] lists the fields the other functions read. *)
Variable points_per_game : Player.t -> JS.numstr.


End TopScorers.

(** An element of the list [getBestValuePlayers] returns. *)
Module ValuePlayer.
Record t : Type := {
  name : string;
  webName : string;
  totalPoints : Z;
  cost : JS.number;
  pointsPerMillion : JS.numstr;
  form : JS.number;
  selectedBy : JS.number;
  minutes : Z
}.
End ValuePlayer.

(** The first callback of [getBestValuePlayers] and of
    [getBestFormPlayers]. *)
Definition playsRegularly (player : Player.t) : bool :=
  isRegularStarter player && (20 <? Player.total_points player).

Definition valuePlayer (player : Player.t) : ValuePlayer.t :=
  {| ValuePlayer.name := fullName player;
     ValuePlayer.webName := Player.web_name player;
     ValuePlayer.totalPoints := Player.total_points player;
     ValuePlayer.cost := price player;
     ValuePlayer.pointsPerMillion :=
       JS.toFixed 2 (JS.div (JS.of_Z (Player.total_points player)) (price player));
     ValuePlayer.form := JS.parseFloat (Player.form player);
     ValuePlayer.selectedBy := JS.parseFloat (Player.selected_by_percent player);
     ValuePlayer.minutes := Player.minutes player |}.

(** The comparator [(a, b) => b.pointsPerMillion - a.pointsPerMillion]:
    the subtraction converts the two strings to numbers. *)
Definition byPointsPerMillion (a b : ValuePlayer.t) : JS.number :=
  JS.sub (JS.parseFloat (ValuePlayer.pointsPerMillion b))
         (JS.parseFloat (ValuePlayer.pointsPerMillion a)).

Definition getBestValuePlayers (allPlayersData : list Player.t) (limit : Z)
  : list ValuePlayer.t :=
  JS.slice0 limit
    (JS.sort byPointsPerMillion
       (List.filter (fun player => JS.gtb (ValuePlayer.cost player) (JS.of_Z 4))
          (List.map valuePlayer (List.filter playsRegularly allPlayersData)))).

(** An element of the list [getPlayersByPosition] returns; [position]
    is [undefined] for a position that has no name. *)
Module PositionPlayer.
Record t : Type := {
  name : string;
  webName : string;
  position : option string;
  totalPoints : Z;
  goalsScored : Z;
  assists : Z;
  cleanSheets : Z;
  cost : JS.number;
  form : JS.number;
  minutes : Z;
  selectedBy : JS.number
}.
End PositionPlayer.

Definition positionPlayer (player : Player.t) : PositionPlayer.t :=
  {| PositionPlayer.name := fullName player;
     PositionPlayer.webName := Player.web_name player;
     PositionPlayer.position := positionNames (Player.element_type player);
     PositionPlayer.totalPoints := Player.total_points player;
     PositionPlayer.goalsScored := Player.goals_scored player;
     PositionPlayer.assists := Player.assists player;
     PositionPlayer.cleanSheets := Player.clean_sheets player;
     PositionPlayer.cost := price player;
     PositionPlayer.form := JS.parseFloat (Player.form player);
     PositionPlayer.minutes := Player.minutes player;
     PositionPlayer.selectedBy := JS.parseFloat (Player.selected_by_percent player) |}.

Definition getPlayersByPosition (allPlayersData : list Player.t) (position : Z)
  : list PositionPlayer.t :=
  List.map positionPlayer
    (JS.sort byTotalPoints
       (List.filter (fun player => Player.element_type player =? position)
                    allPlayersData)).

(** An element of the list [getBestFormPlayers] returns. *)
Module FormPlayer.
Record t : Type := {
  name : string;
  webName : string;
  form : JS.number;
  totalPoints : Z;
  cost : JS.number;
  minutes : Z;
  selectedBy : JS.number
}.
End FormPlayer.

Definition formPlayer (player : Player.t) : FormPlayer.t :=
  {| FormPlayer.name := fullName player;
     FormPlayer.webName := Player.web_name player;
     FormPlayer.form := JS.parseFloat (Player.form player);
     FormPlayer.totalPoints := Player.total_points player;
     FormPlayer.cost := price player;
     FormPlayer.minutes := Player.minutes player;
     FormPlayer.selectedBy := JS.parseFloat (Player.selected_by_percent player) |}.

(** The comparator [(a, b) => parseFloat(b.form) - parseFloat(a.form)]. *)
Definition byForm (a b : Player.t) : JS.number :=
  JS.sub (JS.parseFloat (Player.form b)) (JS.parseFloat (Player.form a)).

Definition getBestFormPlayers (allPlayersData : list Player.t) (limit : Z)
  : list FormPlayer.t :=
  List.map formPlayer
    (JS.slice0 limit
       (JS.sort byForm (List.filter playsRegularly allPlayersData))).

(** An element of the list [getDifferentialPicks] returns. *)
Module Differential.
Record t : Type := {
  name : string;
  webName : string;
  totalPoints : Z;
  cost : JS.number;
  ownership : JS.number;
  form : JS.number;
  position : string
}.
End Differential.

Definition differential (player : Player.t) : Differential.t :=
  {| Differential.name := fullName player;
     Differential.webName := Player.web_name player;
     Differential.totalPoints := Player.total_points player;
     Differential.cost := price player;
     Differential.ownership := JS.parseFloat (Player.selected_by_percent player);
     Differential.form := JS.parseFloat (Player.form player);
     Differential.position := getPositionName (Player.element_type player) |}.

(** The callback of [.filter] in [getDifferentialPicks]. *)
Definition isDifferential (maxOwnership minPoints : JS.number)
    (player : Player.t) : bool :=
  JS.leb (JS.parseFloat (Player.selected_by_percent player)) maxOwnership
  && geb (JS.of_Z (Player.total_points player)) minPoints
  && isRegularStarter player.

Definition getDifferentialPicks (allPlayersData : list Player.t)
    (maxOwnership minPoints : JS.number) : list Differential.t :=
  List.map differential
    (JS.sort byTotalPoints
       (List.filter (isDifferential maxOwnership minPoints) allPlayersData)).

End FPLAnalyzer.

(* ================================================================== *)
(** * class TeamDefenseAnalyzer *)
(* ================================================================== *)

Module TeamDefenseAnalyzer.

(** A cell of the accumulator. *)
Module Cell.
Record t : Type := { name : string; pointsAllowed : Z; games : Z }.
End Cell.

(** [teamDefenseStats]: the object [{1: {}, 2: {}, 3: {}, 4: {}}] of the
    constructor; its four keys never change. *)
Record Stats : Type := {
  stats1 : JS.obj Cell.t;   (* Goalkeepers *)
  stats2 : JS.obj Cell.t;   (* Defenders *)
  stats3 : JS.obj Cell.t;   (* Midfielders *)
  stats4 : JS.obj Cell.t   (* Forwards *)
}.

Definition constructor : Stats :=
  {| stats1 := []; stats2 := []; stats3 := []; stats4 := [] |}.

(** [teamDefenseStats[position]]; [None] is [undefined]. *)
Definition stats_get (position : Z) (s : Stats) : option (JS.obj Cell.t) :=
  match position with
  | 1 => Some (stats1 s)
  | 2 => Some (stats2 s)
  | 3 => Some (stats3 s)
  | 4 => Some (stats4 s)
  | _ => None
  end.

(** The stats after [teamDefenseStats[position]] was mutated into [o]. *)
Definition stats_set (position : Z) (o : JS.obj Cell.t) (s : Stats) : Stats :=
  match position with
  | 1 => {| stats1 := o; stats2 := stats2 s; stats3 := stats3 s; stats4 := stats4 s |}
  | 2 => {| stats1 := stats1 s; stats2 := o; stats3 := stats3 s; stats4 := stats4 s |}
  | 3 => {| stats1 := stats1 s; stats2 := stats2 s; stats3 := o; stats4 := stats4 s |}
  | 4 => {| stats1 := stats1 s; stats2 := stats2 s; stats3 := stats3 s; stats4 := o |}
  | _ => s
  end.

(** The part of [initialize] after the bootstrap data is loaded. *)
Definition initialize (teams : list Team.t) : Stats :=
  fold_left
    (fun s team =>
       let fresh :=
         {| Cell.name := Team.name team; Cell.pointsAllowed := 0; Cell.games := 0 |} in
       {| stats1 := JS.obj_set (Team.id team) fresh (stats1 s);
          stats2 := JS.obj_set (Team.id team) fresh (stats2 s);
          stats3 := JS.obj_set (Team.id team) fresh (stats3 s);
          stats4 := JS.obj_set (Team.id team) fresh (stats4 s) |})
    teams constructor.

(** The callback of [playerData.history.forEach] in [processPlayerData]. *)
Definition processGameweek (playerPosition : Z) (s : Stats)
    (gameweek : Gameweek.t) : JS.result Stats :=
  let opponentTeamId := Gameweek.opponent_team gameweek in
  if (0 <? Gameweek.minutes gameweek) && JS.truthy opponentTeamId then
    match stats_get playerPosition s with
    | None => JS.TypeError
    | Some o =>
        let k := match opponentTeamId with Some k => k | None => 0 end in
        match JS.obj_get k o with
        | Some c =>
            JS.Ok
              (stats_set playerPosition
                 (JS.obj_set k
                    {| Cell.name := Cell.name c;
                       Cell.pointsAllowed :=
                         Cell.pointsAllowed c + Gameweek.total_points gameweek;
                       Cell.games := Cell.games c + 1 |}
                    o)
                 s)
        | None => JS.Ok s
        end
    end
  else JS.Ok s.

(** [history.forEach(callback)]: a throw ends the loop. *)
Fixpoint forEach (playerPosition : Z) (history : list Gameweek.t) (s : Stats)
  : JS.result Stats :=
  match history with
  | [] => JS.Ok s
  | gameweek :: rest =>
      s' <- processGameweek playerPosition s gameweek ;;
      forEach playerPosition rest s'
  end.

Definition processPlayerData (allPlayersData : list Player.t)
    (getPlayerData : Z -> PlayerData.t) (playerId : Z) (s : Stats)
  : JS.result Stats :=
  match find (fun p => Player.id p =? playerId) allPlayersData with
  | None => JS.Ok s
  | Some playerInfo =>
      let playerData := getPlayerData playerId in
      let playerPosition := Player.element_type playerInfo in
      match PlayerData.history playerData with
      | Some history =>
          if (0 <? Z.of_nat (List.length history)) then forEach playerPosition history s
          else JS.Ok s
      | None => JS.Ok s
      end
  end.

(** An element of the ranked output. *)
Module Ranked.
Record t : Type := {
  name : string;
  totalPointsAllowed : Z;
  gamesPlayed : Z;
  avgPointsAllowedPerGame : JS.numstr
}.
End Ranked.

Record Results : Type := {
  goalkeepers : list Ranked.t;
  defenders : list Ranked.t;
  midfielders : list Ranked.t;
  forwards : list Ranked.t
}.

(** The callback of [.map] in [calculateResults]. *)
Definition ranked (team : Cell.t) : Ranked.t :=
  {| Ranked.name := Cell.name team;
     Ranked.totalPointsAllowed := Cell.pointsAllowed team;
     Ranked.gamesPlayed := Cell.games team;
     Ranked.avgPointsAllowedPerGame :=
       JS.toFixed 2
         (JS.div (JS.of_Z (Cell.pointsAllowed team)) (JS.of_Z (Cell.games team))) |}.

(** The filter, map and sort over [Object.values(teams)]. *)
Definition sortedTeams (teams : JS.obj Cell.t) : list Ranked.t :=
  JS.sort
    (fun a b =>
       JS.sub (JS.of_Z (Ranked.totalPointsAllowed b))
              (JS.of_Z (Ranked.totalPointsAllowed a)))
    (List.map ranked
       (List.filter (fun team => 0 <? Cell.games team) (JS.obj_values teams))).

Definition calculateResults (s : Stats) : Results :=
  {| goalkeepers := sortedTeams (stats1 s);
     defenders := sortedTeams (stats2 s);
     midfielders := sortedTeams (stats3 s);
     forwards := sortedTeams (stats4 s) |}.

(** The loop of [analyzeTeamDefense] without its timers: every player
    id is processed and a throw of one player is caught and logged.  A
    throwing player has mutated nothing: the throw comes from the
    player's position, at the first record that passes the two tests. *)
Definition aggregate (teams : list Team.t) (allPlayersData : list Player.t)
    (getPlayerData : Z -> PlayerData.t) : Stats :=
  let playerIds := List.map Player.id allPlayersData in
  fold_left
    (fun s playerId =>
       match processPlayerData allPlayersData getPlayerData playerId s with
       | JS.Ok s' => s'
       | JS.TypeError => s
       end)
    playerIds (initialize teams).

Definition analyzeTeamDefense (teams : list Team.t)
    (allPlayersData : list Player.t) (getPlayerData : Z -> PlayerData.t)
  : Results :=
  calculateResults (aggregate teams allPlayersData getPlayerData).

(** The same loop when the players complete in the order [playerIds]:
    the part of [processPlayerData] that mutates the table runs when the
    fetch of the player is answered. *)
Definition processAll (allPlayersData : list Player.t)
    (getPlayerData : Z -> PlayerData.t) (playerIds : list Z) (s : Stats) : Stats :=
  fold_left
    (fun s playerId =>
       match processPlayerData allPlayersData getPlayerData playerId s with
       | JS.Ok s' => s'
       | JS.TypeError => s
       end)
    playerIds s.

(** An element of the list [getTopVulnerableTeams] returns. *)
Module Vulnerable.
Record t : Type := { name : string; totalPoints : Z; avgPoints : JS.numstr }.
End Vulnerable.

(** The own properties of [results]. *)
Definition results_get (position : string) (results : Results)
  : option (list Ranked.t) :=
  if String.eqb position "goalkeepers" then Some (goalkeepers results)
  else if String.eqb position "defenders" then Some (defenders results)
  else if String.eqb position "midfielders" then Some (midfielders results)
  else if String.eqb position "forwards" then Some (forwards results)
  else None.

(** The properties [results] inherits from [Object.prototype]: each is
    truthy and has no [slice]. *)
Definition inherited : list string :=
  [ "constructor"; "hasOwnProperty"; "isPrototypeOf"; "propertyIsEnumerable";
    "toLocaleString"; "toString"; "valueOf"; "__proto__";
    "__defineGetter__"; "__defineSetter__"; "__lookupGetter__";
    "__lookupSetter__" ]%string.

(** The callback of [.map] in [getTopVulnerableTeams]. *)
Definition vulnerable (team : Ranked.t) : Vulnerable.t :=
  {| Vulnerable.name := Ranked.name team;
     Vulnerable.totalPoints := Ranked.totalPointsAllowed team;
     Vulnerable.avgPoints := Ranked.avgPointsAllowedPerGame team |}.

Definition getTopVulnerableTeams (results : Results) (position : string)
    (limit : Z) : JS.result (list Vulnerable.t) :=
  match results_get position results with
  | Some teams => JS.Ok (List.map vulnerable (JS.slice0 limit teams))
  | None =>
      if existsb (String.eqb position) inherited then JS.TypeError
      else JS.Ok []
  end.

End TeamDefenseAnalyzer.

(* ================================================================== *)
(** * class PlayerFixtureAnalyzer *)
(* ================================================================== *)

(** An element of the list [getPlayerUpcomingFixtures] returns. *)
Module Upcoming.
Record t : Type := {
  gameweek : option Z;
  opponent : string;
  opponentId : Z;
  isHome : bool;
  difficulty : Z;
  vulnerabilityScore : JS.number
}.
End Upcoming.

(** An element of the lists [analyzeTimeHorizon] returns. *)
Module Analysis.
Record t : Type := {
  id : Z;
  name : string;
  webName : string;
  team : string;
  position : string;
  positionId : Z;
  cost : JS.number;
  totalPoints : Z;
  form : JS.number;
  fixturesCount : Z;
  totalVulnerabilityScore : JS.numstr;
  avgVulnerabilityScore : JS.numstr;
  fixtures : list Upcoming.t;
  selectedBy : JS.number
}.
End Analysis.

Module PlayerFixtureAnalyzer.

(** The fields of the instance after [initialize]. *)
Record t : Type := {
  defenseResults : TeamDefenseAnalyzer.Results;
  teams : list Team.t;                 (* bootstrapData.teams *)
  allPlayersData : list Player.t;
  fixtures : list Fixture.t
}.

(** [this.defenseResults[positionMap[position]]]; [None] is [undefined]. *)
Definition positionData (this : t) (position : Z)
  : option (list TeamDefenseAnalyzer.Ranked.t) :=
  match position with
  | 1 => Some (TeamDefenseAnalyzer.goalkeepers (defenseResults this))
  | 2 => Some (TeamDefenseAnalyzer.defenders (defenseResults this))
  | 3 => Some (TeamDefenseAnalyzer.midfielders (defenseResults this))
  | 4 => Some (TeamDefenseAnalyzer.forwards (defenseResults this))
  | _ => None
  end.

(** The callback of [positionData.find]: the ranked team is matched to
    the bootstrap team of the same name. *)
Definition isTeam (this : t) (teamId : Z) (team : TeamDefenseAnalyzer.Ranked.t)
  : bool :=
  match
    find (fun t => String.eqb (Team.name t) (TeamDefenseAnalyzer.Ranked.name team))
         (teams this)
  with
  | Some bootstrapTeam => Team.id bootstrapTeam =? teamId
  | None => false
  end.

Definition getVulnerabilityScore (this : t) (teamId position : Z)
  : JS.result JS.number :=
  match positionData this position with
  | None => JS.TypeError
  | Some positionData =>
      match find (isTeam this teamId) positionData with
      | None => JS.Ok (JS.of_Z 0)
      | Some teamData =>
          let avgPoints :=
            JS.parseFloat (TeamDefenseAnalyzer.Ranked.avgPointsAllowedPerGame teamData) in
          JS.Ok (JS.min (JS.of_Z 10)
                        (JS.max (JS.of_Z 0) (JS.mul avgPoints (JS.Fin (5 # 2)))))
      end
  end.

(** The result is [upcomingFixtures[0].event], which may be [null]
    ([None]), or the clamped fallback. *)
Definition getCurrentGameweek (this : t) : option JS.number :=
  let upcomingFixtures :=
    JS.sort
      (fun a b =>
         JS.sub (new_Date (Fixture.kickoff_time a))
                (new_Date (Fixture.kickoff_time b)))
      (List.filter
         (fun f => negb (Fixture.finished f) && negb (Fixture.started f))
         (fixtures this)) in
  match upcomingFixtures with
  | first :: _ => option_map JS.of_Z (Fixture.event first)
  | [] =>
      let maxGameweek :=
        JS.max_list
          (List.map (fun f => JS.to_number (Fixture.event f)) (fixtures this)) in
      Some (JS.min (JS.of_Z 38) (JS.add maxGameweek (JS.of_Z 1)))
  end.

(** [Array.from({length: gameweeksAhead}, (_, i) => currentGameweek + i)];
    a [null] gameweek adds as 0. *)
Definition targetGameweeks (currentGameweek : option JS.number)
    (gameweeksAhead : nat) : list JS.number :=
  List.map
    (fun i =>
       JS.add (match currentGameweek with Some g => g | None => JS.of_Z 0 end)
              (JS.of_Z (Z.of_nat i)))
    (seq 0 gameweeksAhead).

(** [targets.includes(event)]: [null] equals no number. *)
Definition includes (targets : list JS.number) (event : option Z) : bool :=
  match event with
  | Some e => existsb (fun g => JS.eqb g (JS.of_Z e)) targets
  | None => false
  end.

(** The callback of [fixtures.filter] in [getPlayerUpcomingFixtures]. *)
Definition qualifies (targets : list JS.number) (player : Player.t)
    (fixture : Fixture.t) : bool :=
  includes targets (Fixture.event fixture)
  && ((Fixture.team_a fixture =? Player.team player)
      || (Fixture.team_h fixture =? Player.team player))
  && negb (Fixture.finished fixture).

(** The callback of [.map] in [getPlayerUpcomingFixtures]. *)
Definition upcomingOf (this : t) (player : Player.t) (fixture : Fixture.t)
  : JS.result Upcoming.t :=
  let isHome := Fixture.team_h fixture =? Player.team player in
  let opponentId := if isHome then Fixture.team_a fixture else Fixture.team_h fixture in
  let opponent := find (fun t => Team.id t =? opponentId) (teams this) in
  score <- getVulnerabilityScore this opponentId (Player.element_type player) ;;
  JS.Ok
    {| Upcoming.gameweek := Fixture.event fixture;
       Upcoming.opponent :=
         match opponent with Some o => Team.name o | None => "Unknown"%string end;
       Upcoming.opponentId := opponentId;
       Upcoming.isHome := isHome;
       Upcoming.difficulty :=
         if isHome then Fixture.team_h_difficulty fixture
         else Fixture.team_a_difficulty fixture;
       Upcoming.vulnerabilityScore := score |}.

Definition getPlayerUpcomingFixtures (this : t) (playerId : Z)
    (gameweeksAhead : nat) : JS.result (list Upcoming.t) :=
  match find (fun p => Player.id p =? playerId) (allPlayersData this) with
  | None => JS.Ok []
  | Some player =>
      let currentGameweek := getCurrentGameweek this in
      let targetGameweeks := targetGameweeks currentGameweek gameweeksAhead in
      mapped <-
        JS.mapM (upcomingOf this player)
                (List.filter (qualifies targetGameweeks player) (fixtures this)) ;;
      JS.Ok
        (JS.sort
           (fun a b =>
              JS.sub (JS.to_number (Upcoming.gameweek a))
                     (JS.to_number (Upcoming.gameweek b)))
           mapped)
  end.

Definition getPositionName (elementType : Z) : string :=
  match elementType with
  | 1 => "Goalkeeper"
  | 2 => "Defender"
  | 3 => "Midfielder"
  | 4 => "Forward"
  | _ => "Unknown"
  end.

(** The first callback of [analyzeTimeHorizon]: who is considered. *)
Definition eligible (player : Player.t) : bool :=
  String.eqb (Player.status player) "a" && (200 <? Player.minutes player).

(** The callback of [.map] in [analyzeTimeHorizon]. *)
Definition analysisOf (this : t) (gameweeksAhead : nat) (player : Player.t)
  : JS.result Analysis.t :=
  fixtures <- getPlayerUpcomingFixtures this (Player.id player) gameweeksAhead ;;
  let totalVulnerability :=
    fold_left (fun sum fixture => JS.add sum (Upcoming.vulnerabilityScore fixture))
              fixtures (JS.of_Z 0) in
  let avgVulnerability :=
    if 0 <? Z.of_nat (List.length fixtures)
    then JS.div totalVulnerability (JS.of_Z (Z.of_nat (List.length fixtures)))
    else JS.of_Z 0 in
  JS.Ok
    {| Analysis.id := Player.id player;
       Analysis.name :=
         (Player.first_name player ++ " " ++ Player.second_name player)%string;
       Analysis.webName := Player.web_name player;
       Analysis.team :=
         match find (fun t => Team.id t =? Player.team player) (teams this) with
         | Some t =>
             (* [name || 'Unknown']: the empty name is falsy *)
             if String.eqb (Team.name t) EmptyString then "Unknown"%string else Team.name t
         | None => "Unknown"%string
         end;
       Analysis.position := getPositionName (Player.element_type player);
       Analysis.positionId := Player.element_type player;
       Analysis.cost := JS.div (JS.of_Z (Player.now_cost player)) (JS.of_Z 10);
       Analysis.totalPoints := Player.total_points player;
       Analysis.form := JS.parseFloat (Player.form player);
       Analysis.fixturesCount := Z.of_nat (List.length fixtures);
       Analysis.totalVulnerabilityScore := JS.toFixed 2 totalVulnerability;
       Analysis.avgVulnerabilityScore := JS.toFixed 2 avgVulnerability;
       Analysis.fixtures := fixtures;
       Analysis.selectedBy := JS.parseFloat (Player.selected_by_percent player) |}.

(** The comparator of the per-position sort.  [form] already holds a
    number, on which [parseFloat] is the identity. *)
Definition compareAnalysis (a b : Analysis.t) : JS.number :=
  let scoreDiff :=
    JS.sub (JS.parseFloat (Analysis.totalVulnerabilityScore b))
           (JS.parseFloat (Analysis.totalVulnerabilityScore a)) in
  if JS.gtb (JS.abs scoreDiff) (JS.Fin (1 # 2)) then scoreDiff
  else JS.sub (Analysis.form b) (Analysis.form a).

Record Positions : Type := {
  Goalkeeper : list Analysis.t;
  Defender : list Analysis.t;
  Midfielder : list Analysis.t;
  Forward : list Analysis.t
}.

(** The array [playerAnalysis] of [analyzeTimeHorizon]. *)
Definition playerAnalysis (this : t) (gameweeksAhead : nat)
  : JS.result (list Analysis.t) :=
  mapped <-
    JS.mapM (analysisOf this gameweeksAhead)
            (List.filter eligible (allPlayersData this)) ;;
  JS.Ok (List.filter (fun player => 0 <? Analysis.fixturesCount player) mapped).

Definition analyzeTimeHorizon (this : t) (gameweeksAhead : nat)
  : JS.result Positions :=
  playerAnalysis <- playerAnalysis this gameweeksAhead ;;
  let ofPosition k :=
    JS.sort compareAnalysis
            (List.filter (fun p => Analysis.positionId p =? k) playerAnalysis) in
  JS.Ok
    {| Goalkeeper := ofPosition 1;
       Defender := ofPosition 2;
       Midfielder := ofPosition 3;
       Forward := ofPosition 4 |}.

(** [recommendations] is keyed by the horizons; a throw of one horizon
    ends the loop. *)
Definition getPlayerRecommendations (this : t) (timeHorizons : list nat)
  : JS.result (JS.obj Positions) :=
  fold_left
    (fun acc weeks =>
       recommendations <- acc ;;
       positions <- analyzeTimeHorizon this weeks ;;
       JS.Ok (JS.obj_set (Z.of_nat weeks) positions recommendations))
    timeHorizons (JS.Ok []).

(** The default of [timeHorizons]. *)
Definition defaultHorizons : list nat := [1; 3; 5]%nat.

End PlayerFixtureAnalyzer.

(* ================================================================== *)
(** * Vocabulary of the properties *)
(* ================================================================== *)

(** ** Orders and sorting *)

(** The comparator lets [x] stay in front of [y]. *)
Definition keeps {A : Type} (cmp : A -> A -> JS.number) (x y : A) : Prop :=
  JS.sgn (cmp x y) <> Gt.

(** [x] occurs in front of an occurrence of [y]. *)
Inductive before {A : Type} (x y : A) : list A -> Prop :=
| before_here (l : list A) : In y l -> before x y (x :: l)
| before_later (a : A) (l : list A) : before x y l -> before x y (a :: l).

(** ** The ranking *)

(** Two analysed players have the same total and the same form. *)
Definition same_keys (a b : Analysis.t) : Prop :=
  JS.eqb (JS.parseFloat (Analysis.totalVulnerabilityScore a))
         (JS.parseFloat (Analysis.totalVulnerabilityScore b)) = true
  /\ JS.eqb (Analysis.form a) (Analysis.form b) = true.

(** The four ranked lists of a horizon, one after the other. *)
Definition ranked_players (out : PlayerFixtureAnalyzer.Positions)
  : list Analysis.t :=
  PlayerFixtureAnalyzer.Goalkeeper out ++ PlayerFixtureAnalyzer.Defender out
  ++ PlayerFixtureAnalyzer.Midfielder out ++ PlayerFixtureAnalyzer.Forward out.

(** ** The current gameweek and the horizon *)

(** The time value [getCurrentGameweek] orders the fixtures by. *)
Definition kickoff (f : Fixture.t) : Z :=
  match Fixture.kickoff_time f with Some t => t | None => 0 end.

(** [f.event || 0] *)
Definition eventOr0 (f : Fixture.t) : Z :=
  match Fixture.event f with Some e => e | None => 0 end.

(** The fixture is neither finished nor started. *)
Definition upcoming (f : Fixture.t) : bool :=
  negb (Fixture.finished f) && negb (Fixture.started f).

(** [currentGameweek + i], a [null] gameweek counting as 0. *)
Definition gameweekPlus (currentGameweek : option JS.number) (i : nat) : JS.number :=
  JS.add (match currentGameweek with Some g => g | None => JS.of_Z 0 end)
         (JS.of_Z (Z.of_nat i)).

(** The event is one of [current], [current + 1], ..., [current + N - 1]. *)
Definition in_horizon (currentGameweek : option JS.number) (N : nat)
    (event : option Z) : Prop :=
  exists e i, event = Some e /\ (i < N)%nat
              /\ JS.eqb (gameweekPlus currentGameweek i) (JS.of_Z e) = true.

(** The fixtures of the feed that count for [player] within [N] gameweeks. *)
Definition qualifying (this : PlayerFixtureAnalyzer.t) (player : Player.t)
    (N : nat) : list Fixture.t :=
  List.filter
    (PlayerFixtureAnalyzer.qualifies
       (PlayerFixtureAnalyzer.targetGameweeks
          (PlayerFixtureAnalyzer.getCurrentGameweek this) N)
       player)
    (PlayerFixtureAnalyzer.fixtures this).

(** What the entry [e] records about the fixture [f] of [player]. *)
Definition entry_of (this : PlayerFixtureAnalyzer.t) (player : Player.t)
    (f : Fixture.t) (e : Upcoming.t) : Prop :=
  let home := Fixture.team_h f =? Player.team player in
  Upcoming.gameweek e = Fixture.event f
  /\ Upcoming.isHome e = home
  /\ Upcoming.opponentId e = (if home then Fixture.team_a f else Fixture.team_h f)
  /\ Upcoming.opponent e
     = match find (fun t => Team.id t =? Upcoming.opponentId e)
                  (PlayerFixtureAnalyzer.teams this) with
       | Some t => Team.name t
       | None => "Unknown"%string
       end
  /\ Upcoming.difficulty e
     = (if home then Fixture.team_h_difficulty f else Fixture.team_a_difficulty f)
  /\ PlayerFixtureAnalyzer.getVulnerabilityScore
       this (Upcoming.opponentId e) (Player.element_type player)
     = JS.Ok (Upcoming.vulnerabilityScore e).

(** ** The accumulator *)

(** The position is one of the four keys of [teamDefenseStats]. *)
Definition valid_position (position : Z) : Prop := 1 <= position <= 4.

(** [teamDefenseStats[position][teamId]] *)
Definition cell_at (position teamId : Z) (s : TeamDefenseAnalyzer.Stats)
  : option TeamDefenseAnalyzer.Cell.t :=
  match TeamDefenseAnalyzer.stats_get position s with
  | Some o => JS.obj_get teamId o
  | None => None
  end.

(** The cell after [points] more points in [n] more games. *)
Definition credit (points n : Z) (c : TeamDefenseAnalyzer.Cell.t)
  : TeamDefenseAnalyzer.Cell.t :=
  {| TeamDefenseAnalyzer.Cell.name := TeamDefenseAnalyzer.Cell.name c;
     TeamDefenseAnalyzer.Cell.pointsAllowed :=
       TeamDefenseAnalyzer.Cell.pointsAllowed c + points;
     TeamDefenseAnalyzer.Cell.games := TeamDefenseAnalyzer.Cell.games c + n |}.

(** The record of a player at [playerPosition] counts for the cell
    ([position], [teamId]). *)
Definition contributes (position teamId playerPosition : Z)
    (gameweek : Gameweek.t) : bool :=
  (playerPosition =? position)
  && (0 <? Gameweek.minutes gameweek)
  && match Gameweek.opponent_team gameweek with
     | Some k => (k =? teamId) && negb (k =? 0)
     | None => false
     end.

Definition sumZ (l : list Z) : Z := fold_right Z.add 0 l.

(** What a history adds to the cell ([position], [teamId]). *)
Definition pointsOf (position teamId playerPosition : Z)
    (history : list Gameweek.t) : Z :=
  sumZ (List.map Gameweek.total_points
          (List.filter (contributes position teamId playerPosition) history)).

Definition gamesOf (position teamId playerPosition : Z)
    (history : list Gameweek.t) : Z :=
  Z.of_nat (List.length
              (List.filter (contributes position teamId playerPosition) history)).

(** The keys of the object ascend. *)
Definition obj_sorted {V : Type} (o : JS.obj V) : Prop :=
  StronglySorted Z.lt (List.map fst o).

(** Every cell sits under the id of a team and carries that team's name. *)
Definition names_ok (teams : list Team.t) (o : JS.obj TeamDefenseAnalyzer.Cell.t)
  : Prop :=
  forall k c, In (k, c) o ->
    exists t, In t teams /\ Team.id t = k
              /\ Team.name t = TeamDefenseAnalyzer.Cell.name c.

Definition table_ok (teams : list Team.t)
    (o : JS.obj TeamDefenseAnalyzer.Cell.t) : Prop :=
  obj_sorted o /\ names_ok teams o.

Definition stats_ok (teams : list Team.t) (s : TeamDefenseAnalyzer.Stats) : Prop :=
  table_ok teams (TeamDefenseAnalyzer.stats1 s)
  /\ table_ok teams (TeamDefenseAnalyzer.stats2 s)
  /\ table_ok teams (TeamDefenseAnalyzer.stats3 s)
  /\ table_ok teams (TeamDefenseAnalyzer.stats4 s).

(** ** Averages and scores *)

(** The average of a cell as a rational. *)
Definition exactAverage (c : TeamDefenseAnalyzer.Cell.t) : Q :=
  inject_Z (TeamDefenseAnalyzer.Cell.pointsAllowed c)
  / inject_Z (TeamDefenseAnalyzer.Cell.games c).

(** The number of hundredths [toFixed(2)] prints for it. *)
Definition hundredths (c : TeamDefenseAnalyzer.Cell.t) : Z :=
  JS.round_half_away (exactAverage c * 100).

(** The average as [toFixed(2)] prints it. *)
Definition avgPointsAllowed (c : TeamDefenseAnalyzer.Cell.t) : Q :=
  inject_Z (hundredths c) / 100.

(** [clamp(x, 0, 10)] *)
Definition clamp (x : Q) : Q := Qmin 10 (Qmax 0 x).

(** [Math.min(10, Math.max(0, avgPoints * 2.5))] on the parsed average. *)
Definition scoreOf (avg : JS.numstr) : JS.number :=
  JS.min (JS.of_Z 10)
         (JS.max (JS.of_Z 0) (JS.mul (JS.parseFloat avg) (JS.Fin (5 # 2)))).

(** The score the table assigns to ([teamId], [position]). *)
Definition tableScore (s : TeamDefenseAnalyzer.Stats) (teamId position : Z)
  : JS.number :=
  match cell_at position teamId s with
  | Some c =>
      if 0 <? TeamDefenseAnalyzer.Cell.games c
      then scoreOf (JS.Decimal 2 (hundredths c))
      else JS.of_Z 0
  | None => JS.of_Z 0
  end.

(** [s] prints [points / games] with two decimals: the nearest
    hundredth. *)
Definition two_decimal_average (points games : Z) (s : JS.numstr) : Prop :=
  exists n, s = JS.Decimal 2 n
            /\ (Qabs (inject_Z n / 100 - inject_Z points / inject_Z games)
                <= 1 # 200)%Q.

(** [v] is the score of the average [points / games]: the average
    printed with two decimals, times 2.5, clamped to [0, 10].  The
    product is taken up to 10^-9: the rounding of a double product of
    this size is smaller. *)
Definition score_of_average (points games : Z) (v : JS.number) : Prop :=
  exists n q,
    two_decimal_average points games (JS.Decimal 2 n)
    /\ v = JS.Fin q
    /\ (Qabs (q - clamp (inject_Z n / 100 * (5 # 2))) <= 1 # 1000000000)%Q.

(** The ranked entry [e] shows the cell [c]: the name, the points and
    the games of the cell, and their quotient printed with two
    decimals. *)
Definition shows (c : TeamDefenseAnalyzer.Cell.t) (e : TeamDefenseAnalyzer.Ranked.t)
  : Prop :=
  TeamDefenseAnalyzer.Ranked.name e = TeamDefenseAnalyzer.Cell.name c
  /\ TeamDefenseAnalyzer.Ranked.totalPointsAllowed e
     = TeamDefenseAnalyzer.Cell.pointsAllowed c
  /\ TeamDefenseAnalyzer.Ranked.gamesPlayed e = TeamDefenseAnalyzer.Cell.games c
  /\ two_decimal_average
       (TeamDefenseAnalyzer.Cell.pointsAllowed c)
       (TeamDefenseAnalyzer.Cell.games c)
       (TeamDefenseAnalyzer.Ranked.avgPointsAllowedPerGame e).

(** [l] ranks the cells of [o]: its entries show, one for one, the cells
    with a game taken in some order, and they descend by total. *)
Definition ranking_of (o : JS.obj TeamDefenseAnalyzer.Cell.t)
    (l : list TeamDefenseAnalyzer.Ranked.t) : Prop :=
  (exists cells,
     Permutation
       (List.filter (fun c => 0 <? TeamDefenseAnalyzer.Cell.games c)
                    (JS.obj_values o))
       cells
     /\ Forall2 shows cells l)
  /\ Forall (fun e => 0 < TeamDefenseAnalyzer.Ranked.gamesPlayed e) l
  /\ StronglySorted
       (fun a b => TeamDefenseAnalyzer.Ranked.totalPointsAllowed b
                   <= TeamDefenseAnalyzer.Ranked.totalPointsAllowed a)
       l.

(** The list of one position in the output of [analyzeTimeHorizon]. *)
Definition position_list (out : PlayerFixtureAnalyzer.Positions) (k : Z)
  : list Analysis.t :=
  match k with
  | 1 => PlayerFixtureAnalyzer.Goalkeeper out
  | 2 => PlayerFixtureAnalyzer.Defender out
  | 3 => PlayerFixtureAnalyzer.Midfielder out
  | 4 => PlayerFixtureAnalyzer.Forward out
  | _ => []
  end.

(** The value of an outcome, [d] after a throw. *)
Definition value_or {A : Type} (r : JS.result A) (d : A) : A :=
  match r with
  | JS.Ok a => a
  | JS.TypeError => d
  end.

(** ** The whole aggregation *)

(** The team [teams.forEach] handles last under the id. *)
Definition lastTeam (teams : list Team.t) (teamId : Z) : option Team.t :=
  find (fun t => Team.id t =? teamId) (rev teams).

(** The cell [initialize] writes for a team. *)
Definition freshCell (team : Team.t) : TeamDefenseAnalyzer.Cell.t :=
  {| TeamDefenseAnalyzer.Cell.name := Team.name team;
     TeamDefenseAnalyzer.Cell.pointsAllowed := 0;
     TeamDefenseAnalyzer.Cell.games := 0 |}.

(** The history [processPlayerData] walks for the player id. *)
Definition historyOf (getPlayerData : Z -> PlayerData.t) (playerId : Z)
  : list Gameweek.t :=
  match PlayerData.history (getPlayerData playerId) with
  | Some h => h
  | None => []
  end.

(** The records of the player id that count for the cell ([position],
    [teamId]): none when the id is not in the bootstrap data. *)
Definition countedRecords (allPlayersData : list Player.t)
    (getPlayerData : Z -> PlayerData.t) (position teamId playerId : Z)
  : list Gameweek.t :=
  match find (fun p => Player.id p =? playerId) allPlayersData with
  | Some playerInfo =>
      List.filter (contributes position teamId (Player.element_type playerInfo))
                  (historyOf getPlayerData playerId)
  | None => []
  end.

(** The records of all the ids, one id after the other. *)
Definition allCounted (allPlayersData : list Player.t)
    (getPlayerData : Z -> PlayerData.t) (position teamId : Z)
    (playerIds : list Z) : list Gameweek.t :=
  flat_map (countedRecords allPlayersData getPlayerData position teamId) playerIds.

(** The records [processPlayerData] walks for the ids, one id after the
    other: the histories of the ids that are in the bootstrap data. *)
Definition walkedRecords (allPlayersData : list Player.t)
    (getPlayerData : Z -> PlayerData.t) (playerIds : list Z) : list Gameweek.t :=
  flat_map
    (fun playerId =>
       match find (fun p => Player.id p =? playerId) allPlayersData with
       | Some _ => historyOf getPlayerData playerId
       | None => []
       end)
    playerIds.

(** The points of the records, in absolute value, and their number stay
    below 2^53: every sum the aggregation forms of them is an integer a
    double holds exactly. *)
Definition exactly_added (records : list Gameweek.t) : Prop :=
  sumZ (List.map (fun g => Z.abs (Gameweek.total_points g)) records) < 2 ^ 53
  /\ Z.of_nat (List.length records) < 2 ^ 53.

(** The id is an array index: an integer from 0 to 2^32 - 2.  An object
    enumerates such keys in ascending order, before any other key. *)
Definition array_index (k : Z) : Prop := 0 <= k < 2 ^ 32 - 1.

(** ** Team performance *)

(** The players of the snapshot whose team is [teamId]. *)
Definition squad (teamId : Z) (allPlayersData : list Player.t) : list Player.t :=
  List.filter (fun player => Player.team player =? teamId) allPlayersData.

(** The statistics [stat] after the players [squad] were added to
    them. *)
Definition withPlayers (stat : FPLAnalyzer.TeamStat) (squad : list Player.t)
  : FPLAnalyzer.TeamStat :=
  {| FPLAnalyzer.name := FPLAnalyzer.name stat;
     FPLAnalyzer.totalPoints :=
       FPLAnalyzer.totalPoints stat + sumZ (List.map Player.total_points squad);
     FPLAnalyzer.playerCount :=
       FPLAnalyzer.playerCount stat + Z.of_nat (List.length squad);
     FPLAnalyzer.averagePoints := FPLAnalyzer.averagePoints stat;
     FPLAnalyzer.totalGoals :=
       FPLAnalyzer.totalGoals stat + sumZ (List.map Player.goals_scored squad);
     FPLAnalyzer.totalAssists :=
       FPLAnalyzer.totalAssists stat + sumZ (List.map Player.assists squad);
     FPLAnalyzer.cleanSheets :=
       FPLAnalyzer.cleanSheets stat + sumZ (List.map Player.clean_sheets squad) |}.

(** The statistics [analyzeTeamPerformance] starts a team with. *)
Definition freshStat (team : Team.t) : FPLAnalyzer.TeamStat :=
  {| FPLAnalyzer.name := Team.name team;
     FPLAnalyzer.totalPoints := 0;
     FPLAnalyzer.playerCount := 0;
     FPLAnalyzer.averagePoints := FPLAnalyzer.AvgNumber (JS.of_Z 0);
     FPLAnalyzer.totalGoals := 0;
     FPLAnalyzer.totalAssists := 0;
     FPLAnalyzer.cleanSheets := 0 |}.

(** The entry of the team in the output of [analyzeTeamPerformance]:
    the totals of its players and their average with one decimal. *)
Definition teamEntry (team : Team.t) (allPlayersData : list Player.t)
  : FPLAnalyzer.TeamStat :=
  let players := squad (Team.id team) allPlayersData in
  let total := sumZ (List.map Player.total_points players) in
  let count := Z.of_nat (List.length players) in
  {| FPLAnalyzer.name := Team.name team;
     FPLAnalyzer.totalPoints := total;
     FPLAnalyzer.playerCount := count;
     FPLAnalyzer.averagePoints :=
       FPLAnalyzer.AvgString
         (JS.toFixed 1 (JS.div (JS.of_Z total) (JS.of_Z count)));
     FPLAnalyzer.totalGoals := sumZ (List.map Player.goals_scored players);
     FPLAnalyzer.totalAssists := sumZ (List.map Player.assists players);
     FPLAnalyzer.cleanSheets := sumZ (List.map Player.clean_sheets players) |}.

(** The entry [stat] holds the name of [team] and the totals of the
    players of the team in the snapshot. *)
Definition totals_of (team : Team.t) (allPlayersData : list Player.t)
    (stat : FPLAnalyzer.TeamStat) : Prop :=
  let players := squad (Team.id team) allPlayersData in
  FPLAnalyzer.name stat = Team.name team
  /\ FPLAnalyzer.totalPoints stat = sumZ (List.map Player.total_points players)
  /\ FPLAnalyzer.playerCount stat = Z.of_nat (List.length players)
  /\ FPLAnalyzer.totalGoals stat = sumZ (List.map Player.goals_scored players)
  /\ FPLAnalyzer.totalAssists stat = sumZ (List.map Player.assists players)
  /\ FPLAnalyzer.cleanSheets stat = sumZ (List.map Player.clean_sheets players).

(** ** Keys of the sorted views *)

(** The gameweek of an entry, [null] counting as 0 as in the comparator
    of [getPlayerUpcomingFixtures]. *)
Definition gameweekOr0 (e : Upcoming.t) : Z :=
  match Upcoming.gameweek e with Some g => g | None => 0 end.

(** The scaled integer of a decimal string; 0 for the other strings. *)
Definition decimalOf (s : JS.numstr) : Z :=
  match s with
  | JS.Decimal _ n => n
  | _ => 0
  end.

(** The rational a finite number holds; 0 for the others. *)
Definition finiteOr0 (x : JS.number) : Q :=
  match x with
  | JS.Fin q => q
  | _ => 0%Q
  end.

(** ** The order of the ranking *)

(** The total and the form of an analysed player as rationals. *)
Definition totalOf (r : Analysis.t) : Q :=
  finiteOr0 (JS.parseFloat (Analysis.totalVulnerabilityScore r)).

Definition formOf (r : Analysis.t) : Q := finiteOr0 (Analysis.form r).

(** The order the ranking aims at.  [a] may stand in front of [b] when
    its total is more than 0.5 above the total of [b], or when the two
    totals are within 0.5 of each other and its form is not below the
    form of [b]. *)
Definition ranks_before (a b : Analysis.t) : Prop :=
  (totalOf b + (1 # 2) < totalOf a)%Q
  \/ ((Qabs (totalOf b - totalOf a) <= 1 # 2)%Q /\ (formOf b <= formOf a)%Q).

(** The record holds a total with two decimals and a form that is a
    finite number. *)
Definition numeric (r : Analysis.t) : Prop :=
  (exists n, Analysis.totalVulnerabilityScore r = JS.Decimal 2 n)
  /\ exists f, Analysis.form r = JS.Fin f.

(** No two totals of the list are 0.5 apart: at this distance the
    rounding of the double difference decides on which side of the
    threshold a pair falls. *)
Definition off_threshold (l : list Analysis.t) : Prop :=
  forall a b, In a l -> In b l ->
    ~ (Qabs (totalOf b - totalOf a) == 1 # 2)%Q.

(** [ranks_before] is transitive on the list. *)
Definition chains (l : list Analysis.t) : Prop :=
  forall a b c, In a l -> In b l -> In c l ->
    ranks_before a b -> ranks_before b c -> ranks_before a c.

(* ================================================================== *)
(** * A small season *)
(* ================================================================== *)

Definition teamX : Team.t := {| Team.id := 7; Team.name := "TeamX" |}.
Definition team3 : Team.t := {| Team.id := 3; Team.name := "Team3" |}.
Definition teamY : Team.t := {| Team.id := 9; Team.name := "TeamY" |}.

(** A player of Team3 who is available, with 900 minutes and form 8.0. *)
Definition player_of (id element_type : Z) : Player.t :=
  {| Player.id := id;
     Player.first_name := "Sam";
     Player.second_name := "Striker";
     Player.web_name := "Striker";
     Player.team := 3;
     Player.element_type := element_type;
     Player.status := "a";
     Player.minutes := 900;
     Player.form := JS.Decimal 1 80;
     Player.total_points := 8;
     Player.now_cost := 75;
     Player.selected_by_percent := JS.Decimal 1 12;
     Player.goals_scored := 1;
     Player.assists := 0;
     Player.clean_sheets := 0 |}.

(** 90 minutes against the team [opponent] for [points] points. *)
Definition record_of (opponent points : Z) : Gameweek.t :=
  {| Gameweek.opponent_team := Some opponent;
     Gameweek.minutes := 90;
     Gameweek.total_points := points |}.

(** Player 1 has one record, 8 points against [opponent]; nobody else has
    a history. *)
Definition single_record (opponent : Z) (playerId : Z) : PlayerData.t :=
  {| PlayerData.history :=
       if playerId =? 1 then Some [record_of opponent 8] else None |}.

(** Player 1 scored 8 points against the team [first] and 2 against the
    team [second]. *)
Definition two_records (first second : Z) (playerId : Z) : PlayerData.t :=
  {| PlayerData.history :=
       if playerId =? 1 then Some [record_of first 8; record_of second 2]
       else None |}.

Definition fixture_of (event home away : Z) (played : bool) (kickoff_time : Z)
  : Fixture.t :=
  {| Fixture.id := event;
     Fixture.event := Some event;
     Fixture.team_h := home;
     Fixture.team_a := away;
     Fixture.finished := played;
     Fixture.started := played;
     Fixture.kickoff_time := Some kickoff_time;
     Fixture.team_h_difficulty := 2;
     Fixture.team_a_difficulty := 4 |}.

(** Two forwards of Team3; Team3 visits TeamX in gameweek 4 and hosts it
    in gameweek 5.  TeamX has conceded 8 points to forwards in one game,
    TeamY 2 points. *)
Definition season : PlayerFixtureAnalyzer.t :=
  {| PlayerFixtureAnalyzer.defenseResults :=
       TeamDefenseAnalyzer.analyzeTeamDefense
         [teamX; team3; teamY] [player_of 1 4; player_of 2 4] (two_records 7 9);
     PlayerFixtureAnalyzer.teams := [teamX; team3; teamY];
     PlayerFixtureAnalyzer.allPlayersData := [player_of 1 4; player_of 2 4];
     PlayerFixtureAnalyzer.fixtures :=
       [fixture_of 5 3 7 false 100; fixture_of 4 7 3 false 50] |}.

(** The same season when gameweek 38 has been played. *)
Definition season_over : PlayerFixtureAnalyzer.t :=
  {| PlayerFixtureAnalyzer.defenseResults :=
       PlayerFixtureAnalyzer.defenseResults season;
     PlayerFixtureAnalyzer.teams := [teamX; team3; teamY];
     PlayerFixtureAnalyzer.allPlayersData := [player_of 1 4; player_of 2 4];
     PlayerFixtureAnalyzer.fixtures :=
       [fixture_of 37 3 7 true 100; fixture_of 38 7 3 true 200] |}.

Definition no_positions : PlayerFixtureAnalyzer.Positions :=
  {| PlayerFixtureAnalyzer.Goalkeeper := [];
     PlayerFixtureAnalyzer.Defender := [];
     PlayerFixtureAnalyzer.Midfielder := [];
     PlayerFixtureAnalyzer.Forward := [] |}.

(** The recommendations of the season for three gameweeks. *)
Definition season_analysed : list Analysis.t :=
  value_or (PlayerFixtureAnalyzer.playerAnalysis season 3) [].

Definition season_out : PlayerFixtureAnalyzer.Positions :=
  value_or (PlayerFixtureAnalyzer.analyzeTimeHorizon season 3) no_positions.

(** An analysed forward with the given total (in hundredths) and form. *)
Definition analysed_of (id total form : Z) : Analysis.t :=
  {| Analysis.id := id;
     Analysis.name := "Sam Striker";
     Analysis.webName := "Striker";
     Analysis.team := "Team3";
     Analysis.position := "Forward";
     Analysis.positionId := 4;
     Analysis.cost := JS.Fin (15 # 2);
     Analysis.totalPoints := 8;
     Analysis.form := JS.of_Z form;
     Analysis.fixturesCount := 1;
     Analysis.totalVulnerabilityScore := JS.Decimal 2 total;
     Analysis.avgVulnerabilityScore := JS.Decimal 2 total;
     Analysis.fixtures := [];
     Analysis.selectedBy := JS.Fin (6 # 5) |}.

(** Totals 1.00, 1.50 and 2.00 with forms 3, 2 and 1. *)
Definition low_total : Analysis.t := analysed_of 1 100 3.
Definition mid_total : Analysis.t := analysed_of 2 150 2.
Definition high_total : Analysis.t := analysed_of 3 200 1.

(** Two teams of one name; player 1 scored 8 points against the second
    and 2 against the first. *)
Definition twin1 : Team.t := {| Team.id := 1; Team.name := "Twin" |}.
Definition twin2 : Team.t := {| Team.id := 2; Team.name := "Twin" |}.

Definition twins : PlayerFixtureAnalyzer.t :=
  {| PlayerFixtureAnalyzer.defenseResults :=
       TeamDefenseAnalyzer.analyzeTeamDefense
         [twin1; twin2] [player_of 1 4] (two_records 2 1);
     PlayerFixtureAnalyzer.teams := [twin1; twin2];
     PlayerFixtureAnalyzer.allPlayersData := [player_of 1 4];
     PlayerFixtureAnalyzer.fixtures := [] |}.


(** A postponed match of Team3 and TeamY: neither gameweek nor kickoff
    time. *)
Definition postponed : Fixture.t :=
  {| Fixture.id := 99;
     Fixture.event := None;
     Fixture.team_h := 3;
     Fixture.team_a := 9;
     Fixture.finished := false;
     Fixture.started := false;
     Fixture.kickoff_time := None;
     Fixture.team_h_difficulty := 3;
     Fixture.team_a_difficulty := 3 |}.

(** The season with the postponed match at the end of the feed. *)
Definition season_postponed : PlayerFixtureAnalyzer.t :=
  {| PlayerFixtureAnalyzer.defenseResults :=
       PlayerFixtureAnalyzer.defenseResults season;
     PlayerFixtureAnalyzer.teams := [teamX; team3; teamY];
     PlayerFixtureAnalyzer.allPlayersData := [player_of 1 4; player_of 2 4];
     PlayerFixtureAnalyzer.fixtures :=
       [fixture_of 5 3 7 false 100; fixture_of 4 7 3 false 50; postponed] |}.

(** Player 1 scored 8 points against the team [first] and 8 against the
    team [second]. *)
Definition tied_records (first second : Z) (playerId : Z) : PlayerData.t :=
  {| PlayerData.history :=
       if playerId =? 1 then Some [record_of first 8; record_of second 8]
       else None |}.

(** A second player under the id 1: a forward of TeamY, which has no
    fixture in the feed. *)
Definition namesake : Player.t :=
  {| Player.id := 1;
     Player.first_name := "Dee";
     Player.second_name := "Double";
     Player.web_name := "Double";
     Player.team := 9;
     Player.element_type := 4;
     Player.status := "a";
     Player.minutes := 900;
     Player.form := JS.Decimal 1 80;
     Player.total_points := 8;
     Player.now_cost := 75;
     Player.selected_by_percent := JS.Decimal 1 12;
     Player.goals_scored := 1;
     Player.assists := 0;
     Player.clean_sheets := 0 |}.

(** The season with the two players of one id. *)
Definition season_doubled : PlayerFixtureAnalyzer.t :=
  {| PlayerFixtureAnalyzer.defenseResults :=
       PlayerFixtureAnalyzer.defenseResults season;
     PlayerFixtureAnalyzer.teams := [teamX; team3; teamY];
     PlayerFixtureAnalyzer.allPlayersData := [player_of 1 4; namesake];
     PlayerFixtureAnalyzer.fixtures :=
       [fixture_of 5 3 7 false 100; fixture_of 4 7 3 false 50] |}.

(* ================================================================== *)
(** * Facts about the JavaScript fragment *)
(* ================================================================== *)

(** ** Signs of differences *)

Lemma sgn_Fin_Qred (q : Q) : JS.sgn (JS.Fin (Qred q)) = (q ?= 0)%Q.
Proof.
  simpl. now rewrite (Qred_correct q).
Qed.

Lemma sgn_sub_Fin (a b : Q) :
  JS.sgn (JS.sub (JS.Fin a) (JS.Fin b)) = (a ?= b)%Q.
Proof.
  unfold JS.sub, JS.neg, JS.add.
  rewrite sgn_Fin_Qred, (Qred_correct (- b)).
  destruct (Qcompare_spec a b) as [E | L | G].
  - apply (proj1 (Qeq_alt _ _)). lra.
  - apply (proj1 (Qlt_alt _ _)). lra.
  - apply (proj1 (Qgt_alt _ _)). lra.
Qed.

Lemma sgn_sub_of_Z (x y : Z) :
  JS.sgn (JS.sub (JS.of_Z x) (JS.of_Z y)) = (x ?= y).
Proof.
  unfold JS.of_Z. rewrite sgn_sub_Fin.
  unfold Qcompare, inject_Z; simpl. now rewrite !Z.mul_1_r.
Qed.

(** ** [Array.prototype.sort] *)

Section SortFacts.
Context {A : Type} (cmp : A -> A -> JS.number).

Lemma insert_perm (x : A) (l : list A) : Permutation (x :: l) (JS.insert cmp x l).
Proof.
  induction l as [| y l IH]; simpl.
  - apply Permutation_refl.
  - destruct (JS.sgn (cmp x y)); try apply Permutation_refl.
    eapply perm_trans; [apply perm_swap |].
    now apply perm_skip.
Qed.

Lemma sort_perm (l : list A) : Permutation l (JS.sort cmp l).
Proof.
  induction l as [| x l IH]; simpl.
  - constructor.
  - eapply perm_trans; [| apply insert_perm].
    now apply perm_skip.
Qed.

Lemma sort_In (l : list A) (x : A) : In x (JS.sort cmp l) <-> In x l.
Proof.
  split; apply Permutation_in;
    [apply Permutation_sym |]; apply sort_perm.
Qed.

Lemma before_split (x y : A) (l : list A) :
  before x y l <-> exists l1 l2 l3, l = l1 ++ x :: l2 ++ y :: l3.
Proof.
  split.
  - induction 1 as [l H | a l _ (l1 & l2 & l3 & ->)].
    + destruct (in_split _ _ H) as (l2 & l3 & ->).
      now exists [], l2, l3.
    + now exists (a :: l1), l2, l3.
  - intros (l1 & l2 & l3 & ->).
    induction l1 as [| a l1 IH]; simpl.
    + apply before_here, in_or_app. right. now left.
    + now apply before_later.
Qed.

Lemma insert_before (z x y : A) (l : list A) :
  before x y l -> before x y (JS.insert cmp z l).
Proof.
  induction 1 as [l H | a l H IH]; simpl.
  - destruct (JS.sgn (cmp z x));
      try (apply before_later; now apply before_here).
    apply before_here.
    apply (Permutation_in _ (insert_perm z l)). now right.
  - destruct (JS.sgn (cmp z a));
      try (do 2 apply before_later; assumption).
    now apply before_later.
Qed.

Lemma insert_first (x y : A) (l : list A) :
  keeps cmp x y -> In y l -> before x y (JS.insert cmp x l).
Proof.
  intros K. induction l as [| a l IH]; simpl; [easy |].
  intros [-> | H].
  - unfold keeps in K.
    destruct (JS.sgn (cmp x y)); try congruence;
      apply before_here; now left.
  - destruct (JS.sgn (cmp x a));
      try (apply before_here; now right).
    apply before_later. now apply IH.
Qed.

(** The sort never swaps two elements the comparator lets stand, whatever
    it answers on the other pairs. *)
Lemma sort_before (x y : A) (l : list A) :
  keeps cmp x y -> before x y l -> before x y (JS.sort cmp l).
Proof.
  intros K. induction 1 as [l H | a l H IH]; simpl.
  - apply insert_first; [assumption |].
    now apply sort_In.
  - now apply insert_before.
Qed.

(** With a consistent comparator the output is sorted. *)
Section Consistent.
Hypothesis keeps_total : forall x y, JS.sgn (cmp x y) = Gt -> keeps cmp y x.
Hypothesis keeps_trans : forall x y z, keeps cmp x y -> keeps cmp y z -> keeps cmp x z.

Lemma insert_sorted (x : A) (l : list A) :
  StronglySorted (keeps cmp) l -> StronglySorted (keeps cmp) (JS.insert cmp x l).
Proof.
  induction 1 as [| y l S IH F]; simpl.
  - repeat constructor.
  - destruct (JS.sgn (cmp x y)) eqn:E.
    + constructor; [now constructor |].
      assert (K : keeps cmp x y) by (unfold keeps; congruence).
      constructor; [assumption |].
      eapply Forall_impl; [| exact F]. intros z. now apply keeps_trans.
    + constructor; [now constructor |].
      assert (K : keeps cmp x y) by (unfold keeps; congruence).
      constructor; [assumption |].
      eapply Forall_impl; [| exact F]. intros z. now apply keeps_trans.
    + constructor; [assumption |].
      apply Forall_forall. intros z Hz.
      apply (Permutation_in _ (Permutation_sym (insert_perm x l))) in Hz.
      destruct Hz as [<- | Hz].
      * now apply keeps_total.
      * rewrite Forall_forall in F. now apply F.
Qed.

Lemma sort_sorted (l : list A) : StronglySorted (keeps cmp) (JS.sort cmp l).
Proof.
  induction l as [| x l IH]; simpl.
  - constructor.
  - now apply insert_sorted.
Qed.

End Consistent.

End SortFacts.

(** A comparator that is consistent on the elements of the list sorts
    it. *)
Section ConsistentOn.
Context {A : Type} (cmp : A -> A -> JS.number) (P : A -> Prop).
Hypothesis keeps_total : forall x y, JS.sgn (cmp x y) = Gt -> keeps cmp y x.
Hypothesis keeps_trans :
  forall x y z, P x -> P y -> P z ->
    keeps cmp x y -> keeps cmp y z -> keeps cmp x z.

Lemma insert_sorted_on (x : A) (l : list A) :
  P x -> Forall P l ->
  StronglySorted (keeps cmp) l -> StronglySorted (keeps cmp) (JS.insert cmp x l).
Proof.
  intros Px Pl. induction 1 as [| y l S IH F]; simpl.
  - repeat constructor.
  - inversion Pl as [| y' l' Py Pl' E]; subst.
    assert (T : keeps cmp x y ->
                StronglySorted (keeps cmp) (x :: y :: l)).
    { intros K. constructor; [now constructor |].
      constructor; [assumption |].
      rewrite Forall_forall in F, Pl' |- *. intros z Iz.
      apply (keeps_trans x y z); auto. }
    destruct (JS.sgn (cmp x y)) eqn:E;
      try (apply T; unfold keeps; congruence).
    constructor; [now apply IH |].
    apply Forall_forall. intros z Hz.
    apply (Permutation_in _ (Permutation_sym (insert_perm cmp x l))) in Hz.
    destruct Hz as [<- | Hz].
    + now apply keeps_total.
    + rewrite Forall_forall in F. now apply F.
Qed.

Lemma sort_sorted_on (l : list A) :
  Forall P l -> StronglySorted (keeps cmp) (JS.sort cmp l).
Proof.
  induction 1 as [| x l Px Pl IH]; simpl.
  - constructor.
  - apply insert_sorted_on; try assumption.
    apply Forall_forall. intros z Iz. apply sort_In in Iz.
    rewrite Forall_forall in Pl. now apply Pl.
Qed.

End ConsistentOn.

(** Sorting the images of a list sorts the list by the images. *)
Lemma insert_map {A B : Type} (f : A -> B) (cmp : B -> B -> JS.number)
    (x : A) (l : list A) :
  JS.insert cmp (f x) (List.map f l)
  = List.map f (JS.insert (fun a b => cmp (f a) (f b)) x l).
Proof.
  induction l as [| y l IH]; simpl; [reflexivity |].
  destruct (JS.sgn (cmp (f x) (f y))); simpl; try reflexivity.
  now rewrite IH.
Qed.

Lemma sort_map {A B : Type} (f : A -> B) (cmp : B -> B -> JS.number)
    (l : list A) :
  JS.sort cmp (List.map f l)
  = List.map f (JS.sort (fun a b => cmp (f a) (f b)) l).
Proof.
  induction l as [| x l IH]; simpl; [reflexivity |].
  now rewrite IH, insert_map.
Qed.

(** ** Differences of numbers *)

Lemma Qle_bool_Qred_l (p q : Q) : Qle_bool (Qred p) q = Qle_bool p q.
Proof.
  apply eq_true_iff_eq. rewrite !Qle_bool_iff. now rewrite (Qred_correct p).
Qed.

Lemma Qle_bool_Qred_r (p q : Q) : Qle_bool p (Qred q) = Qle_bool p q.
Proof.
  apply eq_true_iff_eq. rewrite !Qle_bool_iff. now rewrite (Qred_correct q).
Qed.

Lemma Qle_bool_Qeq_l (p p' q : Q) : (p == p')%Q -> Qle_bool p q = Qle_bool p' q.
Proof.
  intros E. apply eq_true_iff_eq. rewrite !Qle_bool_iff. now rewrite E.
Qed.

Lemma sgn_sub_opp (x y : JS.number) :
  JS.sgn (JS.sub y x) = CompOpp (JS.sgn (JS.sub x y)).
Proof.
  destruct x as [a | | |], y as [b | | |]; try reflexivity.
  rewrite !sgn_sub_Fin. symmetry. apply Qcompare_antisym.
Qed.

Lemma abs_sub_sym (x y : JS.number) (c : Q) :
  JS.gtb (JS.abs (JS.sub y x)) (JS.Fin c)
  = JS.gtb (JS.abs (JS.sub x y)) (JS.Fin c).
Proof.
  destruct x as [a | | |], y as [b | | |]; try reflexivity.
  unfold JS.gtb, JS.sub, JS.neg, JS.add, JS.abs, JS.ltb. f_equal.
  rewrite !Qle_bool_Qred_l.
  apply Qle_bool_Qeq_l.
  rewrite !Qred_correct.
  setoid_replace (b + - a)%Q with (- (a + - b))%Q by ring.
  apply Qabs_opp.
Qed.

Lemma sub_same_sgn (x y : JS.number) :
  JS.eqb x y = true -> JS.sgn (JS.sub y x) = Eq.
Proof.
  destruct x as [a | | |], y as [b | | |]; try reflexivity; try discriminate.
  simpl JS.eqb. intros E. apply Qeq_bool_eq in E.
  rewrite sgn_sub_Fin. apply (proj1 (Qeq_alt _ _)). now symmetry.
Qed.

Lemma sub_same_abs (x y : JS.number) (c : Q) :
  (0 <= c)%Q -> JS.eqb x y = true ->
  JS.gtb (JS.abs (JS.sub y x)) (JS.Fin c) = false.
Proof.
  intros C.
  destruct x as [a | | |], y as [b | | |]; try reflexivity; try discriminate.
  simpl JS.eqb. intros E. apply Qeq_bool_eq in E.
  unfold JS.gtb, JS.sub, JS.neg, JS.add, JS.abs, JS.ltb.
  rewrite Qle_bool_Qred_l.
  apply negb_false_iff, Qle_bool_iff.
  rewrite !Qred_correct.
  setoid_replace (b + - a)%Q with 0%Q by lra.
  exact C.
Qed.

(* ================================================================== *)
(** * The ranking comparator *)
(* ================================================================== *)

Lemma compareAnalysis_antisym (a b : Analysis.t) :
  JS.sgn (PlayerFixtureAnalyzer.compareAnalysis b a)
  = CompOpp (JS.sgn (PlayerFixtureAnalyzer.compareAnalysis a b)).
Proof.
  unfold PlayerFixtureAnalyzer.compareAnalysis.
  rewrite abs_sub_sym.
  destruct (JS.gtb _ _); apply sgn_sub_opp.
Qed.

Lemma compareAnalysis_same (a b : Analysis.t) :
  same_keys a b ->
  JS.sgn (PlayerFixtureAnalyzer.compareAnalysis a b) = Eq.
Proof.
  intros [T F]. unfold PlayerFixtureAnalyzer.compareAnalysis.
  rewrite sub_same_abs by (assumption || easy).
  now apply sub_same_sgn.
Qed.

(** ** Integers as numbers *)

Lemma Qred_inject_Z (z : Z) : Qred (inject_Z z) = inject_Z z.
Proof.
  unfold Qred, inject_Z.
  pose proof (Z.ggcd_correct_divisors z 1) as D.
  pose proof (Z.ggcd_gcd z 1) as G.
  change (Zpos 1) with 1.
  destruct (Z.ggcd z 1) as (g, (aa, bb)). simpl in *.
  rewrite Z.gcd_1_r in G. subst g.
  destruct D as [-> D]. rewrite Z.mul_1_l in D. subst bb.
  now rewrite Z.mul_1_l.
Qed.

Lemma add_of_Z (x y : Z) : JS.add (JS.of_Z x) (JS.of_Z y) = JS.of_Z (x + y).
Proof.
  unfold JS.add, JS.of_Z. rewrite <- inject_Z_plus. f_equal. apply Qred_inject_Z.
Qed.

Lemma Qle_bool_inject_Z (x y : Z) : Qle_bool (inject_Z x) (inject_Z y) = (x <=? y).
Proof.
  unfold Qle_bool, inject_Z; simpl. now rewrite !Z.mul_1_r.
Qed.

Lemma ltb_of_Z (x y : Z) : JS.ltb (JS.of_Z x) (JS.of_Z y) = (x <? y).
Proof.
  unfold JS.ltb, JS.of_Z. rewrite Qle_bool_inject_Z.
  now rewrite Z.ltb_antisym.
Qed.

Lemma max_of_Z (x y : Z) : JS.max (JS.of_Z x) (JS.of_Z y) = JS.of_Z (Z.max x y).
Proof.
  unfold JS.max. change (JS.of_Z x) with (JS.Fin (inject_Z x)) at 1.
  change (JS.of_Z y) with (JS.Fin (inject_Z y)) at 1.
  cbv iota beta. fold (JS.of_Z x) (JS.of_Z y). rewrite ltb_of_Z.
  destruct (Z.ltb_spec x y); f_equal; lia.
Qed.

Lemma min_of_Z (x y : Z) : JS.min (JS.of_Z x) (JS.of_Z y) = JS.of_Z (Z.min x y).
Proof.
  unfold JS.min. change (JS.of_Z x) with (JS.Fin (inject_Z x)) at 1.
  change (JS.of_Z y) with (JS.Fin (inject_Z y)) at 1.
  cbv iota beta. fold (JS.of_Z x) (JS.of_Z y). rewrite ltb_of_Z.
  destruct (Z.ltb_spec y x); f_equal; lia.
Qed.

(** [x >= c] on a finite [x]. *)
Lemma geb_Fin (a c : Q) : FPLAnalyzer.geb (JS.Fin a) (JS.Fin c) = Qle_bool c a.
Proof.
  unfold FPLAnalyzer.geb, JS.ltb, JS.eqb.
  apply eq_true_iff_eq.
  rewrite orb_true_iff, negb_true_iff, Qle_bool_iff, Qeq_bool_iff,
    <- not_true_iff_false, Qle_bool_iff.
  split.
  - intros [H | H]; lra.
  - intros H. destruct (Qlt_le_dec c a); [left | right]; lra.
Qed.

(* ================================================================== *)
(** * The regular-starter predicate *)
(* ================================================================== *)

Lemma ceil_div_90 (m : Z) :
  JS.ceil (JS.div (JS.of_Z m) (JS.of_Z 90)) = JS.of_Z ((m + 89) / 90).
Proof.
  unfold JS.div, JS.of_Z. change (Qeq_bool (inject_Z 90) 0) with false.
  cbv iota. unfold JS.ceil, JS.of_Z. do 2 f_equal.
  rewrite (Qceiling_comp _ _ (Qred_correct _)).
  set (c := Qceiling (inject_Z m / inject_Z 90)).
  pose proof (Qle_ceiling (inject_Z m / inject_Z 90)) as L.
  pose proof (Qceiling_lt (inject_Z m / inject_Z 90)) as U.
  fold c in L, U.
  change (inject_Z 90) with 90%Q in L, U.
  assert (E : (inject_Z m / 90 == inject_Z m * (1 # 90))%Q) by field.
  rewrite E in L, U.
  assert (L' : (inject_Z m <= inject_Z (90 * c))%Q).
  { rewrite inject_Z_mult. change (inject_Z 90) with 90%Q. lra. }
  assert (U' : (inject_Z (90 * (c - 1)) < inject_Z m)%Q).
  { rewrite inject_Z_mult. change (inject_Z 90) with 90%Q. lra. }
  rewrite <- Zle_Qle in L'. rewrite <- Zlt_Qlt in U'.
  apply Z.div_unique with (r := m + 89 - 90 * c); lia.
Qed.

Lemma avgMinutesPerGame_ge_60 (player : Player.t) :
  450 <= Player.minutes player ->
  exists q, FPLAnalyzer.avgMinutesPerGame player = JS.Fin q /\ (60 <= q)%Q.
Proof.
  intros M.
  unfold FPLAnalyzer.avgMinutesPerGame, FPLAnalyzer.estimatedGamesPlayed.
  rewrite ceil_div_90, max_of_Z.
  set (m := Player.minutes player) in *.
  set (c := Z.max 1 ((m + 89) / 90)).
  assert (C : 5 <= c /\ 60 * c <= m).
  { pose proof (Z.div_mod (m + 89) 90 ltac:(lia)) as D.
    pose proof (Z.mod_pos_bound (m + 89) 90 ltac:(lia)) as B.
    unfold c. lia. }
  unfold JS.div, JS.of_Z.
  assert (N : Qeq_bool (inject_Z c) 0 = false).
  { apply not_true_iff_false. rewrite Qeq_bool_iff.
    change 0%Q with (inject_Z 0). rewrite inject_Z_injective. lia. }
  rewrite N. eexists; split; [reflexivity |].
  rewrite Qred_correct.
  apply Qle_shift_div_l.
  - change 0%Q with (inject_Z 0). rewrite <- Zlt_Qlt. lia.
  - change 60%Q with (inject_Z 60). rewrite <- inject_Z_mult, <- Zle_Qle. lia.
Qed.


(** ** Sorting by an integer key *)

Section KeySort.
Context {A : Type} (key : A -> Z) (cmp : A -> A -> JS.number).
Hypothesis cmp_key : forall a b, JS.sgn (cmp a b) = (key a ?= key b).

Lemma keeps_key (a b : A) : keeps cmp a b <-> key a <= key b.
Proof.
  unfold keeps. rewrite cmp_key. unfold Z.le. reflexivity.
Qed.

Lemma sort_by_key (l : list A) :
  StronglySorted (fun a b => key a <= key b) (JS.sort cmp l).
Proof.
  assert (S : StronglySorted (keeps cmp) (JS.sort cmp l)).
  { apply sort_sorted.
    - intros x y G. rewrite cmp_key in G. apply keeps_key.
      apply Z.compare_gt_iff in G. lia.
    - intros x y z. rewrite !keeps_key. lia. }
  induction S as [| a m S IH F]; constructor; [assumption |].
  eapply Forall_impl; [| exact F]. intros b. apply keeps_key.
Qed.

(** The first element of the output is a least element of the input. *)
Lemma sort_head_least (l : list A) (a : A) (rest : list A) :
  JS.sort cmp l = a :: rest ->
  In a l /\ forall b, In b l -> key a <= key b.
Proof.
  intros E. split.
  - apply (sort_In cmp). rewrite E. now left.
  - intros b Hb. apply (sort_In cmp) in Hb. rewrite E in Hb.
    pose proof (sort_by_key l) as S. rewrite E in S.
    inversion S as [| ? ? _ F]; subst.
    destruct Hb as [<- | Hb]; [lia |].
    rewrite Forall_forall in F. now apply F.
Qed.

Lemma sort_nil_inv (l : list A) : JS.sort cmp l = [] -> l = [].
Proof.
  intros E. apply Permutation_nil. rewrite <- E. apply Permutation_sym, sort_perm.
Qed.

End KeySort.

(* ================================================================== *)
(** * The current gameweek *)
(* ================================================================== *)

Lemma fold_max_of_Z (zs : list Z) (z : Z) :
  fold_left JS.max (List.map JS.of_Z zs) (JS.of_Z z)
  = JS.of_Z (fold_left Z.max zs z).
Proof.
  revert z. induction zs as [| y zs IH]; intros z; cbn [fold_left List.map].
  - reflexivity.
  - now rewrite max_of_Z, IH.
Qed.

Lemma max_list_of_Z (z : Z) (zs : list Z) :
  JS.max_list (List.map JS.of_Z (z :: zs)) = JS.of_Z (fold_left Z.max zs z).
Proof.
  unfold JS.max_list. cbn [fold_left List.map].
  change (JS.max JS.NegInf (JS.of_Z z)) with (JS.of_Z z).
  apply fold_max_of_Z.
Qed.

Lemma fold_max_spec (zs : list Z) (z : Z) :
  let M := fold_left Z.max zs z in
  In M (z :: zs) /\ forall y, In y (z :: zs) -> y <= M.
Proof.
  revert z. induction zs as [| a zs IH]; intros z; simpl.
  - split; [now left | intros y [<- | []]; lia].
  - destruct (IH (Z.max z a)) as [I B]. split.
    + destruct I as [I | I]; [| now right; right].
      rewrite <- I. destruct (Z.max_spec z a) as [[_ ->] | [_ ->]]; auto.
    + intros y Hy.
      assert (Z.max z a <= fold_left Z.max zs (Z.max z a)) by (apply B; now left).
      destruct Hy as [<- | [<- | Hy]]; [lia | lia |].
      apply B. now right.
Qed.


(* ================================================================== *)
(** * The defense aggregation *)
(* ================================================================== *)

(** ** Objects *)

Section ObjFacts.
Context {V : Type}.

Lemma obj_get_set_same (k : Z) (v : V) (o : JS.obj V) :
  JS.obj_get k (JS.obj_set k v o) = Some v.
Proof.
  induction o as [| [k' v'] o IH]; simpl.
  - now rewrite Z.eqb_refl.
  - destruct (Z.ltb_spec k k'); simpl.
    + now rewrite Z.eqb_refl.
    + destruct (Z.eqb_spec k k') as [-> | N]; simpl.
      * now rewrite Z.eqb_refl.
      * destruct (Z.eqb_spec k k'); [contradiction | assumption].
Qed.

Lemma obj_get_set_other (k k' : Z) (v : V) (o : JS.obj V) :
  k' <> k -> JS.obj_get k' (JS.obj_set k v o) = JS.obj_get k' o.
Proof.
  intros N. induction o as [| [k0 v0] o IH]; simpl.
  - destruct (Z.eqb_spec k' k); [contradiction | reflexivity].
  - destruct (Z.ltb_spec k k0); simpl.
    + destruct (Z.eqb_spec k' k); [contradiction | reflexivity].
    + destruct (Z.eqb_spec k k0) as [-> | N0]; simpl.
      * destruct (Z.eqb_spec k' k0); [contradiction | reflexivity].
      * now rewrite IH.
Qed.

End ObjFacts.

(** ** Cells *)

Lemma credit_0 (c : TeamDefenseAnalyzer.Cell.t) : credit 0 0 c = c.
Proof.
  destruct c. unfold credit. simpl. now rewrite !Z.add_0_r.
Qed.

Lemma credit_credit (p1 n1 p2 n2 : Z) (c : TeamDefenseAnalyzer.Cell.t) :
  credit p2 n2 (credit p1 n1 c) = credit (p1 + p2) (n1 + n2) c.
Proof.
  unfold credit. simpl. now rewrite !Z.add_assoc.
Qed.

Lemma position_match {T : Type} (a b c d e : T) (position : Z) :
  match position with 1 => a | 2 => b | 3 => c | 4 => d | _ => e end
  = if position =? 1 then a else if position =? 2 then b
    else if position =? 3 then c else if position =? 4 then d else e.
Proof.
  destruct position as [| p | p]; try reflexivity.
  repeat (destruct p as [p | p |]; try reflexivity).
Qed.

Lemma position_cases (position : Z) :
  position = 1 \/ position = 2 \/ position = 3 \/ position = 4
  \/ (~ valid_position position
      /\ forall s, TeamDefenseAnalyzer.stats_get position s = None
                   /\ forall o, TeamDefenseAnalyzer.stats_set position o s = s).
Proof.
  unfold valid_position.
  destruct position as [| p | p];
    [ do 4 right; split; [lia | now split]
    | | do 4 right; split; [lia | now split] ].
  destruct p as [p | p |]; [| | now left].
  - destruct p as [p | p |]; [| | now (right; right; left)];
      do 4 right; (split; [lia | now split]).
  - destruct p as [p | p |]; [| | now (right; left)].
    + do 4 right; (split; [lia | now split]).
    + destruct p as [p | p |]; [| | now (right; right; right; left)];
        do 4 right; (split; [lia | now split]).
Qed.

Lemma stats_get_set_same (position : Z) (o : JS.obj TeamDefenseAnalyzer.Cell.t)
    (s : TeamDefenseAnalyzer.Stats) :
  valid_position position ->
  TeamDefenseAnalyzer.stats_get position (TeamDefenseAnalyzer.stats_set position o s)
  = Some o.
Proof.
  intros V.
  destruct (position_cases position) as [-> | [-> | [-> | [-> | [N _]]]]];
    try reflexivity; contradiction.
Qed.

Lemma stats_get_set_other (position position' : Z)
    (o : JS.obj TeamDefenseAnalyzer.Cell.t) (s : TeamDefenseAnalyzer.Stats) :
  position' <> position ->
  TeamDefenseAnalyzer.stats_get position' (TeamDefenseAnalyzer.stats_set position o s)
  = TeamDefenseAnalyzer.stats_get position' s.
Proof.
  intros N.
  destruct (position_cases position) as [-> | [-> | [-> | [-> | [_ I]]]]].
  5:{ now rewrite (proj2 (I s) o). }
  all: destruct (position_cases position') as [-> | [-> | [-> | [-> | [_ I]]]]];
    try reflexivity; try contradiction;
    now rewrite (proj1 (I _)), (proj1 (I s)).
Qed.

Lemma stats_get_valid (position : Z) (s : TeamDefenseAnalyzer.Stats) :
  valid_position position ->
  exists o, TeamDefenseAnalyzer.stats_get position s = Some o.
Proof.
  intros V.
  destruct (position_cases position) as [-> | [-> | [-> | [-> | [N _]]]]];
    try (eexists; reflexivity); contradiction.
Qed.

Lemma stats_get_invalid (position : Z) (s : TeamDefenseAnalyzer.Stats) :
  ~ valid_position position ->
  TeamDefenseAnalyzer.stats_get position s = None.
Proof.
  unfold valid_position. intros V.
  destruct (position_cases position) as [-> | [-> | [-> | [-> | [_ I]]]]];
    try lia. apply I.
Qed.

(** One record. *)
Lemma processGameweek_cells (playerPosition : Z) (s : TeamDefenseAnalyzer.Stats)
    (gameweek : Gameweek.t) :
  valid_position playerPosition ->
  exists s',
    TeamDefenseAnalyzer.processGameweek playerPosition s gameweek = JS.Ok s'
    /\ forall position teamId,
         cell_at position teamId s'
         = option_map
             (credit (pointsOf position teamId playerPosition [gameweek])
                     (gamesOf position teamId playerPosition [gameweek]))
             (cell_at position teamId s).
Proof.
  intros V.
  assert (Same : forall position teamId,
             contributes position teamId playerPosition gameweek = false ->
             cell_at position teamId s
             = option_map
                 (credit (pointsOf position teamId playerPosition [gameweek])
                         (gamesOf position teamId playerPosition [gameweek]))
                 (cell_at position teamId s)).
  { intros position teamId C. unfold pointsOf, gamesOf. simpl. rewrite C. simpl.
    destruct (cell_at position teamId s); simpl; [| reflexivity].
    now rewrite credit_0. }
  unfold TeamDefenseAnalyzer.processGameweek.
  destruct (0 <? Gameweek.minutes gameweek) eqn:M; simpl.
  2:{ exists s. split; [reflexivity |]. intros position teamId. apply Same.
      unfold contributes. rewrite M. now rewrite andb_false_r. }
  destruct (Gameweek.opponent_team gameweek) as [k |] eqn:O; simpl.
  2:{ exists s. split; [reflexivity |]. intros position teamId. apply Same.
      unfold contributes. rewrite O. now rewrite andb_false_r. }
  destruct (Z.eqb_spec k 0) as [K0 | K0]; simpl.
  { exists s. split; [reflexivity |]. intros position teamId. apply Same.
    unfold contributes. rewrite O.
    destruct (Z.eqb_spec k 0); [| contradiction].
    now rewrite !andb_false_r. }
  destruct (stats_get_valid _ s V) as (o & G). rewrite G.
  destruct (JS.obj_get k o) as [c |] eqn:C.
  2:{ exists s. split; [reflexivity |]. intros position teamId.
      destruct (contributes position teamId playerPosition gameweek) eqn:Q;
        [| now apply Same].
      unfold contributes in Q. rewrite O in Q.
      apply andb_prop in Q. destruct Q as [Q1 Q2].
      apply andb_prop in Q1. destruct Q1 as [Q1 _].
      apply andb_prop in Q2. destruct Q2 as [Q2 _].
      apply Z.eqb_eq in Q1, Q2. subst.
      unfold cell_at. now rewrite G, C. }
  eexists. split; [reflexivity |].
  intros position teamId.
  destruct (contributes position teamId playerPosition gameweek) eqn:Q.
  - unfold pointsOf, gamesOf. simpl. rewrite Q. simpl.
    unfold contributes in Q. rewrite O in Q.
    apply andb_prop in Q. destruct Q as [Q1 Q2].
    apply andb_prop in Q1. destruct Q1 as [Q1 _].
    apply andb_prop in Q2. destruct Q2 as [Q2 _].
    apply Z.eqb_eq in Q1, Q2. subst.
    unfold cell_at. rewrite stats_get_set_same by assumption.
    rewrite obj_get_set_same, G, C. simpl. unfold credit.
    now rewrite Z.add_0_r.
  - rewrite <- (Same _ _ Q).
    unfold contributes in Q. rewrite O, M in Q.
    destruct (Z.eqb_spec k 0); [contradiction |].
    rewrite andb_true_r in Q. simpl in Q.
    unfold cell_at.
    destruct (Z.eqb_spec playerPosition position) as [<- | NP].
    + rewrite stats_get_set_same by assumption. rewrite G.
      simpl in Q. rewrite andb_true_r in Q. apply Z.eqb_neq in Q.
      apply obj_get_set_other. congruence.
    + rewrite stats_get_set_other by congruence. reflexivity.
Qed.

Lemma pointsOf_cons (position teamId playerPosition : Z) (g : Gameweek.t)
    (h : list Gameweek.t) :
  pointsOf position teamId playerPosition (g :: h)
  = pointsOf position teamId playerPosition [g]
    + pointsOf position teamId playerPosition h.
Proof.
  unfold pointsOf. simpl.
  destruct (contributes position teamId playerPosition g); simpl; lia.
Qed.

Lemma gamesOf_cons (position teamId playerPosition : Z) (g : Gameweek.t)
    (h : list Gameweek.t) :
  gamesOf position teamId playerPosition (g :: h)
  = gamesOf position teamId playerPosition [g]
    + gamesOf position teamId playerPosition h.
Proof.
  unfold gamesOf. cbn [List.filter].
  destruct (contributes position teamId playerPosition g);
    cbn [List.length]; lia.
Qed.

(** A whole history. *)
Lemma forEach_cells (playerPosition : Z) (history : list Gameweek.t) :
  valid_position playerPosition ->
  forall s, exists s',
    TeamDefenseAnalyzer.forEach playerPosition history s = JS.Ok s'
    /\ forall position teamId,
         cell_at position teamId s'
         = option_map
             (credit (pointsOf position teamId playerPosition history)
                     (gamesOf position teamId playerPosition history))
             (cell_at position teamId s).
Proof.
  intros V. induction history as [| g h IH]; intros s.
  - exists s. split; [reflexivity |]. intros position teamId.
    destruct (cell_at position teamId s); simpl; [| reflexivity].
    now rewrite credit_0.
  - destruct (processGameweek_cells _ s g V) as (s1 & E1 & C1).
    destruct (IH s1) as (s' & E' & C').
    exists s'. split.
    + simpl. rewrite E1. exact E'.
    + intros position teamId.
      rewrite C', C1.
      rewrite (pointsOf_cons _ _ _ g h), (gamesOf_cons _ _ _ g h).
      destruct (cell_at position teamId s); cbn [option_map]; [| reflexivity].
      now rewrite credit_credit.
Qed.

(** With a position outside 1..4 the loop either leaves the table as it
    is or throws: the catch of [analyzeTeamDefense] sees no half-done
    update. *)
Lemma forEach_invalid_position (playerPosition : Z) (history : list Gameweek.t)
    (s : TeamDefenseAnalyzer.Stats) :
  ~ valid_position playerPosition ->
  TeamDefenseAnalyzer.forEach playerPosition history s = JS.Ok s
  \/ TeamDefenseAnalyzer.forEach playerPosition history s = JS.TypeError.
Proof.
  intros V. induction history as [| g h IH]; simpl; [now left |].
  unfold TeamDefenseAnalyzer.processGameweek.
  rewrite (stats_get_invalid _ s V).
  destruct (_ && _); simpl; [now right | exact IH].
Qed.

(** ** Two-decimal rendering *)

Lemma round_half_away_near (q : Q) :
  (Qabs (inject_Z (JS.round_half_away q) - q) <= 1 # 2)%Q.
Proof.
  unfold JS.round_half_away. apply Qabs_Qle_condition.
  destruct (Qle_bool 0 q).
  - pose proof (Qfloor_le (q + (1 # 2))) as L.
    pose proof (Qlt_floor (q + (1 # 2))) as U.
    rewrite inject_Z_plus in U. change (inject_Z 1) with 1%Q in U.
    split; lra.
  - pose proof (Qfloor_le (- q + (1 # 2))) as L.
    pose proof (Qlt_floor (- q + (1 # 2))) as U.
    rewrite inject_Z_plus in U. change (inject_Z 1) with 1%Q in U.
    rewrite inject_Z_opp. split; lra.
Qed.

Lemma round_half_away_mono (p q : Q) :
  (p <= q)%Q -> JS.round_half_away p <= JS.round_half_away q.
Proof.
  intros L. unfold JS.round_half_away.
  destruct (Qle_bool 0 p) eqn:P, (Qle_bool 0 q) eqn:Q.
  - apply Qfloor_resp_le. lra.
  - apply Qle_bool_iff in P. apply not_true_iff_false in Q.
    rewrite Qle_bool_iff in Q. lra.
  - apply not_true_iff_false in P. rewrite Qle_bool_iff in P.
    apply Qle_bool_iff in Q.
    assert (0 <= Qfloor (- p + (1 # 2))).
    { change 0 with (Qfloor 0). apply Qfloor_resp_le. lra. }
    assert (0 <= Qfloor (q + (1 # 2))).
    { change 0 with (Qfloor 0). apply Qfloor_resp_le. lra. }
    lia.
  - assert (Qfloor (- q + (1 # 2)) <= Qfloor (- p + (1 # 2)))
      by (apply Qfloor_resp_le; lra).
    lia.
Qed.

Lemma round_half_away_comp (p q : Q) :
  (p == q)%Q -> JS.round_half_away p = JS.round_half_away q.
Proof.
  intros E. apply Z.le_antisymm; apply round_half_away_mono; rewrite E; lra.
Qed.

Lemma of_Z_nonzero (g : Z) : g <> 0 -> Qeq_bool (inject_Z g) 0 = false.
Proof.
  intros N. apply not_true_iff_false. rewrite Qeq_bool_iff.
  change 0%Q with (inject_Z 0). rewrite inject_Z_injective. exact N.
Qed.

Lemma ranked_avg (c : TeamDefenseAnalyzer.Cell.t) :
  0 < TeamDefenseAnalyzer.Cell.games c ->
  TeamDefenseAnalyzer.Ranked.avgPointsAllowedPerGame (TeamDefenseAnalyzer.ranked c)
  = JS.Decimal 2 (hundredths c).
Proof.
  intros G. unfold TeamDefenseAnalyzer.ranked.
  cbn [TeamDefenseAnalyzer.Ranked.avgPointsAllowedPerGame].
  unfold JS.div, JS.of_Z. rewrite of_Z_nonzero by lia.
  unfold JS.toFixed, hundredths, exactAverage. f_equal.
  change (inject_Z (JS.pow10 2)) with 100%Q.
  apply round_half_away_comp. now rewrite Qred_correct.
Qed.

Lemma hundredths_near (c : TeamDefenseAnalyzer.Cell.t) :
  (Qabs (inject_Z (hundredths c) / 100 - exactAverage c) <= 1 # 200)%Q.
Proof.
  pose proof (round_half_away_near (exactAverage c * 100)) as N.
  fold (hundredths c) in N.
  apply Qabs_Qle_condition in N. apply Qabs_Qle_condition.
  assert (E : (inject_Z (hundredths c) / 100
               == inject_Z (hundredths c) * (1 # 100))%Q) by field.
  rewrite E. split; lra.
Qed.

(** ** The ranked output *)

Lemma StronglySorted_impl {A : Type} (R S : A -> A -> Prop) (l : list A) :
  (forall a b, R a b -> S a b) -> StronglySorted R l -> StronglySorted S l.
Proof.
  intros I. induction 1 as [| a l _ IH F]; constructor; [assumption |].
  eapply Forall_impl; [| exact F]. auto.
Qed.

Lemma sortedTeams_In (o : JS.obj TeamDefenseAnalyzer.Cell.t)
    (e : TeamDefenseAnalyzer.Ranked.t) :
  In e (TeamDefenseAnalyzer.sortedTeams o) <->
  exists c, In c (JS.obj_values o)
            /\ 0 < TeamDefenseAnalyzer.Cell.games c
            /\ e = TeamDefenseAnalyzer.ranked c.
Proof.
  unfold TeamDefenseAnalyzer.sortedTeams.
  rewrite sort_In, in_map_iff. split.
  - intros (c & <- & I).
    apply filter_In in I. destruct I as [I G]. apply Z.ltb_lt in G.
    now exists c.
  - intros (c & I & G & ->). exists c. split; [reflexivity |].
    apply filter_In. split; [assumption | now apply Z.ltb_lt].
Qed.

Lemma sortedTeams_sorted (o : JS.obj TeamDefenseAnalyzer.Cell.t) :
  StronglySorted
    (fun a b => TeamDefenseAnalyzer.Ranked.totalPointsAllowed b
                <= TeamDefenseAnalyzer.Ranked.totalPointsAllowed a)
    (TeamDefenseAnalyzer.sortedTeams o).
Proof.
  unfold TeamDefenseAnalyzer.sortedTeams.
  eapply StronglySorted_impl;
    [| apply (sort_by_key
                (fun a => - TeamDefenseAnalyzer.Ranked.totalPointsAllowed a))].
  - intros a b. simpl. lia.
  - intros a b. cbv beta. rewrite sgn_sub_of_Z. symmetry. apply Z.compare_opp.
Qed.

Lemma ranked_shows (c : TeamDefenseAnalyzer.Cell.t) :
  0 < TeamDefenseAnalyzer.Cell.games c -> shows c (TeamDefenseAnalyzer.ranked c).
Proof.
  intros G. unfold shows. rewrite (ranked_avg c G).
  repeat split. exists (hundredths c).
  split; [reflexivity | apply hundredths_near].
Qed.

Lemma sortedTeams_ranking (o : JS.obj TeamDefenseAnalyzer.Cell.t) :
  ranking_of o (TeamDefenseAnalyzer.sortedTeams o).
Proof.
  unfold ranking_of. split; [| split; [| apply sortedTeams_sorted]].
  - unfold TeamDefenseAnalyzer.sortedTeams. rewrite sort_map.
    set (cells := JS.sort _ _).
    exists cells. split; [apply sort_perm |].
    assert (G : Forall (fun c => 0 < TeamDefenseAnalyzer.Cell.games c) cells).
    { apply Forall_forall. intros c I. apply sort_In, filter_In in I.
      now apply Z.ltb_lt. }
    induction G as [| c l P _ IH]; simpl; constructor;
      [now apply ranked_shows | assumption].
  - apply Forall_forall. intros e I. apply sortedTeams_In in I.
    destruct I as (c & _ & G & ->). exact G.
Qed.

(** ** The invariant of the accumulator *)

Section ObjSorted.
Context {V : Type}.

Lemma obj_set_In (k k' : Z) (v v' : V) (o : JS.obj V) :
  In (k', v') (JS.obj_set k v o) -> (k' = k /\ v' = v) \/ In (k', v') o.
Proof.
  induction o as [| [k0 v0] o IH]; simpl.
  - intros [E | []]. injection E as <- <-. now left.
  - destruct (k <? k0).
    + intros [E | H]; [injection E as <- <-; now left | now right].
    + destruct (k =? k0).
      * intros [E | H]; [injection E as <- <-; now left | right; now right].
      * intros [E | H]; [right; now left |].
        destruct (IH H) as [L | R]; [now left | right; now right].
Qed.

Lemma obj_set_sorted (k : Z) (v : V) (o : JS.obj V) :
  obj_sorted o -> obj_sorted (JS.obj_set k v o).
Proof.
  unfold obj_sorted. induction o as [| [k0 v0] o IH]; simpl; intros S.
  - repeat constructor.
  - inversion S as [| ? ? S' F]; subst.
    destruct (Z.ltb_spec k k0).
    + simpl. constructor; [assumption |].
      constructor; [assumption |].
      eapply Forall_impl; [| exact F]. intros; lia.
    + destruct (Z.eqb_spec k k0) as [-> | N]; simpl.
      * now constructor.
      * constructor; [now apply IH |].
        apply Forall_forall. intros x Hx.
        apply in_map_iff in Hx. destruct Hx as ([k1 v1] & <- & Hx).
        destruct (obj_set_In _ _ _ _ _ Hx) as [[-> _] | Hx']; simpl; [lia |].
        rewrite Forall_forall in F. apply F.
        now apply (in_map fst) in Hx'.
Qed.

Lemma obj_get_In (k : Z) (v : V) (o : JS.obj V) :
  JS.obj_get k o = Some v -> In (k, v) o.
Proof.
  induction o as [| [k0 v0] o IH]; simpl; [discriminate |].
  destruct (Z.eqb_spec k k0) as [-> | N].
  - intros E. injection E as ->. now left.
  - intros E. right. now apply IH.
Qed.

Lemma obj_In_get (k : Z) (v : V) (o : JS.obj V) :
  obj_sorted o -> In (k, v) o -> JS.obj_get k o = Some v.
Proof.
  unfold obj_sorted. induction o as [| [k0 v0] o IH]; simpl; [easy |].
  intros S. inversion S as [| ? ? S' F]; subst.
  intros [E | H].
  - injection E as -> ->. now rewrite Z.eqb_refl.
  - destruct (Z.eqb_spec k k0) as [-> | N]; [| now apply IH].
    rewrite Forall_forall in F.
    apply (in_map fst) in H. apply F in H. simpl in H. lia.
Qed.

End ObjSorted.

Ltac split4 := split; [| split; [| split]].

Lemma table_ok_set (teams : list Team.t) (o : JS.obj TeamDefenseAnalyzer.Cell.t)
    (k : Z) (c : TeamDefenseAnalyzer.Cell.t) :
  table_ok teams o ->
  (exists t, In t teams /\ Team.id t = k
             /\ Team.name t = TeamDefenseAnalyzer.Cell.name c) ->
  table_ok teams (JS.obj_set k c o).
Proof.
  intros [S N] T. split; [now apply obj_set_sorted |].
  intros k' c' H. destruct (obj_set_In _ _ _ _ _ H) as [[-> ->] | H'].
  - exact T.
  - now apply N.
Qed.

Lemma initialize_ok (teams : list Team.t) :
  stats_ok teams (TeamDefenseAnalyzer.initialize teams).
Proof.
  unfold TeamDefenseAnalyzer.initialize.
  assert (G : forall l s, (forall t, In t l -> In t teams) -> stats_ok teams s ->
              stats_ok teams
                (fold_left
                   (fun s team =>
                      let fresh :=
                        {| TeamDefenseAnalyzer.Cell.name := Team.name team;
                           TeamDefenseAnalyzer.Cell.pointsAllowed := 0;
                           TeamDefenseAnalyzer.Cell.games := 0 |} in
                      {| TeamDefenseAnalyzer.stats1 :=
                           JS.obj_set (Team.id team) fresh (TeamDefenseAnalyzer.stats1 s);
                         TeamDefenseAnalyzer.stats2 :=
                           JS.obj_set (Team.id team) fresh (TeamDefenseAnalyzer.stats2 s);
                         TeamDefenseAnalyzer.stats3 :=
                           JS.obj_set (Team.id team) fresh (TeamDefenseAnalyzer.stats3 s);
                         TeamDefenseAnalyzer.stats4 :=
                           JS.obj_set (Team.id team) fresh (TeamDefenseAnalyzer.stats4 s) |})
                   l s)).
  { induction l as [| t l IH]; intros s I S; simpl; [assumption |].
    apply IH; [intros; apply I; now right |].
    destruct S as (S1 & S2 & S3 & S4).
    assert (T : exists t', In t' teams /\ Team.id t' = Team.id t
                           /\ Team.name t' = Team.name t)
      by (exists t; repeat split; apply I; now left).
    split4; simpl; apply table_ok_set; assumption || exact T. }
  apply G; [auto |].
  assert (E : table_ok teams []) by (split; [constructor | intros ? ? []]).
  split4; apply E.
Qed.

Lemma stats_ok_get (teams : list Team.t) (s : TeamDefenseAnalyzer.Stats)
    (position : Z) (o : JS.obj TeamDefenseAnalyzer.Cell.t) :
  stats_ok teams s -> TeamDefenseAnalyzer.stats_get position s = Some o ->
  table_ok teams o.
Proof.
  intros (S1 & S2 & S3 & S4).
  destruct (position_cases position) as [-> | [-> | [-> | [-> | [_ I]]]]];
    simpl; try (intros E; injection E as <-; assumption).
  now rewrite (proj1 (I s)).
Qed.

Lemma stats_ok_set (teams : list Team.t) (s : TeamDefenseAnalyzer.Stats)
    (position : Z) (o : JS.obj TeamDefenseAnalyzer.Cell.t) :
  stats_ok teams s -> table_ok teams o ->
  stats_ok teams (TeamDefenseAnalyzer.stats_set position o s).
Proof.
  intros (S1 & S2 & S3 & S4) O.
  destruct (position_cases position) as [-> | [-> | [-> | [-> | [_ I]]]]];
    try (split4; simpl; assumption).
  rewrite (proj2 (I s) o). split4; assumption.
Qed.

Lemma processGameweek_ok (teams : list Team.t) (position : Z)
    (s s' : TeamDefenseAnalyzer.Stats) (g : Gameweek.t) :
  stats_ok teams s ->
  TeamDefenseAnalyzer.processGameweek position s g = JS.Ok s' ->
  stats_ok teams s'.
Proof.
  intros S. unfold TeamDefenseAnalyzer.processGameweek.
  destruct (_ && _); [| intros E; injection E as <-; assumption].
  destruct (TeamDefenseAnalyzer.stats_get position s) as [o |] eqn:G;
    [| discriminate].
  pose proof (stats_ok_get _ _ _ _ S G) as O.
  destruct (JS.obj_get _ o) as [c |] eqn:C;
    intros E; injection E as <-; [| assumption].
  apply stats_ok_set; [assumption |].
  apply table_ok_set; [assumption |].
  apply obj_get_In in C. now apply (proj2 O) in C.
Qed.

Lemma forEach_ok (teams : list Team.t) (position : Z) (h : list Gameweek.t) :
  forall s s', stats_ok teams s ->
    TeamDefenseAnalyzer.forEach position h s = JS.Ok s' -> stats_ok teams s'.
Proof.
  induction h as [| g h IH]; intros s s' S; simpl.
  - intros E. injection E as <-. assumption.
  - destruct (TeamDefenseAnalyzer.processGameweek position s g) as [s1 |] eqn:E1;
      simpl; [| discriminate].
    apply IH. eapply processGameweek_ok; eassumption.
Qed.

Lemma aggregate_ok (teams : list Team.t) (allPlayersData : list Player.t)
    (getPlayerData : Z -> PlayerData.t) :
  stats_ok teams (TeamDefenseAnalyzer.aggregate teams allPlayersData getPlayerData).
Proof.
  unfold TeamDefenseAnalyzer.aggregate.
  generalize (List.map Player.id allPlayersData) as ids.
  generalize (initialize_ok teams).
  generalize (TeamDefenseAnalyzer.initialize teams) as s.
  intros s S ids. revert s S.
  induction ids as [| i ids IH]; intros s S; simpl; [assumption |].
  apply IH.
  destruct (TeamDefenseAnalyzer.processPlayerData _ _ _ _) as [s' |] eqn:E;
    [| assumption].
  unfold TeamDefenseAnalyzer.processPlayerData in E.
  destruct (find _ allPlayersData); [| injection E as <-; assumption].
  destruct (PlayerData.history _); [| injection E as <-; assumption].
  destruct (0 <? _); [| injection E as <-; assumption].
  eapply forEach_ok; eassumption.
Qed.

(* ================================================================== *)
(** * The vulnerability score *)
(* ================================================================== *)

Lemma NoDup_map_eq {A B : Type} (f : A -> B) (l : list A) (x y : A) :
  NoDup (List.map f l) -> In x l -> In y l -> f x = f y -> x = y.
Proof.
  induction l as [| a l IH]; simpl; [easy |].
  intros N. inversion N as [| ? ? NI N']; subst.
  intros [-> | Hx] [-> | Hy] E; try reflexivity.
  - exfalso. apply NI. rewrite E. now apply in_map.
  - exfalso. apply NI. rewrite <- E. now apply in_map.
  - now apply IH.
Qed.

Lemma find_none_all {A : Type} (f : A -> bool) (l : list A) :
  (forall x, In x l -> f x = false) -> find f l = None.
Proof.
  intros H. destruct (find f l) as [x |] eqn:E; [| reflexivity].
  apply find_some in E. destruct E as [I T]. rewrite (H x I) in T. discriminate.
Qed.

Lemma find_unique {A : Type} (f : A -> bool) (l : list A) (x : A) :
  In x l -> f x = true -> (forall y, In y l -> f y = true -> y = x) ->
  find f l = Some x.
Proof.
  intros I T U. destruct (find f l) as [y |] eqn:E.
  - apply find_some in E. destruct E as [Iy Ty]. f_equal. now apply U.
  - rewrite (find_none _ _ E x I) in T. discriminate.
Qed.

Section Lookup.
Context (this : PlayerFixtureAnalyzer.t).
Hypothesis unique_names : NoDup (List.map Team.name (PlayerFixtureAnalyzer.teams this)).

(** The bootstrap team a ranked cell is matched to is the team the cell
    was keyed by. *)
Lemma isTeam_ranked (o : JS.obj TeamDefenseAnalyzer.Cell.t) (k teamId : Z)
    (c : TeamDefenseAnalyzer.Cell.t) :
  names_ok (PlayerFixtureAnalyzer.teams this) o -> In (k, c) o ->
  PlayerFixtureAnalyzer.isTeam this teamId (TeamDefenseAnalyzer.ranked c)
  = (k =? teamId).
Proof.
  intros N I. destruct (N k c I) as (t & It & <- & En).
  unfold PlayerFixtureAnalyzer.isTeam.
  cbn [TeamDefenseAnalyzer.Ranked.name TeamDefenseAnalyzer.ranked].
  destruct (find _ (PlayerFixtureAnalyzer.teams this)) as [bt |] eqn:F.
  - apply find_some in F. destruct F as [Ib Eb]. apply String.eqb_eq in Eb.
    assert (bt = t) as ->; [| reflexivity].
    apply (NoDup_map_eq Team.name (PlayerFixtureAnalyzer.teams this)); try assumption. congruence.
  - apply (find_none _ _ F) in It. rewrite En, String.eqb_refl in It.
    discriminate.
Qed.

Lemma find_sortedTeams (o : JS.obj TeamDefenseAnalyzer.Cell.t) (teamId : Z) :
  table_ok (PlayerFixtureAnalyzer.teams this) o ->
  find (PlayerFixtureAnalyzer.isTeam this teamId) (TeamDefenseAnalyzer.sortedTeams o)
  = match JS.obj_get teamId o with
    | Some c =>
        if 0 <? TeamDefenseAnalyzer.Cell.games c
        then Some (TeamDefenseAnalyzer.ranked c) else None
    | None => None
    end.
Proof.
  intros [S N].
  pose proof (sortedTeams_In o) as M.
  assert (K : forall e, In e (TeamDefenseAnalyzer.sortedTeams o) ->
                PlayerFixtureAnalyzer.isTeam this teamId e = true ->
                exists c, JS.obj_get teamId o = Some c
                          /\ 0 < TeamDefenseAnalyzer.Cell.games c
                          /\ e = TeamDefenseAnalyzer.ranked c).
  { intros e Ie Te. apply M in Ie. destruct Ie as (c & Ic & G & ->).
    unfold JS.obj_values in Ic. apply in_map_iff in Ic.
    destruct Ic as ([k c'] & Ec & Ic). simpl in Ec. subst c'.
    rewrite (isTeam_ranked o k teamId c N Ic) in Te. apply Z.eqb_eq in Te.
    subst k. exists c. repeat split; [| assumption].
    now apply obj_In_get. }
  destruct (JS.obj_get teamId o) as [c |] eqn:G.
  - destruct (Z.ltb_spec 0 (TeamDefenseAnalyzer.Cell.games c)) as [P | P].
    + pose proof (obj_get_In _ _ _ G) as Ic.
      apply find_unique.
      * apply M. exists c. repeat split; [| assumption].
        unfold JS.obj_values. now apply (in_map snd) in Ic.
      * rewrite (isTeam_ranked o teamId teamId c N Ic). apply Z.eqb_refl.
      * intros e Ie Te. destruct (K e Ie Te) as (c' & E' & _ & ->). congruence.
    + apply find_none_all. intros e Ie.
      destruct (PlayerFixtureAnalyzer.isTeam this teamId e) eqn:Te;
        [| reflexivity].
      destruct (K e Ie Te) as (c' & E' & P' & _).
      assert (c' = c) by congruence. subst. lia.
  - apply find_none_all. intros e Ie.
    destruct (PlayerFixtureAnalyzer.isTeam this teamId e) eqn:Te;
      [| reflexivity].
    destruct (K e Ie Te) as (c' & E' & _). discriminate.
Qed.

End Lookup.

Lemma positionData_calculateResults (this : PlayerFixtureAnalyzer.t)
    (s : TeamDefenseAnalyzer.Stats) (position : Z) :
  PlayerFixtureAnalyzer.defenseResults this = TeamDefenseAnalyzer.calculateResults s ->
  PlayerFixtureAnalyzer.positionData this position
  = option_map TeamDefenseAnalyzer.sortedTeams
               (TeamDefenseAnalyzer.stats_get position s).
Proof.
  intros E.
  unfold PlayerFixtureAnalyzer.positionData, TeamDefenseAnalyzer.stats_get.
  rewrite E, !position_match.
  repeat (destruct (_ =? _); [reflexivity |]). reflexivity.
Qed.

(** The scorer reads the score of the table, whenever the table is the
    one the ranked results were calculated from. *)
Lemma getVulnerabilityScore_table (this : PlayerFixtureAnalyzer.t)
    (s : TeamDefenseAnalyzer.Stats) (teamId position : Z) :
  NoDup (List.map Team.name (PlayerFixtureAnalyzer.teams this)) ->
  stats_ok (PlayerFixtureAnalyzer.teams this) s ->
  PlayerFixtureAnalyzer.defenseResults this = TeamDefenseAnalyzer.calculateResults s ->
  valid_position position ->
  PlayerFixtureAnalyzer.getVulnerabilityScore this teamId position
  = JS.Ok (tableScore s teamId position).
Proof.
  intros U S E V. unfold PlayerFixtureAnalyzer.getVulnerabilityScore.
  rewrite (positionData_calculateResults this s position E).
  destruct (stats_get_valid position s V) as (o & G). rewrite G.
  cbn [option_map].
  rewrite (find_sortedTeams this U o teamId (stats_ok_get _ _ _ _ S G)).
  unfold tableScore, cell_at. rewrite G.
  destruct (JS.obj_get teamId o) as [c |]; [| reflexivity].
  destruct (Z.ltb_spec 0 (TeamDefenseAnalyzer.Cell.games c)); [| reflexivity].
  now rewrite ranked_avg.
Qed.

Lemma getVulnerabilityScore_invalid (this : PlayerFixtureAnalyzer.t)
    (teamId position : Z) :
  ~ valid_position position ->
  PlayerFixtureAnalyzer.getVulnerabilityScore this teamId position = JS.TypeError.
Proof.
  intros V. unfold PlayerFixtureAnalyzer.getVulnerabilityScore.
  replace (PlayerFixtureAnalyzer.positionData this position) with
    (@None (list TeamDefenseAnalyzer.Ranked.t)); [reflexivity |].
  unfold PlayerFixtureAnalyzer.positionData, valid_position in *.
  rewrite position_match.
  destruct (Z.eqb_spec position 1); [lia |].
  destruct (Z.eqb_spec position 2); [lia |].
  destruct (Z.eqb_spec position 3); [lia |].
  destruct (Z.eqb_spec position 4); [lia | reflexivity].
Qed.

Lemma clamp_cases (x : Q) :
  ((x <= 0 /\ clamp x == 0) \/ (0 <= x <= 10 /\ clamp x == x)
   \/ (10 <= x /\ clamp x == 10))%Q.
Proof.
  unfold clamp.
  pose proof (Q.max_spec 0 x) as M.
  pose proof (Q.min_spec 10 (Qmax 0 x)) as N.
  revert M N. generalize (Qmin 10 (Qmax 0 x)). generalize (Qmax 0 x).
  intros m n M N.
  destruct (Qlt_le_dec 0 x); [destruct (Qlt_le_dec x 10) |];
    [right; left | right; right | left]; lra.
Qed.

Lemma clamp_Fin (x : Q) :
  exists q, JS.min (JS.of_Z 10) (JS.max (JS.of_Z 0) (JS.Fin x)) = JS.Fin q
            /\ (q == clamp x)%Q.
Proof.
  unfold JS.max, JS.min, JS.of_Z, JS.ltb.
  change (inject_Z 0) with 0%Q. change (inject_Z 10) with 10%Q.
  pose proof (clamp_cases x) as C.
  destruct (Qle_bool x 0) eqn:A; cbn [negb].
  - apply Qle_bool_iff in A. change (Qle_bool 10 0) with false. cbn [negb].
    eexists; split; [reflexivity |]. lra.
  - apply not_true_iff_false in A. rewrite Qle_bool_iff in A.
    destruct (Qle_bool 10 x) eqn:B; cbn [negb].
    + apply Qle_bool_iff in B. eexists; split; [reflexivity |]. lra.
    + apply not_true_iff_false in B. rewrite Qle_bool_iff in B.
      eexists; split; [reflexivity |]. lra.
Qed.

Lemma clamp_range (x : Q) : (0 <= clamp x <= 10)%Q.
Proof.
  pose proof (clamp_cases x). lra.
Qed.

Lemma clamp_mono (x y : Q) : (x <= y)%Q -> (clamp x <= clamp y)%Q.
Proof.
  pose proof (clamp_cases x). pose proof (clamp_cases y). lra.
Qed.

Lemma clamp_comp (x y : Q) : (x == y)%Q -> (clamp x == clamp y)%Q.
Proof.
  intros E. apply Qle_antisym; apply clamp_mono; rewrite E; lra.
Qed.

Lemma scoreOf_Decimal (n : Z) :
  exists q, scoreOf (JS.Decimal 2 n) = JS.Fin q
            /\ (q == clamp (inject_Z n / 100 * (5 # 2)))%Q.
Proof.
  unfold scoreOf, JS.parseFloat, JS.mul.
  change (inject_Z (JS.pow10 2)) with 100%Q.
  destruct (clamp_Fin (Qred (Qred (inject_Z n / 100) * (5 # 2)))) as (q & E & Q).
  exists q. split; [exact E |].
  rewrite Q. apply clamp_comp. now rewrite !Qred_correct.
Qed.

Lemma tableScore_cell (s : TeamDefenseAnalyzer.Stats) (teamId position : Z)
    (c : TeamDefenseAnalyzer.Cell.t) :
  cell_at position teamId s = Some c -> 0 < TeamDefenseAnalyzer.Cell.games c ->
  exists q, tableScore s teamId position = JS.Fin q
            /\ (q == clamp (avgPointsAllowed c * (5 # 2)))%Q.
Proof.
  intros C G. unfold tableScore. rewrite C.
  destruct (Z.ltb_spec 0 (TeamDefenseAnalyzer.Cell.games c)); [| lia].
  apply scoreOf_Decimal.
Qed.

Lemma tableScore_no_data (s : TeamDefenseAnalyzer.Stats) (teamId position : Z) :
  (cell_at position teamId s = None
   \/ exists c, cell_at position teamId s = Some c
                /\ TeamDefenseAnalyzer.Cell.games c = 0) ->
  tableScore s teamId position = JS.of_Z 0.
Proof.
  unfold tableScore. intros [-> | (c & -> & ->)]; reflexivity.
Qed.

Lemma avgPointsAllowed_mono (a b : TeamDefenseAnalyzer.Cell.t) :
  (exactAverage a <= exactAverage b)%Q ->
  (avgPointsAllowed a <= avgPointsAllowed b)%Q.
Proof.
  intros L. unfold avgPointsAllowed, hundredths.
  assert (R : JS.round_half_away (exactAverage a * 100)
              <= JS.round_half_away (exactAverage b * 100))
    by (apply round_half_away_mono; lra).
  rewrite Zle_Qle in R.
  apply Qmult_le_compat_r; [assumption | easy].
Qed.

(** Whatever the table, the score that is returned lies in [0, 10]; it
    is not returned exactly when the position is none of 1..4. *)
Lemma getVulnerabilityScore_range (this : PlayerFixtureAnalyzer.t)
    (s : TeamDefenseAnalyzer.Stats) (teamId position : Z) :
  PlayerFixtureAnalyzer.defenseResults this = TeamDefenseAnalyzer.calculateResults s ->
  match PlayerFixtureAnalyzer.getVulnerabilityScore this teamId position with
  | JS.Ok (JS.Fin q) => valid_position position /\ (0 <= q <= 10)%Q
  | JS.Ok _ => False
  | JS.TypeError => ~ valid_position position
  end.
Proof.
  intros E.
  assert (D : valid_position position \/ ~ valid_position position)
    by (unfold valid_position; lia).
  destruct D as [V | V].
  2:{ now rewrite getVulnerabilityScore_invalid. }
  unfold PlayerFixtureAnalyzer.getVulnerabilityScore.
  rewrite (positionData_calculateResults this s position E).
  destruct (stats_get_valid position s V) as (o & G). rewrite G.
  cbn [option_map].
  destruct (find _ _) as [e |] eqn:F.
  - apply find_some in F. destruct F as [I _].
    apply sortedTeams_In in I.
    destruct I as (c & _ & P & ->). rewrite (ranked_avg c P).
    cbv zeta. fold (scoreOf (JS.Decimal 2 (hundredths c))).
    destruct (scoreOf_Decimal (hundredths c)) as (q & -> & Q).
    split; [assumption |]. rewrite Q. apply clamp_range.
  - split; [assumption |]. unfold JS.of_Z, inject_Z. lra.
Qed.

(* ================================================================== *)
(** * Upcoming fixtures and recommendations *)
(* ================================================================== *)

(** ** Callbacks that may throw *)

Section MapM.
Context {A B : Type} (f : A -> JS.result B).

Lemma mapM_Forall2 (l : list A) (ys : list B) :
  JS.mapM f l = JS.Ok ys -> Forall2 (fun x y => f x = JS.Ok y) l ys.
Proof.
  revert ys. induction l as [| x l IH]; simpl; intros ys E.
  - injection E as <-. constructor.
  - destruct (f x) as [y |] eqn:Fx; simpl in E; [| discriminate].
    destruct (JS.mapM f l) as [ys' |]; simpl in E; [| discriminate].
    injection E as <-. constructor; [assumption | now apply IH].
Qed.

Lemma mapM_total (l : list A) :
  (forall x, In x l -> exists y, f x = JS.Ok y) ->
  exists ys, JS.mapM f l = JS.Ok ys.
Proof.
  induction l as [| x l IH]; simpl; intros H.
  - now exists [].
  - destruct (H x (or_introl eq_refl)) as (y & ->).
    destruct IH as (ys & ->); [intros; apply H; now right |].
    now exists (y :: ys).
Qed.

End MapM.

Lemma Forall2_In_r {A B : Type} (R : A -> B -> Prop) (l : list A) (l' : list B)
    (y : B) :
  Forall2 R l l' -> In y l' -> exists x, In x l /\ R x y.
Proof.
  induction 1 as [| a b l l' Rab _ IH]; simpl; [easy |].
  intros [<- | H].
  - exists a. auto.
  - destruct (IH H) as (x & I & Rx). exists x. auto.
Qed.

Lemma Forall2_In_l {A B : Type} (R : A -> B -> Prop) (l : list A) (l' : list B)
    (x : A) :
  Forall2 R l l' -> In x l -> exists y, In y l' /\ R x y.
Proof.
  induction 1 as [| a b l l' Rab _ IH]; simpl; [easy |].
  intros [<- | H].
  - exists b. auto.
  - destruct (IH H) as (y & I & Ry). exists y. auto.
Qed.

(** ** The horizon *)

Lemma includes_in_horizon (currentGameweek : option JS.number) (N : nat)
    (event : option Z) :
  PlayerFixtureAnalyzer.includes
    (PlayerFixtureAnalyzer.targetGameweeks currentGameweek N) event = true
  <-> in_horizon currentGameweek N event.
Proof.
  unfold PlayerFixtureAnalyzer.includes, in_horizon,
    PlayerFixtureAnalyzer.targetGameweeks.
  destruct event as [e |].
  - rewrite existsb_exists. split.
    + intros (g & I & E). apply in_map_iff in I. destruct I as (i & <- & I).
      apply in_seq in I. exists e, i. repeat split; [lia | exact E].
    + intros (e' & i & E & L & Q). injection E as <-.
      exists (gameweekPlus currentGameweek i). split; [| exact Q].
      apply in_map_iff. exists i. split; [reflexivity |].
      apply in_seq. lia.
  - split; [discriminate |]. intros (e & i & E & _). discriminate.
Qed.

Lemma eqb_of_Z (x y : Z) : JS.eqb (JS.of_Z x) (JS.of_Z y) = (x =? y).
Proof.
  unfold JS.eqb, JS.of_Z, Qeq_bool, inject_Z. simpl.
  now rewrite !Z.mul_1_r.
Qed.

(** With an integer current gameweek the horizon is an interval. *)
Lemma in_horizon_interval (g : Z) (N : nat) (event : option Z) :
  in_horizon (Some (JS.of_Z g)) N event
  <-> exists e, event = Some e /\ g <= e < g + Z.of_nat N.
Proof.
  unfold in_horizon, gameweekPlus. split.
  - intros (e & i & E & L & Q). rewrite add_of_Z, eqb_of_Z in Q.
    apply Z.eqb_eq in Q. exists e. split; [assumption | lia].
  - intros (e & E & L). exists e, (Z.to_nat (e - g)).
    repeat split; [assumption | lia |].
    rewrite add_of_Z, eqb_of_Z. apply Z.eqb_eq. lia.
Qed.

Lemma qualifies_spec (targets : list JS.number) (player : Player.t)
    (fixture : Fixture.t) :
  PlayerFixtureAnalyzer.qualifies targets player fixture = true
  <-> PlayerFixtureAnalyzer.includes targets (Fixture.event fixture) = true
      /\ (Fixture.team_a fixture = Player.team player
          \/ Fixture.team_h fixture = Player.team player)
      /\ Fixture.finished fixture = false.
Proof.
  unfold PlayerFixtureAnalyzer.qualifies.
  rewrite !andb_true_iff, orb_true_iff, !Z.eqb_eq, negb_true_iff. tauto.
Qed.

(** ** Entries *)

Lemma getVulnerabilityScore_valid (this : PlayerFixtureAnalyzer.t)
    (teamId position : Z) :
  valid_position position ->
  exists v, PlayerFixtureAnalyzer.getVulnerabilityScore this teamId position
            = JS.Ok v.
Proof.
  intros V. unfold PlayerFixtureAnalyzer.getVulnerabilityScore.
  destruct (PlayerFixtureAnalyzer.positionData this position) as [d |] eqn:D.
  - destruct (find _ d); eexists; reflexivity.
  - exfalso. unfold PlayerFixtureAnalyzer.positionData in D.
    rewrite position_match in D. unfold valid_position in V.
    destruct (Z.eqb_spec position 1); [discriminate |].
    destruct (Z.eqb_spec position 2); [discriminate |].
    destruct (Z.eqb_spec position 3); [discriminate |].
    destruct (Z.eqb_spec position 4); [discriminate | lia].
Qed.

Lemma upcomingOf_entry (this : PlayerFixtureAnalyzer.t) (player : Player.t)
    (f : Fixture.t) (e : Upcoming.t) :
  PlayerFixtureAnalyzer.upcomingOf this player f = JS.Ok e ->
  entry_of this player f e.
Proof.
  unfold PlayerFixtureAnalyzer.upcomingOf, entry_of. cbv zeta.
  destruct (PlayerFixtureAnalyzer.getVulnerabilityScore _ _ _) as [v |] eqn:G;
    simpl; [| discriminate].
  intros E. injection E as <-. simpl. repeat split. exact G.
Qed.

Lemma upcomingOf_total (this : PlayerFixtureAnalyzer.t) (player : Player.t)
    (f : Fixture.t) :
  valid_position (Player.element_type player) ->
  exists e, PlayerFixtureAnalyzer.upcomingOf this player f = JS.Ok e.
Proof.
  intros V. unfold PlayerFixtureAnalyzer.upcomingOf. cbv zeta.
  destruct (getVulnerabilityScore_valid this
              (if Fixture.team_h f =? Player.team player
               then Fixture.team_a f else Fixture.team_h f)
              (Player.element_type player) V) as (v & ->).
  simpl. eexists. reflexivity.
Qed.

Lemma getPlayerUpcomingFixtures_found (this : PlayerFixtureAnalyzer.t)
    (playerId : Z) (N : nat) (player : Player.t) :
  find (fun p => Player.id p =? playerId) (PlayerFixtureAnalyzer.allPlayersData this)
  = Some player ->
  valid_position (Player.element_type player) ->
  exists entries mapped,
    PlayerFixtureAnalyzer.getPlayerUpcomingFixtures this playerId N = JS.Ok entries
    /\ Permutation mapped entries
    /\ Forall2 (entry_of this player) (qualifying this player N) mapped.
Proof.
  intros F V. unfold PlayerFixtureAnalyzer.getPlayerUpcomingFixtures.
  rewrite F. cbv zeta. fold (qualifying this player N).
  destruct (mapM_total (PlayerFixtureAnalyzer.upcomingOf this player)
              (qualifying this player N)) as (mapped & M).
  { intros f _. now apply upcomingOf_total. }
  rewrite M. simpl JS.bind.
  eexists. exists mapped. split; [reflexivity |]. split; [apply sort_perm |].
  eapply Forall2_impl; [| apply mapM_Forall2; exact M].
  intros f e. apply upcomingOf_entry.
Qed.

Lemma getPlayerUpcomingFixtures_inv (this : PlayerFixtureAnalyzer.t)
    (playerId : Z) (N : nat) (entries : list Upcoming.t) :
  PlayerFixtureAnalyzer.getPlayerUpcomingFixtures this playerId N = JS.Ok entries ->
  (find (fun p => Player.id p =? playerId) (PlayerFixtureAnalyzer.allPlayersData this)
   = None /\ entries = [])
  \/ exists player mapped,
       find (fun p => Player.id p =? playerId)
            (PlayerFixtureAnalyzer.allPlayersData this) = Some player
       /\ JS.mapM (PlayerFixtureAnalyzer.upcomingOf this player)
                  (qualifying this player N) = JS.Ok mapped
       /\ entries
          = JS.sort
              (fun a b =>
                 JS.sub (JS.to_number (Upcoming.gameweek a))
                        (JS.to_number (Upcoming.gameweek b)))
              mapped.
Proof.
  unfold PlayerFixtureAnalyzer.getPlayerUpcomingFixtures.
  destruct (find _ _) as [player |].
  - cbv zeta. fold (qualifying this player N).
    destruct (JS.mapM _ _) as [mapped |] eqn:M; simpl; [| discriminate].
    intros E. injection E as <-. right. now exists player, mapped.
  - intros E. injection E as <-. now left.
Qed.

(** ** Who is recommended *)

Lemma getPlayerUpcomingFixtures_total (this : PlayerFixtureAnalyzer.t)
    (playerId : Z) (N : nat) :
  (forall p, In p (PlayerFixtureAnalyzer.allPlayersData this) ->
             valid_position (Player.element_type p)) ->
  exists entries,
    PlayerFixtureAnalyzer.getPlayerUpcomingFixtures this playerId N = JS.Ok entries.
Proof.
  intros V.
  destruct (find (fun p => Player.id p =? playerId)
                 (PlayerFixtureAnalyzer.allPlayersData this)) as [player |] eqn:F.
  - destruct (getPlayerUpcomingFixtures_found this playerId N player F)
      as (entries & _ & E & _).
    + apply V. now apply find_some in F.
    + now exists entries.
  - exists []. unfold PlayerFixtureAnalyzer.getPlayerUpcomingFixtures.
    now rewrite F.
Qed.

Lemma analysisOf_fields (this : PlayerFixtureAnalyzer.t) (N : nat)
    (player : Player.t) (r : Analysis.t) :
  PlayerFixtureAnalyzer.analysisOf this N player = JS.Ok r ->
  Analysis.id r = Player.id player
  /\ Analysis.positionId r = Player.element_type player
  /\ PlayerFixtureAnalyzer.getPlayerUpcomingFixtures this (Player.id player) N
     = JS.Ok (Analysis.fixtures r)
  /\ Analysis.fixturesCount r = Z.of_nat (List.length (Analysis.fixtures r)).
Proof.
  unfold PlayerFixtureAnalyzer.analysisOf.
  destruct (PlayerFixtureAnalyzer.getPlayerUpcomingFixtures _ _ _) as [fs |];
    simpl JS.bind; [| discriminate].
  intros E. injection E as <-. now repeat split.
Qed.

Lemma eligible_spec (player : Player.t) :
  PlayerFixtureAnalyzer.eligible player = true
  <-> Player.status player = "a"%string /\ 200 < Player.minutes player.
Proof.
  unfold PlayerFixtureAnalyzer.eligible.
  now rewrite andb_true_iff, String.eqb_eq, Z.ltb_lt.
Qed.

Lemma analyzeTimeHorizon_lists (this : PlayerFixtureAnalyzer.t) (N : nat)
    (out : PlayerFixtureAnalyzer.Positions) :
  PlayerFixtureAnalyzer.analyzeTimeHorizon this N = JS.Ok out ->
  exists analysed,
    PlayerFixtureAnalyzer.playerAnalysis this N = JS.Ok analysed
    /\ PlayerFixtureAnalyzer.Goalkeeper out
       = JS.sort PlayerFixtureAnalyzer.compareAnalysis
           (List.filter (fun p => Analysis.positionId p =? 1) analysed)
    /\ PlayerFixtureAnalyzer.Defender out
       = JS.sort PlayerFixtureAnalyzer.compareAnalysis
           (List.filter (fun p => Analysis.positionId p =? 2) analysed)
    /\ PlayerFixtureAnalyzer.Midfielder out
       = JS.sort PlayerFixtureAnalyzer.compareAnalysis
           (List.filter (fun p => Analysis.positionId p =? 3) analysed)
    /\ PlayerFixtureAnalyzer.Forward out
       = JS.sort PlayerFixtureAnalyzer.compareAnalysis
           (List.filter (fun p => Analysis.positionId p =? 4) analysed).
Proof.
  unfold PlayerFixtureAnalyzer.analyzeTimeHorizon.
  destruct (PlayerFixtureAnalyzer.playerAnalysis this N) as [analysed |];
    simpl JS.bind; [| discriminate].
  intros E. injection E as <-. exists analysed. now repeat split.
Qed.

Lemma ranked_players_In (this : PlayerFixtureAnalyzer.t) (N : nat)
    (out : PlayerFixtureAnalyzer.Positions) (r : Analysis.t) :
  PlayerFixtureAnalyzer.analyzeTimeHorizon this N = JS.Ok out ->
  In r (ranked_players out) ->
  exists player,
    In player (PlayerFixtureAnalyzer.allPlayersData this)
    /\ PlayerFixtureAnalyzer.eligible player = true
    /\ PlayerFixtureAnalyzer.analysisOf this N player = JS.Ok r
    /\ 0 < Analysis.fixturesCount r.
Proof.
  intros E I.
  destruct (analyzeTimeHorizon_lists this N out E) as (analysed & A & G & D & M & F).
  assert (I' : In r analysed).
  { unfold ranked_players in I. rewrite G, D, M, F in I.
    rewrite !in_app_iff, !sort_In, !filter_In in I. tauto. }
  unfold PlayerFixtureAnalyzer.playerAnalysis in A.
  destruct (JS.mapM _ _) as [mapped |] eqn:MM; simpl JS.bind in A; [| discriminate].
  injection A as <-. apply filter_In in I'. destruct I' as [I' C].
  apply Z.ltb_lt in C.
  destruct (Forall2_In_r _ _ _ _ (mapM_Forall2 _ _ _ MM) I') as (p & Ip & Rp).
  apply filter_In in Ip. destruct Ip as [Ip El].
  exists p. auto.
Qed.

(* ================================================================== *)
(** * The properties of the specification *)
(* ================================================================== *)

Lemma position_list_sort (this : PlayerFixtureAnalyzer.t) (N : nat)
    (out : PlayerFixtureAnalyzer.Positions) (analysed : list Analysis.t) (k : Z) :
  PlayerFixtureAnalyzer.analyzeTimeHorizon this N = JS.Ok out ->
  PlayerFixtureAnalyzer.playerAnalysis this N = JS.Ok analysed ->
  valid_position k ->
  position_list out k
  = JS.sort PlayerFixtureAnalyzer.compareAnalysis
      (List.filter (fun p => Analysis.positionId p =? k) analysed).
Proof.
  intros E A V.
  destruct (analyzeTimeHorizon_lists this N out E) as (analysed' & A' & G & D & M & F).
  rewrite A in A'. injection A' as <-.
  destruct (position_cases k) as [-> | [-> | [-> | [-> | [NV _]]]]];
    try assumption; contradiction.
Qed.

Lemma StronglySorted_impl_In {A : Type} (R S : A -> A -> Prop) (l : list A) :
  (forall a b, In a l -> In b l -> R a b -> S a b) ->
  StronglySorted R l -> StronglySorted S l.
Proof.
  intros I H. induction H as [| a l _ IH F]; constructor.
  - apply IH. intros x y Ix Iy. apply I; now right.
  - rewrite Forall_forall in F |- *. intros b Ib.
    apply I; [now left | now right | now apply F].
Qed.

Lemma gtb_abs_sub (x y : Q) :
  JS.gtb (JS.abs (JS.sub (JS.Fin x) (JS.Fin y))) (JS.Fin (1 # 2))
  = negb (Qle_bool (Qabs (x - y)) (1 # 2)).
Proof.
  unfold JS.gtb, JS.abs, JS.sub, JS.neg, JS.add, JS.ltb.
  rewrite Qle_bool_Qred_l. f_equal. apply Qle_bool_Qeq_l.
  rewrite !Qred_correct. reflexivity.
Qed.

(** On records with numeric keys the comparator lets [a] stand in front
    of [b] exactly when [a] ranks before [b]. *)
Lemma keeps_ranks_before (a b : Analysis.t) :
  numeric a -> numeric b ->
  (keeps PlayerFixtureAnalyzer.compareAnalysis a b <-> ranks_before a b).
Proof.
  intros [[na Ta] [fa Fa]] [[nb Tb] [fb Fb]].
  unfold keeps, ranks_before, PlayerFixtureAnalyzer.compareAnalysis,
    totalOf, formOf.
  rewrite Ta, Tb, Fa, Fb. cbv zeta.
  unfold JS.parseFloat. cbn [finiteOr0].
  set (ta := Qred (inject_Z na / _)). set (tb := Qred (inject_Z nb / _)).
  rewrite gtb_abs_sub.
  destruct (Qle_bool (Qabs (tb - ta)) (1 # 2)) eqn:L; cbn [negb].
  - apply Qle_bool_iff in L. rewrite sgn_sub_Fin.
    pose proof (proj1 (Qabs_Qle_condition _ _) L) as [L1 L2].
    destruct (Qcompare_spec fb fa) as [E | Lt | Gt].
    + split; [intros _; right; split; [assumption | lra] | discriminate].
    + split; [intros _; right; split; [assumption | lra] | discriminate].
    + split; [intros H; now elim H |]. intros [H | [_ H]]; lra.
  - apply not_true_iff_false in L. rewrite Qle_bool_iff in L.
    rewrite sgn_sub_Fin.
    assert (D : (tb + (1 # 2) < ta \/ ta + (1 # 2) < tb)%Q).
    { destruct (Qlt_le_dec (tb + (1 # 2)) ta) as [H | H]; [now left |].
      destruct (Qlt_le_dec (ta + (1 # 2)) tb) as [H' | H']; [now right |].
      exfalso. apply L. apply Qabs_Qle_condition. split; lra. }
    destruct (Qcompare_spec tb ta) as [E | Lt | Gt].
    + exfalso. apply L. apply Qabs_Qle_condition. split; lra.
    + split; [intros _; left; destruct D; lra | discriminate].
    + split; [intros H; now elim H |]. intros [H | [H _]]; [lra |].
      now elim L.
Qed.

Lemma sort_ranks_before (l : list Analysis.t) :
  Forall numeric l -> chains l ->
  StronglySorted ranks_before (JS.sort PlayerFixtureAnalyzer.compareAnalysis l).
Proof.
  intros Nu Ch.
  assert (M : forall x, In x l -> numeric x) by now apply Forall_forall.
  apply StronglySorted_impl_In with (R := keeps PlayerFixtureAnalyzer.compareAnalysis).
  - intros a b Ia Ib. apply sort_In in Ia, Ib.
    apply keeps_ranks_before; auto.
  - apply sort_sorted_on with (P := fun x => In x l).
    + intros x y G. unfold keeps. rewrite compareAnalysis_antisym, G. discriminate.
    + intros x y z Ix Iy Iz Kxy Kyz.
      apply keeps_ranks_before; auto.
      apply (Ch x y z); try assumption; apply keeps_ranks_before; auto.
    + apply Forall_forall. auto.
Qed.

(** Claim C1, as the code has it.  For every horizon and every position
    the ranked list is the analysed players of that position in another
    order.  The comparator answers the opposite when its arguments are
    swapped and answers "equal" on two players with the same total and
    the same form.  When the order it describes (the total descending;
    within 0.5 of each other, the form descending) is transitive on the
    players of the position, whose totals and forms are numbers and of
    whom no two have totals 0.5 apart, the ranked list follows that
    order, and two players equal in total and form keep their relative
    input order. *)
Theorem ranking_keeps_ties (this : PlayerFixtureAnalyzer.t) (N : nat)
    (out : PlayerFixtureAnalyzer.Positions) (analysed : list Analysis.t)
    (k : Z) :
  PlayerFixtureAnalyzer.analyzeTimeHorizon this N = JS.Ok out ->
  PlayerFixtureAnalyzer.playerAnalysis this N = JS.Ok analysed ->
  valid_position k ->
  let players := List.filter (fun p => Analysis.positionId p =? k) analysed in
  (forall x y,
     JS.sgn (PlayerFixtureAnalyzer.compareAnalysis y x)
     = CompOpp (JS.sgn (PlayerFixtureAnalyzer.compareAnalysis x y)))
  /\ (forall a b, same_keys a b ->
        JS.sgn (PlayerFixtureAnalyzer.compareAnalysis a b) = Eq)
  /\ Permutation players (position_list out k)
  /\ (Forall numeric players -> off_threshold players -> chains players ->
      StronglySorted ranks_before (position_list out k)
      /\ forall a b, same_keys a b -> before a b players ->
           before a b (position_list out k)).
Proof.
  intros E A V players.
  rewrite (position_list_sort this N out analysed k E A V). fold players.
  split; [intros x y; apply compareAnalysis_antisym |].
  split; [intros a b; apply compareAnalysis_same |].
  split; [apply sort_perm |].
  intros Nu _ Ch. split; [now apply sort_ranks_before |].
  intros a b K B. apply sort_before; [| assumption].
  unfold keeps. rewrite (compareAnalysis_same a b K). discriminate.
Qed.

Lemma ranking_keeps_ties_witness :
  StronglySorted ranks_before (PlayerFixtureAnalyzer.Forward season_out)
  /\ before (nth 0 season_analysed low_total) (nth 1 season_analysed low_total)
            (PlayerFixtureAnalyzer.Forward season_out).
Proof.
  assert (R : forall a b, In a season_analysed -> In b season_analysed ->
                ranks_before a b).
  { intros a b [<- | [<- | []]] [<- | [<- | []]];
      right; split; vm_compute; discriminate. }
  destruct (proj2 (proj2 (proj2
    (ranking_keeps_ties season 3 season_out season_analysed 4
       eq_refl eq_refl
       (conj (proj1 (Z.leb_le 1 4) eq_refl) (proj1 (Z.leb_le 4 4) eq_refl)))))) as [S B].
  - repeat constructor; eexists; reflexivity.
  - intros a b [<- | [<- | []]] [<- | [<- | []]]; vm_compute; discriminate.
  - intros a b c Ia _ Ic _ _. now apply R.
  - split; [exact S |]. apply B.
    + split; vm_compute; reflexivity.
    + apply before_here. left. reflexivity.
Defined.

(** Claim C1, counterexample.  With totals 1.00, 1.50 and 2.00 and forms
    3, 2 and 1 the comparator lets the first player stand before the
    second and the second before the third, and puts the third before the
    first: it is not transitive, so it is not a total order. *)
Lemma ranking_comparator_cycle :
  keeps PlayerFixtureAnalyzer.compareAnalysis low_total mid_total
  /\ keeps PlayerFixtureAnalyzer.compareAnalysis mid_total high_total
  /\ ~ keeps PlayerFixtureAnalyzer.compareAnalysis low_total high_total.
Proof.
  unfold keeps. vm_compute. repeat split; try discriminate.
  intros H. now apply H.
Qed.

Lemma cell_at_valid (position teamId : Z) (s : TeamDefenseAnalyzer.Stats)
    (c : TeamDefenseAnalyzer.Cell.t) :
  cell_at position teamId s = Some c -> valid_position position.
Proof.
  unfold cell_at. intros H.
  destruct (position_cases position) as [-> | [-> | [-> | [-> | [_ I]]]]];
    try (unfold valid_position; lia).
  rewrite (proj1 (I s)) in H. discriminate.
Qed.

Lemma tableScore_average (s : TeamDefenseAnalyzer.Stats) (teamId position : Z)
    (c : TeamDefenseAnalyzer.Cell.t) :
  cell_at position teamId s = Some c -> 0 < TeamDefenseAnalyzer.Cell.games c ->
  score_of_average (TeamDefenseAnalyzer.Cell.pointsAllowed c)
                   (TeamDefenseAnalyzer.Cell.games c)
                   (tableScore s teamId position).
Proof.
  intros C G.
  destruct (tableScore_cell s teamId position c C G) as (q & E & Q).
  exists (hundredths c), q. split; [| split; [exact E |]].
  - exists (hundredths c). split; [reflexivity | apply hundredths_near].
  - unfold avgPointsAllowed in Q. apply Qabs_Qle_condition. split; lra.
Qed.

(** Claim C2, as the code has it.  With team names that are unique and a
    position among 1..4, the scorer returns 0 when the table has no cell
    for the team or the cell counts no game, and otherwise the average of
    the cell printed with two decimals, times 2.5, clamped to [0, 10],
    and it does not throw; with any other position it throws. *)
Theorem scorer_reads_table (this : PlayerFixtureAnalyzer.t)
    (allPlayersData : list Player.t) (getPlayerData : Z -> PlayerData.t)
    (teamId position : Z) :
  NoDup (List.map Team.name (PlayerFixtureAnalyzer.teams this)) ->
  PlayerFixtureAnalyzer.defenseResults this
  = TeamDefenseAnalyzer.analyzeTeamDefense
      (PlayerFixtureAnalyzer.teams this) allPlayersData getPlayerData ->
  (valid_position position ->
   exists v,
     PlayerFixtureAnalyzer.getVulnerabilityScore this teamId position = JS.Ok v
     /\ match
          cell_at position teamId
            (TeamDefenseAnalyzer.aggregate
               (PlayerFixtureAnalyzer.teams this) allPlayersData getPlayerData)
        with
        | None => v = JS.of_Z 0
        | Some c =>
            if 0 <? TeamDefenseAnalyzer.Cell.games c
            then score_of_average (TeamDefenseAnalyzer.Cell.pointsAllowed c)
                                  (TeamDefenseAnalyzer.Cell.games c) v
            else v = JS.of_Z 0
        end)
  /\ (~ valid_position position ->
      PlayerFixtureAnalyzer.getVulnerabilityScore this teamId position
      = JS.TypeError).
Proof.
  intros U E. split; [| apply getVulnerabilityScore_invalid].
  intros V.
  set (s := TeamDefenseAnalyzer.aggregate _ _ _).
  exists (tableScore s teamId position). split.
  - apply getVulnerabilityScore_table; try assumption. apply aggregate_ok.
  - destruct (cell_at position teamId s) as [c |] eqn:C.
    + destruct (Z.ltb_spec 0 (TeamDefenseAnalyzer.Cell.games c)) as [G | G].
      * now apply tableScore_average.
      * unfold tableScore. rewrite C.
        destruct (Z.ltb_spec 0 (TeamDefenseAnalyzer.Cell.games c)); [lia | reflexivity].
    + unfold tableScore. now rewrite C.
Qed.

Lemma season_names_unique :
  NoDup (List.map Team.name (PlayerFixtureAnalyzer.teams season)).
Proof.
  repeat constructor; simpl; intuition discriminate.
Qed.

Lemma scorer_reads_table_witness :
  (exists v,
     PlayerFixtureAnalyzer.getVulnerabilityScore season 7 4 = JS.Ok v
     /\ score_of_average 8 1 v)
  /\ PlayerFixtureAnalyzer.getVulnerabilityScore season 7 5 = JS.TypeError.
Proof.
  split.
  - exact (proj1
             (scorer_reads_table season [player_of 1 4; player_of 2 4]
                (two_records 7 9) 7 4 season_names_unique eq_refl)
             (conj (proj1 (Z.leb_le 1 4) eq_refl) (proj1 (Z.leb_le 4 4) eq_refl))).
  - apply (proj2
             (scorer_reads_table season [player_of 1 4; player_of 2 4]
                (two_records 7 9) 7 5 season_names_unique eq_refl)).
    unfold valid_position. lia.
Defined.

(** Claim C2, counterexample.  Two teams share the name "Twin"; the cell
    of the second (id 2) for forwards holds 8 points in 1 game, and the
    scorer returns 0 for it, not clamp(8.00 * 2.5) = 10.  And for the
    position 5 the scorer throws. *)
Lemma scorer_misses_twin_and_throws :
  (cell_at 4 2
     (TeamDefenseAnalyzer.aggregate [twin1; twin2] [player_of 1 4] (two_records 2 1))
   = Some {| TeamDefenseAnalyzer.Cell.name := "Twin";
             TeamDefenseAnalyzer.Cell.pointsAllowed := 8;
             TeamDefenseAnalyzer.Cell.games := 1 |}
   /\ PlayerFixtureAnalyzer.getVulnerabilityScore twins 2 4 = JS.Ok (JS.of_Z 0))
  /\ PlayerFixtureAnalyzer.getVulnerabilityScore season 7 5 = JS.TypeError.
Proof.
  repeat split; vm_compute; reflexivity.
Qed.

Lemma score_monotone_in_table (this : PlayerFixtureAnalyzer.t)
    (allPlayersData : list Player.t) (getPlayerData : Z -> PlayerData.t)
    (position teamA teamB : Z) (cA cB : TeamDefenseAnalyzer.Cell.t) :
  NoDup (List.map Team.name (PlayerFixtureAnalyzer.teams this)) ->
  PlayerFixtureAnalyzer.defenseResults this
  = TeamDefenseAnalyzer.analyzeTeamDefense
      (PlayerFixtureAnalyzer.teams this) allPlayersData getPlayerData ->
  cell_at position teamA
    (TeamDefenseAnalyzer.aggregate
       (PlayerFixtureAnalyzer.teams this) allPlayersData getPlayerData)
  = Some cA ->
  cell_at position teamB
    (TeamDefenseAnalyzer.aggregate
       (PlayerFixtureAnalyzer.teams this) allPlayersData getPlayerData)
  = Some cB ->
  0 < TeamDefenseAnalyzer.Cell.games cA ->
  0 < TeamDefenseAnalyzer.Cell.games cB ->
  (exactAverage cB < exactAverage cA)%Q ->
  exists qA qB,
    PlayerFixtureAnalyzer.getVulnerabilityScore this teamA position
    = JS.Ok (JS.Fin qA)
    /\ PlayerFixtureAnalyzer.getVulnerabilityScore this teamB position
       = JS.Ok (JS.Fin qB)
    /\ (qB <= qA)%Q.
Proof.
  intros U E CA CB GA GB L.
  set (s := TeamDefenseAnalyzer.aggregate _ _ _) in *.
  pose proof (cell_at_valid _ _ _ _ CA) as V.
  pose proof (aggregate_ok (PlayerFixtureAnalyzer.teams this)
                allPlayersData getPlayerData) as S.
  fold s in S.
  destruct (tableScore_cell s teamA position cA CA GA) as (qA & TA & QA).
  destruct (tableScore_cell s teamB position cB CB GB) as (qB & TB & QB).
  exists qA, qB.
  rewrite (getVulnerabilityScore_table this s teamA position U S E V), TA.
  rewrite (getVulnerabilityScore_table this s teamB position U S E V), TB.
  repeat split. rewrite QA, QB. apply clamp_mono.
  apply Qmult_le_compat_r; [| easy].
  apply avgPointsAllowed_mono. lra.
Qed.

(** Claim C3, as the code has it.  With team names that are unique, for
    a fixed position, of two teams whose cells count a game the one with
    the greater average of points allowed per game has the score that is
    not smaller; and whatever the names, the team and the position, a
    score that is returned lies in [0, 10] (none is returned exactly when
    the position is none of 1..4). *)
Theorem score_monotone_and_bounded (this : PlayerFixtureAnalyzer.t)
    (allPlayersData : list Player.t) (getPlayerData : Z -> PlayerData.t)
    (position teamA teamB : Z) (cA cB : TeamDefenseAnalyzer.Cell.t) :
  PlayerFixtureAnalyzer.defenseResults this
  = TeamDefenseAnalyzer.analyzeTeamDefense
      (PlayerFixtureAnalyzer.teams this) allPlayersData getPlayerData ->
  (NoDup (List.map Team.name (PlayerFixtureAnalyzer.teams this)) ->
   cell_at position teamA
     (TeamDefenseAnalyzer.aggregate
        (PlayerFixtureAnalyzer.teams this) allPlayersData getPlayerData)
   = Some cA ->
   cell_at position teamB
     (TeamDefenseAnalyzer.aggregate
        (PlayerFixtureAnalyzer.teams this) allPlayersData getPlayerData)
   = Some cB ->
   0 < TeamDefenseAnalyzer.Cell.games cA ->
   0 < TeamDefenseAnalyzer.Cell.games cB ->
   (exactAverage cB < exactAverage cA)%Q ->
   exists qA qB,
     PlayerFixtureAnalyzer.getVulnerabilityScore this teamA position
     = JS.Ok (JS.Fin qA)
     /\ PlayerFixtureAnalyzer.getVulnerabilityScore this teamB position
        = JS.Ok (JS.Fin qB)
     /\ (qB <= qA)%Q)
  /\ (forall teamId position',
        match PlayerFixtureAnalyzer.getVulnerabilityScore this teamId position' with
        | JS.Ok (JS.Fin q) => valid_position position' /\ (0 <= q <= 10)%Q
        | JS.Ok _ => False
        | JS.TypeError => ~ valid_position position'
        end).
Proof.
  intros E. split.
  - intros U. now apply score_monotone_in_table.
  - intros teamId position'.
    now apply getVulnerabilityScore_range
      with (s := TeamDefenseAnalyzer.aggregate
                   (PlayerFixtureAnalyzer.teams this) allPlayersData getPlayerData).
Qed.

Lemma score_monotone_and_bounded_witness :
  exists qA qB,
    PlayerFixtureAnalyzer.getVulnerabilityScore season 7 4 = JS.Ok (JS.Fin qA)
    /\ PlayerFixtureAnalyzer.getVulnerabilityScore season 9 4 = JS.Ok (JS.Fin qB)
    /\ (qB <= qA)%Q.
Proof.
  refine (proj1
    (score_monotone_and_bounded season
       [player_of 1 4; player_of 2 4] (two_records 7 9) 4 7 9
       {| TeamDefenseAnalyzer.Cell.name := "TeamX";
          TeamDefenseAnalyzer.Cell.pointsAllowed := 8;
          TeamDefenseAnalyzer.Cell.games := 1 |}
       {| TeamDefenseAnalyzer.Cell.name := "TeamY";
          TeamDefenseAnalyzer.Cell.pointsAllowed := 2;
          TeamDefenseAnalyzer.Cell.games := 1 |}
       eq_refl)
    season_names_unique _ _ _ _ _).
  - vm_compute. reflexivity.
  - vm_compute. reflexivity.
  - simpl. lia.
  - simpl. lia.
  - vm_compute. reflexivity.
Defined.

(** Claim C3, counterexample.  Two teams share the name "Twin".  For
    forwards the second (id 2) has allowed 8 points in 1 game and the
    first (id 1) 2 points in 1 game; the scorer reads the one ranked
    entry it matches to the name and the id 1: the team with the greater
    average, 8.00, scores 0 and the team with the average 2.00 scores
    10. *)
Lemma scores_of_twins :
  let s := TeamDefenseAnalyzer.aggregate
             [twin1; twin2] [player_of 1 4] (two_records 2 1) in
  cell_at 4 1 s
  = Some {| TeamDefenseAnalyzer.Cell.name := "Twin";
            TeamDefenseAnalyzer.Cell.pointsAllowed := 2;
            TeamDefenseAnalyzer.Cell.games := 1 |}
  /\ cell_at 4 2 s
     = Some {| TeamDefenseAnalyzer.Cell.name := "Twin";
               TeamDefenseAnalyzer.Cell.pointsAllowed := 8;
               TeamDefenseAnalyzer.Cell.games := 1 |}
  /\ PlayerFixtureAnalyzer.defenseResults twins
     = TeamDefenseAnalyzer.calculateResults s
  /\ PlayerFixtureAnalyzer.getVulnerabilityScore twins 1 4 = JS.Ok (JS.of_Z 10)
  /\ PlayerFixtureAnalyzer.getVulnerabilityScore twins 2 4 = JS.Ok (JS.of_Z 0).
Proof.
  repeat split; vm_compute; reflexivity.
Qed.




(** Claim C5.  For each position the ranked output is the cells of that
    position with at least one game, each once and none other, each with
    [pointsAllowed / games] printed with two decimals, by descending
    total points allowed; and one forward with one record of 90 minutes
    and 8 points against TeamX gives the cell 8 points in 1 game and the
    average 8.00. *)
Theorem calculateResults_ranking :
  (forall s : TeamDefenseAnalyzer.Stats,
     ranking_of (TeamDefenseAnalyzer.stats1 s)
       (TeamDefenseAnalyzer.goalkeepers (TeamDefenseAnalyzer.calculateResults s))
     /\ ranking_of (TeamDefenseAnalyzer.stats2 s)
          (TeamDefenseAnalyzer.defenders (TeamDefenseAnalyzer.calculateResults s))
     /\ ranking_of (TeamDefenseAnalyzer.stats3 s)
          (TeamDefenseAnalyzer.midfielders (TeamDefenseAnalyzer.calculateResults s))
     /\ ranking_of (TeamDefenseAnalyzer.stats4 s)
          (TeamDefenseAnalyzer.forwards (TeamDefenseAnalyzer.calculateResults s)))
  /\ cell_at 4 7
       (TeamDefenseAnalyzer.aggregate [teamX] [player_of 1 4] (single_record 7))
     = Some {| TeamDefenseAnalyzer.Cell.name := "TeamX";
               TeamDefenseAnalyzer.Cell.pointsAllowed := 8;
               TeamDefenseAnalyzer.Cell.games := 1 |}
  /\ TeamDefenseAnalyzer.forwards
       (TeamDefenseAnalyzer.analyzeTeamDefense
          [teamX] [player_of 1 4] (single_record 7))
     = [ {| TeamDefenseAnalyzer.Ranked.name := "TeamX";
            TeamDefenseAnalyzer.Ranked.totalPointsAllowed := 8;
            TeamDefenseAnalyzer.Ranked.gamesPlayed := 1;
            TeamDefenseAnalyzer.Ranked.avgPointsAllowedPerGame :=
              JS.Decimal 2 800 |} ].
Proof.
  split; [| split; vm_compute; reflexivity].
  intros s. unfold TeamDefenseAnalyzer.calculateResults. simpl.
  split4; apply sortedTeams_ranking.
Qed.



Lemma analyzeTimeHorizon_total (this : PlayerFixtureAnalyzer.t) (N : nat) :
  (forall p, In p (PlayerFixtureAnalyzer.allPlayersData this) ->
             valid_position (Player.element_type p)) ->
  exists out, PlayerFixtureAnalyzer.analyzeTimeHorizon this N = JS.Ok out.
Proof.
  intros V. unfold PlayerFixtureAnalyzer.analyzeTimeHorizon,
    PlayerFixtureAnalyzer.playerAnalysis.
  destruct (mapM_total (PlayerFixtureAnalyzer.analysisOf this N)
              (List.filter PlayerFixtureAnalyzer.eligible
                 (PlayerFixtureAnalyzer.allPlayersData this))) as (mapped & ->).
  { intros p _. unfold PlayerFixtureAnalyzer.analysisOf.
    destruct (getPlayerUpcomingFixtures_total this (Player.id p) N V) as (fs & ->).
    simpl. eexists. reflexivity. }
  simpl. eexists. reflexivity.
Qed.

Lemma find_by_id (l : list Player.t) (player : Player.t) :
  NoDup (List.map Player.id l) -> In player l ->
  find (fun p => Player.id p =? Player.id player) l = Some player.
Proof.
  intros D I. apply find_unique; [assumption | apply Z.eqb_refl |].
  intros y Iy E. apply Z.eqb_eq in E.
  now apply (NoDup_map_eq Player.id l).
Qed.

Lemma analysisOf_qualifying (this : PlayerFixtureAnalyzer.t) (N : nat)
    (player : Player.t) (r : Analysis.t) :
  NoDup (List.map Player.id (PlayerFixtureAnalyzer.allPlayersData this)) ->
  In player (PlayerFixtureAnalyzer.allPlayersData this) ->
  PlayerFixtureAnalyzer.analysisOf this N player = JS.Ok r ->
  exists mapped,
    Permutation mapped (Analysis.fixtures r)
    /\ Forall2 (entry_of this player) (qualifying this player N) mapped.
Proof.
  intros D I A.
  destruct (analysisOf_fields this N player r A) as (_ & _ & U & _).
  apply getPlayerUpcomingFixtures_inv in U.
  rewrite (find_by_id _ player D I) in U.
  destruct U as [[F _] | (p & mapped & F & M & S)]; [discriminate |].
  injection F as <-. exists mapped. split.
  - rewrite S. apply sort_perm.
  - eapply Forall2_impl; [| apply mapM_Forall2; exact M].
    intros f e. apply upcomingOf_entry.
Qed.

(** Claim C7, as the code has it.  With player ids that are unique, for
    every horizon every record of the four ranked lists comes from a
    player of the bootstrap data whose status is 'a' and whose minutes
    exceed 200, and holds one entry for each of that player's qualifying
    fixtures, at least one; a player without a qualifying fixture in the
    horizon has no record in the lists.  The lists are returned whenever
    the positions of the players are among 1..4. *)
Theorem recommendations_need_fixtures (this : PlayerFixtureAnalyzer.t) (N : nat)
    (out : PlayerFixtureAnalyzer.Positions) :
  NoDup (List.map Player.id (PlayerFixtureAnalyzer.allPlayersData this)) ->
  PlayerFixtureAnalyzer.analyzeTimeHorizon this N = JS.Ok out ->
  Forall
    (fun r =>
       exists player,
         In player (PlayerFixtureAnalyzer.allPlayersData this)
         /\ Player.status player = "a"%string
         /\ 200 < Player.minutes player
         /\ Analysis.id r = Player.id player
         /\ qualifying this player N <> []
         /\ (exists mapped,
               Permutation mapped (Analysis.fixtures r)
               /\ Forall2 (entry_of this player) (qualifying this player N) mapped)
         /\ Analysis.fixturesCount r
            = Z.of_nat (List.length (qualifying this player N)))
    (ranked_players out)
  /\ Forall
       (fun player =>
          qualifying this player N = [] ->
          Forall (fun r => Analysis.id r <> Player.id player) (ranked_players out))
       (PlayerFixtureAnalyzer.allPlayersData this)
  /\ ((forall p, In p (PlayerFixtureAnalyzer.allPlayersData this) ->
                 valid_position (Player.element_type p)) ->
      forall N', exists out',
        PlayerFixtureAnalyzer.analyzeTimeHorizon this N' = JS.Ok out').
Proof.
  intros D E.
  assert (R : forall r, In r (ranked_players out) ->
            exists player,
              In player (PlayerFixtureAnalyzer.allPlayersData this)
              /\ Player.status player = "a"%string
              /\ 200 < Player.minutes player
              /\ Analysis.id r = Player.id player
              /\ qualifying this player N <> []
              /\ (exists mapped,
                    Permutation mapped (Analysis.fixtures r)
                    /\ Forall2 (entry_of this player) (qualifying this player N)
                               mapped)
              /\ Analysis.fixturesCount r
                 = Z.of_nat (List.length (qualifying this player N))).
  { intros r I.
    destruct (ranked_players_In this N out r E I) as (p & Ip & El & A & C).
    apply eligible_spec in El. destruct El as [St Mi].
    destruct (analysisOf_fields this N p r A) as (Id & _ & _ & Len).
    destruct (analysisOf_qualifying this N p r D Ip A) as (mapped & P & F).
    assert (L : List.length (qualifying this p N) = List.length (Analysis.fixtures r)).
    { rewrite <- (Permutation_length P). exact (Forall2_length F). }
    exists p. repeat split; try assumption.
    - intros Z0. rewrite Len, <- L, Z0 in C. simpl in C. lia.
    - now exists mapped.
    - now rewrite L. }
  split; [| split].
  - apply Forall_forall. exact R.
  - apply Forall_forall. intros player Ip Empty.
    apply Forall_forall. intros r I Same.
    destruct (R r I) as (p & Ip' & _ & _ & Id & NE & _).
    assert (p = player) as ->.
    { apply (NoDup_map_eq Player.id (PlayerFixtureAnalyzer.allPlayersData this));
        try assumption. congruence. }
    now apply NE.
  - intros V N'. now apply analyzeTimeHorizon_total.
Qed.

Lemma season_ids_unique :
  NoDup (List.map Player.id (PlayerFixtureAnalyzer.allPlayersData season)).
Proof.
  repeat constructor; simpl; intuition discriminate.
Qed.

Lemma recommendations_need_fixtures_witness :
  Forall (fun r => Analysis.fixturesCount r = 2) (ranked_players season_out).
Proof.
  refine (Forall_impl _ _
            (proj1 (recommendations_need_fixtures season 3 season_out
                      season_ids_unique _))).
  - intros r (p & [<- | [<- | []]] & _ & _ & _ & _ & _ & ->); reflexivity.
  - vm_compute. reflexivity.
Defined.

(** Claim C7, counterexample.  Two players carry the id 1: a forward of
    Team3, which has two fixtures within three gameweeks, and a forward
    of TeamY, which has none.  The fixtures are looked up by id, so the
    player of TeamY is ranked with the two fixtures of the other
    player. *)
Lemma namesake_is_recommended :
  In namesake (PlayerFixtureAnalyzer.allPlayersData season_doubled)
  /\ qualifying season_doubled namesake 3 = []
  /\ List.map (fun r => (Analysis.webName r, Analysis.team r, Analysis.fixturesCount r))
       (ranked_players
          (value_or (PlayerFixtureAnalyzer.analyzeTimeHorizon season_doubled 3)
                    no_positions))
     = [("Striker", "Team3", 2); ("Double", "TeamY", 2)]%string.
Proof.
  split; [right; left; reflexivity |].
  split; vm_compute; reflexivity.
Qed.

(** Claim C8.  When the feed has a fixture that is neither finished nor
    started, the current gameweek is the gameweek of one with the least
    kickoff time among them; when it has none, the current gameweek is
    min(38, M + 1) for the largest gameweek M of the feed; so it is 38
    when no fixture is upcoming and the largest gameweek is 38. *)
Theorem current_gameweek_resolution (this : PlayerFixtureAnalyzer.t) :
  let fixtures := PlayerFixtureAnalyzer.fixtures this in
  (* an upcoming fixture exists: the gameweek of an earliest one *)
  ((exists f, In f fixtures /\ upcoming f = true) ->
   exists f, In f fixtures /\ upcoming f = true
     /\ (forall g, In g fixtures -> upcoming g = true -> kickoff f <= kickoff g)
     /\ PlayerFixtureAnalyzer.getCurrentGameweek this
        = option_map JS.of_Z (Fixture.event f))
  (* none exists: the clamped successor of the largest gameweek *)
  /\ ((forall f, In f fixtures -> upcoming f = false) -> fixtures <> [] ->
      exists M, (exists f, In f fixtures /\ eventOr0 f = M)
        /\ (forall f, In f fixtures -> eventOr0 f <= M)
        /\ PlayerFixtureAnalyzer.getCurrentGameweek this
           = Some (JS.of_Z (Z.min 38 (M + 1))))
  (* in particular at the end of the season *)
  /\ ((forall f, In f fixtures -> upcoming f = false) ->
      (exists f, In f fixtures /\ eventOr0 f = 38) ->
      (forall f, In f fixtures -> eventOr0 f <= 38) ->
      PlayerFixtureAnalyzer.getCurrentGameweek this = Some (JS.of_Z 38)).
Proof.
  intros fixtures.
  assert (K : forall a b : Fixture.t,
             JS.sgn (JS.sub (new_Date (Fixture.kickoff_time a))
                            (new_Date (Fixture.kickoff_time b)))
             = (kickoff a ?= kickoff b)).
  { intros a b. unfold new_Date, JS.to_number, kickoff.
    destruct (Fixture.kickoff_time a), (Fixture.kickoff_time b);
      apply sgn_sub_of_Z. }
  assert (B : (forall f, In f fixtures -> upcoming f = false) -> fixtures <> [] ->
      exists M, (exists f, In f fixtures /\ eventOr0 f = M)
        /\ (forall f, In f fixtures -> eventOr0 f <= M)
        /\ PlayerFixtureAnalyzer.getCurrentGameweek this
           = Some (JS.of_Z (Z.min 38 (M + 1)))).
  { intros N NE. unfold PlayerFixtureAnalyzer.getCurrentGameweek.
    fold fixtures. fold upcoming.
    replace (filter upcoming fixtures) with (@nil Fixture.t).
    2:{ symmetry. destruct (filter upcoming fixtures) as [| f l] eqn:E; [reflexivity |].
        assert (H : In f (filter upcoming fixtures)) by (rewrite E; now left).
        apply filter_In in H. destruct H as [H U]. rewrite (N f H) in U. discriminate. }
    simpl JS.sort. cbv iota.
    destruct fixtures as [| f0 fs] eqn:EF; [congruence |].
    replace (List.map (fun f => JS.to_number (Fixture.event f)) (f0 :: fs))
      with (List.map JS.of_Z (List.map eventOr0 (f0 :: fs))).
    2:{ rewrite map_map. apply map_ext. intros f. unfold eventOr0, JS.to_number.
        now destruct (Fixture.event f). }
    simpl List.map at 2. rewrite max_list_of_Z.
    destruct (fold_max_spec (List.map eventOr0 fs) (eventOr0 f0)) as [I U].
    set (M := fold_left Z.max (List.map eventOr0 fs) (eventOr0 f0)) in *.
    exists M. repeat split.
    - change (eventOr0 f0 :: List.map eventOr0 fs)
        with (List.map eventOr0 (f0 :: fs)) in I.
      apply in_map_iff in I. destruct I as (f & E & I). now exists f.
    - intros f Hf. apply U.
      change (eventOr0 f0 :: List.map eventOr0 fs)
        with (List.map eventOr0 (f0 :: fs)).
      now apply in_map.
    - now rewrite add_of_Z, min_of_Z. }
  split; [| split; [exact B |]].
  - intros (f0 & I0 & U0).
    unfold PlayerFixtureAnalyzer.getCurrentGameweek.
    fold fixtures. fold upcoming.
    destruct (JS.sort _ (filter upcoming fixtures)) as [| f rest] eqn:E.
    + apply sort_nil_inv in E.
      assert (H : In f0 (filter upcoming fixtures)) by (apply filter_In; auto).
      rewrite E in H. destruct H.
    + destruct (sort_head_least kickoff _ K _ _ _ E) as [I L].
      apply filter_In in I. destruct I as [I U].
      exists f. repeat split; try assumption.
      intros g Hg Ug. apply L. apply filter_In. auto.
  - intros N (f & I & E) U.
    destruct (B N) as (M & (f' & I' & E') & U' & ->).
    { intros ->. destruct I. }
    assert (H : M = 38) by (pose proof (U f' I'); pose proof (U' f I); lia).
    rewrite H. reflexivity.
Qed.

Lemma current_gameweek_resolution_witness :
  (exists f, In f (PlayerFixtureAnalyzer.fixtures season) /\ upcoming f = true
     /\ (forall g, In g (PlayerFixtureAnalyzer.fixtures season) ->
                   upcoming g = true -> kickoff f <= kickoff g)
     /\ PlayerFixtureAnalyzer.getCurrentGameweek season
        = option_map JS.of_Z (Fixture.event f))
  /\ (exists M, (exists f, In f (PlayerFixtureAnalyzer.fixtures season_over)
                           /\ eventOr0 f = M)
        /\ (forall f, In f (PlayerFixtureAnalyzer.fixtures season_over) ->
                      eventOr0 f <= M)
        /\ PlayerFixtureAnalyzer.getCurrentGameweek season_over
           = Some (JS.of_Z (Z.min 38 (M + 1))))
  /\ PlayerFixtureAnalyzer.getCurrentGameweek season_over = Some (JS.of_Z 38).
Proof.
  assert (Over : forall f, In f (PlayerFixtureAnalyzer.fixtures season_over) ->
                           upcoming f = false)
    by (intros f [<- | [<- | []]]; reflexivity).
  split; [| split].
  - apply (proj1 (current_gameweek_resolution season)).
    exists (fixture_of 4 7 3 false 50).
    split; [right; left; reflexivity | reflexivity].
  - apply (proj1 (proj2 (current_gameweek_resolution season_over)) Over).
    discriminate.
  - apply (proj2 (proj2 (current_gameweek_resolution season_over)) Over).
    + exists (fixture_of 38 7 3 true 200).
      split; [right; left; reflexivity | reflexivity].
    + intros f [<- | [<- | []]]; vm_compute; discriminate.
Defined.

(** The average vulnerability is guarded: without a fixture it is 0.00. *)
Lemma average_vulnerability_guarded (this : PlayerFixtureAnalyzer.t) (N : nat)
    (player : Player.t) (r : Analysis.t) :
  PlayerFixtureAnalyzer.analysisOf this N player = JS.Ok r ->
  Analysis.fixtures r = [] ->
  Analysis.avgVulnerabilityScore r = JS.Decimal 2 0.
Proof.
  unfold PlayerFixtureAnalyzer.analysisOf.
  destruct (PlayerFixtureAnalyzer.getPlayerUpcomingFixtures _ _ _) as [fs |];
    simpl JS.bind; [| discriminate].
  intros E. injection E as <-. cbn [Analysis.fixtures Analysis.avgVulnerabilityScore].
  intros ->. reflexivity.
Qed.

(** Claim C9, at the failing input.  A team of the bootstrap data none of
    whose players is listed has 0 points and 0 players, and its average
    is the string "NaN": this average is not guarded as the two others
    are (the ranked output drops the cells without a game, the average
    vulnerability is 0 without a fixture). *)
Theorem team_average_is_NaN :
  FPLAnalyzer.analyzeTeamPerformance [teamX; team3] [player_of 1 4]
  = [ {| FPLAnalyzer.name := "Team3";
         FPLAnalyzer.totalPoints := 8;
         FPLAnalyzer.playerCount := 1;
         FPLAnalyzer.averagePoints := FPLAnalyzer.AvgString (JS.Decimal 1 80);
         FPLAnalyzer.totalGoals := 1;
         FPLAnalyzer.totalAssists := 0;
         FPLAnalyzer.cleanSheets := 0 |};
      {| FPLAnalyzer.name := "TeamX";
         FPLAnalyzer.totalPoints := 0;
         FPLAnalyzer.playerCount := 0;
         FPLAnalyzer.averagePoints := FPLAnalyzer.AvgString JS.StrNaN;
         FPLAnalyzer.totalGoals := 0;
         FPLAnalyzer.totalAssists := 0;
         FPLAnalyzer.cleanSheets := 0 |} ].
Proof.
  vm_compute. reflexivity.
Qed.

(** Claim C10.  From 450 minutes on, the average of minutes per
    estimated game is a number not below 60, and the regular-starter
    predicate is the minutes threshold together with the recent-playing
    test: non-zero form or 1800 minutes. *)
Theorem regular_starter_simplified (player : Player.t) :
  (450 <= Player.minutes player ->
   exists q, FPLAnalyzer.avgMinutesPerGame player = JS.Fin q /\ (60 <= q)%Q)
  /\ FPLAnalyzer.isRegularStarter player =
       (450 <=? Player.minutes player)
       && (negb (JS.eqb (JS.parseFloat (Player.form player)) (JS.of_Z 0))
           || (1800 <=? Player.minutes player)).
Proof.
  split; [apply avgMinutesPerGame_ge_60 |].
  unfold FPLAnalyzer.isRegularStarter.
  destruct (Z.ltb_spec (Player.minutes player) 450) as [L | G].
  - destruct (Z.leb_spec 450 (Player.minutes player)); [lia | reflexivity].
  - destruct (avgMinutesPerGame_ge_60 player G) as (q & -> & Q).
    unfold JS.of_Z at 1. rewrite geb_Fin.
    apply Qle_bool_iff in Q. change (inject_Z 60) with 60%Q. rewrite Q.
    destruct (Z.leb_spec 450 (Player.minutes player)); [reflexivity | lia].
Qed.

Lemma regular_starter_simplified_witness :
  exists q, FPLAnalyzer.avgMinutesPerGame (player_of 1 4) = JS.Fin q
            /\ (60 <= q)%Q.
Proof.
  apply (proj1 (regular_starter_simplified (player_of 1 4))).
  vm_compute. discriminate.
Defined.

(* ================================================================== *)
(** * Further properties of the code *)
(* ================================================================== *)

(** ** The whole aggregation *)

Lemma sumZ_app (l l' : list Z) : sumZ (l ++ l') = sumZ l + sumZ l'.
Proof.
  induction l as [| x l IH]; simpl; [reflexivity | rewrite IH; lia].
Qed.

Lemma option_map_credit_0 (o : option TeamDefenseAnalyzer.Cell.t) :
  option_map (credit 0 0) o = o.
Proof.
  destruct o as [c |]; simpl; [now rewrite credit_0 | reflexivity].
Qed.

Lemma contributes_other (position teamId playerPosition : Z) (h : list Gameweek.t) :
  playerPosition <> position ->
  List.filter (contributes position teamId playerPosition) h = [].
Proof.
  intros N. induction h as [| g h IH]; simpl; [reflexivity |].
  unfold contributes at 1. destruct (Z.eqb_spec playerPosition position); [contradiction |].
  simpl. exact IH.
Qed.

(** One step of the loop: the cells are credited with the counted
    records of the player, whatever the outcome. *)
Lemma processPlayerData_step (allPlayersData : list Player.t)
    (getPlayerData : Z -> PlayerData.t) (playerId : Z)
    (s : TeamDefenseAnalyzer.Stats) (position teamId : Z) :
  let counted := countedRecords allPlayersData getPlayerData position teamId playerId in
  cell_at position teamId
    (match TeamDefenseAnalyzer.processPlayerData allPlayersData getPlayerData playerId s with
     | JS.Ok s' => s'
     | JS.TypeError => s
     end)
  = option_map
      (credit (sumZ (List.map Gameweek.total_points counted))
              (Z.of_nat (List.length counted)))
      (cell_at position teamId s).
Proof.
  unfold countedRecords, TeamDefenseAnalyzer.processPlayerData, historyOf.
  destruct (find _ allPlayersData) as [p |]; cbv zeta;
    [| simpl; now rewrite option_map_credit_0].
  destruct (PlayerData.history (getPlayerData playerId)) as [h |];
    [| simpl; now rewrite option_map_credit_0].
  destruct (0 <? Z.of_nat (List.length h)) eqn:L.
  - destruct (Z.le_gt_cases 1 (Player.element_type p)) as [V1 | V1];
      [destruct (Z.le_gt_cases (Player.element_type p) 4) as [V4 | V4] |].
    + destruct (forEach_cells (Player.element_type p) h (conj V1 V4) s)
        as (s' & -> & C).
      apply C.
    + assert (NV : ~ valid_position (Player.element_type p))
        by (unfold valid_position; lia).
      assert (E : cell_at position teamId
                    match TeamDefenseAnalyzer.forEach (Player.element_type p) h s with
                    | JS.Ok s' => s' | JS.TypeError => s end
                  = cell_at position teamId s)
        by (destruct (forEach_invalid_position _ h s NV) as [-> | ->]; reflexivity).
      rewrite E.
      destruct (Z.eq_dec (Player.element_type p) position) as [<- | D].
      * unfold cell_at. now rewrite (stats_get_invalid _ s NV).
      * rewrite (contributes_other _ _ _ h D). simpl.
        now rewrite option_map_credit_0.
    + assert (NV : ~ valid_position (Player.element_type p))
        by (unfold valid_position; lia).
      assert (E : cell_at position teamId
                    match TeamDefenseAnalyzer.forEach (Player.element_type p) h s with
                    | JS.Ok s' => s' | JS.TypeError => s end
                  = cell_at position teamId s)
        by (destruct (forEach_invalid_position _ h s NV) as [-> | ->]; reflexivity).
      rewrite E.
      destruct (Z.eq_dec (Player.element_type p) position) as [<- | D].
      * unfold cell_at. now rewrite (stats_get_invalid _ s NV).
      * rewrite (contributes_other _ _ _ h D). simpl.
        now rewrite option_map_credit_0.
  - destruct h; [| simpl in L; apply Z.ltb_ge in L; lia].
    simpl. now rewrite option_map_credit_0.
Qed.

Lemma processAll_cells (allPlayersData : list Player.t)
    (getPlayerData : Z -> PlayerData.t) (playerIds : list Z) :
  forall (s : TeamDefenseAnalyzer.Stats) (position teamId : Z),
    let counted :=
      allCounted allPlayersData getPlayerData position teamId playerIds in
    cell_at position teamId
      (TeamDefenseAnalyzer.processAll allPlayersData getPlayerData playerIds s)
    = option_map
        (credit (sumZ (List.map Gameweek.total_points counted))
                (Z.of_nat (List.length counted)))
        (cell_at position teamId s).
Proof.
  unfold allCounted, TeamDefenseAnalyzer.processAll.
  induction playerIds as [| i ids IH]; intros s position teamId; cbv zeta.
  - simpl. now rewrite option_map_credit_0.
  - cbn [fold_left flat_map].
    rewrite IH. cbv zeta. rewrite processPlayerData_step. cbv zeta.
    destruct (cell_at position teamId s) as [c |]; [| reflexivity].
    cbn [option_map]. rewrite credit_credit, map_app, sumZ_app, length_app.
    f_equal. f_equal. lia.
Qed.

Lemma find_app {A : Type} (f : A -> bool) (l l' : list A) :
  find f (l ++ l') = match find f l with Some x => Some x | None => find f l' end.
Proof.
  induction l as [| x l IH]; simpl; [reflexivity |].
  destruct (f x); [reflexivity | exact IH].
Qed.

Lemma initialize_step (position teamId : Z) (team : Team.t)
    (s : TeamDefenseAnalyzer.Stats) :
  valid_position position ->
  cell_at position teamId
    {| TeamDefenseAnalyzer.stats1 :=
         JS.obj_set (Team.id team) (freshCell team) (TeamDefenseAnalyzer.stats1 s);
       TeamDefenseAnalyzer.stats2 :=
         JS.obj_set (Team.id team) (freshCell team) (TeamDefenseAnalyzer.stats2 s);
       TeamDefenseAnalyzer.stats3 :=
         JS.obj_set (Team.id team) (freshCell team) (TeamDefenseAnalyzer.stats3 s);
       TeamDefenseAnalyzer.stats4 :=
         JS.obj_set (Team.id team) (freshCell team) (TeamDefenseAnalyzer.stats4 s) |}
  = if Team.id team =? teamId then Some (freshCell team)
    else cell_at position teamId s.
Proof.
  intros V. unfold cell_at.
  destruct (position_cases position) as [-> | [-> | [-> | [-> | [NV _]]]]];
    [| | | | contradiction];
    cbn [TeamDefenseAnalyzer.stats_get TeamDefenseAnalyzer.stats1
         TeamDefenseAnalyzer.stats2 TeamDefenseAnalyzer.stats3
         TeamDefenseAnalyzer.stats4];
    (destruct (Z.eqb_spec (Team.id team) teamId) as [<- | D];
     [apply obj_get_set_same | apply obj_get_set_other; congruence]).
Qed.

Lemma initialize_cells_from (position teamId : Z) (teams : list Team.t) :
  valid_position position ->
  forall s,
    cell_at position teamId
      (fold_left
         (fun s team =>
            let fresh :=
              {| TeamDefenseAnalyzer.Cell.name := Team.name team;
                 TeamDefenseAnalyzer.Cell.pointsAllowed := 0;
                 TeamDefenseAnalyzer.Cell.games := 0 |} in
            {| TeamDefenseAnalyzer.stats1 :=
                 JS.obj_set (Team.id team) fresh (TeamDefenseAnalyzer.stats1 s);
               TeamDefenseAnalyzer.stats2 :=
                 JS.obj_set (Team.id team) fresh (TeamDefenseAnalyzer.stats2 s);
               TeamDefenseAnalyzer.stats3 :=
                 JS.obj_set (Team.id team) fresh (TeamDefenseAnalyzer.stats3 s);
               TeamDefenseAnalyzer.stats4 :=
                 JS.obj_set (Team.id team) fresh (TeamDefenseAnalyzer.stats4 s) |})
         teams s)
    = match lastTeam teams teamId with
      | Some t => Some (freshCell t)
      | None => cell_at position teamId s
      end.
Proof.
  intros V. unfold lastTeam.
  induction teams as [| t teams IH]; intros s; [reflexivity |].
  cbn [fold_left rev]. rewrite IH, find_app. cbv zeta.
  destruct (find _ (rev teams)); [reflexivity |].
  cbn [find]. fold (freshCell t). rewrite (initialize_step _ _ _ _ V).
  now destruct (Team.id t =? teamId).
Qed.

Lemma initialize_lookup (teams : list Team.t) (position teamId : Z) :
  valid_position position ->
  cell_at position teamId (TeamDefenseAnalyzer.initialize teams)
  = option_map freshCell (lastTeam teams teamId).
Proof.
  intros V. unfold TeamDefenseAnalyzer.initialize.
  rewrite (initialize_cells_from _ _ _ V).
  destruct (lastTeam teams teamId); [reflexivity |].
  destruct (position_cases position) as [-> | [-> | [-> | [-> | [NV _]]]]];
    [reflexivity | reflexivity | reflexivity | reflexivity | contradiction].
Qed.

Lemma lastTeam_In (teams : list Team.t) (teamId : Z) (t : Team.t) :
  lastTeam teams teamId = Some t -> In t teams /\ Team.id t = teamId.
Proof.
  unfold lastTeam. intros F. apply find_some in F. destruct F as [I E].
  split; [now apply in_rev | now apply Z.eqb_eq].
Qed.

Lemma lastTeam_None (teams : list Team.t) (teamId : Z) :
  lastTeam teams teamId = None <-> ~ In teamId (List.map Team.id teams).
Proof.
  unfold lastTeam. split.
  - intros F I. apply in_map_iff in I. destruct I as (t & E & I).
    pose proof (find_none _ _ F t (proj1 (in_rev _ _) I)) as N.
    cbv beta in N. apply Z.eqb_neq in N. contradiction.
  - intros N. apply find_none_all. intros t I. apply Z.eqb_neq. intros E.
    apply N. apply in_map_iff. exists t. split; [assumption |].
    now apply in_rev.
Qed.

Lemma obj_sorted_inv {V : Type} (k : Z) (v : V) (o : JS.obj V) :
  obj_sorted ((k, v) :: o) ->
  obj_sorted o /\ JS.obj_get k o = None
  /\ forall k', k' <= k -> JS.obj_get k' o = None.
Proof.
  unfold obj_sorted. cbn [List.map fst]. intros S.
  inversion S as [| ? ? S' F]; subst.
  assert (N : forall k', k' <= k -> JS.obj_get k' o = None).
  { intros k' L. destruct (JS.obj_get k' o) as [v' |] eqn:G; [| reflexivity].
    apply obj_get_In in G. rewrite Forall_forall in F.
    assert (k < k') by (apply F; apply in_map_iff; now exists (k', v')). lia. }
  split; [assumption | split; [apply N; lia | exact N]].
Qed.

(** Two objects with ascending keys and the same lookups are equal. *)
Lemma obj_ext {V : Type} (o1 o2 : JS.obj V) :
  obj_sorted o1 -> obj_sorted o2 ->
  (forall k, JS.obj_get k o1 = JS.obj_get k o2) -> o1 = o2.
Proof.
  revert o2. induction o1 as [| [k1 v1] o1 IH]; intros [| [k2 v2] o2] S1 S2 E.
  - reflexivity.
  - specialize (E k2). simpl in E. rewrite Z.eqb_refl in E. discriminate.
  - specialize (E k1). simpl in E. rewrite Z.eqb_refl in E. discriminate.
  - destruct (obj_sorted_inv _ _ _ S1) as (S1' & N1 & L1).
    destruct (obj_sorted_inv _ _ _ S2) as (S2' & N2 & L2).
    assert (K : k1 = k2).
    { pose proof (E k1) as E1. pose proof (E k2) as E2. simpl in E1, E2.
      rewrite Z.eqb_refl in E1, E2.
      destruct (Z.eqb_spec k1 k2) as [-> | D]; [reflexivity |].
      destruct (Z.eqb_spec k2 k1) as [-> | D']; [reflexivity |].
      destruct (Z.le_gt_cases k1 k2) as [L | L].
      - rewrite (L2 k1 L) in E1. discriminate.
      - rewrite (L1 k2) in E2 by lia. discriminate. }
    subst k2.
    assert (Ev : v1 = v2).
    { specialize (E k1). simpl in E. rewrite Z.eqb_refl in E. congruence. }
    subst v2. f_equal. apply IH; [assumption | assumption |].
    intros k. specialize (E k). simpl in E.
    destruct (Z.eqb_spec k k1) as [K | D]; [subst k; congruence | exact E].
Qed.

Lemma processAll_ok (teams : list Team.t) (allPlayersData : list Player.t)
    (getPlayerData : Z -> PlayerData.t) (playerIds : list Z) :
  forall s, stats_ok teams s ->
    stats_ok teams
      (TeamDefenseAnalyzer.processAll allPlayersData getPlayerData playerIds s).
Proof.
  unfold TeamDefenseAnalyzer.processAll.
  induction playerIds as [| i ids IH]; intros s S; simpl; [assumption |].
  apply IH.
  destruct (TeamDefenseAnalyzer.processPlayerData _ _ _ _) as [s' |] eqn:E;
    [| assumption].
  unfold TeamDefenseAnalyzer.processPlayerData in E.
  destruct (find _ allPlayersData); [| injection E as <-; assumption].
  destruct (PlayerData.history _); [| injection E as <-; assumption].
  destruct (0 <? _); [| injection E as <-; assumption].
  eapply forEach_ok; eassumption.
Qed.

(** Two tables with ascending keys and the same cells are equal. *)
Lemma stats_ext (teams : list Team.t) (s s' : TeamDefenseAnalyzer.Stats) :
  stats_ok teams s -> stats_ok teams s' ->
  (forall position teamId, cell_at position teamId s = cell_at position teamId s') ->
  s = s'.
Proof.
  intros ([S1 _] & [S2 _] & [S3 _] & [S4 _])
         ([S1' _] & [S2' _] & [S3' _] & [S4' _]) E.
  destruct s as [a1 a2 a3 a4], s' as [b1 b2 b3 b4]. simpl in *.
  f_equal; apply obj_ext; try assumption.
  - intros k. exact (E 1 k).
  - intros k. exact (E 2 k).
  - intros k. exact (E 3 k).
  - intros k. exact (E 4 k).
Qed.

Lemma sumZ_perm (l l' : list Z) : Permutation l l' -> sumZ l = sumZ l'.
Proof.
  induction 1; simpl; lia.
Qed.

Lemma flat_map_perm {A B : Type} (f : A -> list B) (l l' : list A) :
  Permutation l l' -> Permutation (flat_map f l) (flat_map f l').
Proof.
  induction 1; simpl.
  - constructor.
  - now apply Permutation_app_head.
  - rewrite !app_assoc. apply Permutation_app_tail, Permutation_app_comm.
  - etransitivity; eassumption.
Qed.

Lemma sumZ_filter {A : Type} (f : A -> Z) (g : A -> bool) (l : list A) :
  (forall x, In x l -> g x = false -> f x = 0) ->
  sumZ (List.map f (List.filter g l)) = sumZ (List.map f l).
Proof.
  induction l as [| x l IH]; intros H; simpl; [reflexivity |].
  destruct (g x) eqn:G; simpl; rewrite IH by (intros; apply H; [now right | assumption]).
  - reflexivity.
  - rewrite (H x); [reflexivity | now left | assumption].
Qed.

Lemma aggregate_processAll (teams : list Team.t) (allPlayersData : list Player.t)
    (getPlayerData : Z -> PlayerData.t) :
  TeamDefenseAnalyzer.aggregate teams allPlayersData getPlayerData
  = TeamDefenseAnalyzer.processAll allPlayersData getPlayerData
      (List.map Player.id allPlayersData) (TeamDefenseAnalyzer.initialize teams).
Proof. reflexivity. Qed.

Lemma aggregate_cell (teams : list Team.t) (allPlayersData : list Player.t)
    (getPlayerData : Z -> PlayerData.t) (playerIds : list Z) (position teamId : Z) :
  valid_position position ->
  let counted :=
    allCounted allPlayersData getPlayerData position teamId playerIds in
  cell_at position teamId
    (TeamDefenseAnalyzer.processAll allPlayersData getPlayerData playerIds
       (TeamDefenseAnalyzer.initialize teams))
  = option_map
      (fun team =>
         {| TeamDefenseAnalyzer.Cell.name := Team.name team;
            TeamDefenseAnalyzer.Cell.pointsAllowed :=
              sumZ (List.map Gameweek.total_points counted);
            TeamDefenseAnalyzer.Cell.games := Z.of_nat (List.length counted) |})
      (lastTeam teams teamId).
Proof.
  intros V. cbv zeta. rewrite processAll_cells. cbv zeta.
  rewrite (initialize_lookup _ _ _ V).
  destruct (lastTeam teams teamId) as [t |]; reflexivity.
Qed.

(** Property X1.  After [initialize], every position among 1..4 holds
    for a team id the cell of the team listed last under this id, with
    that team's name, no points and no games; and it holds no cell for an
    id that no team has. *)
Theorem initialize_creates_cells (teams : list Team.t) (position teamId : Z) :
  valid_position position ->
  cell_at position teamId (TeamDefenseAnalyzer.initialize teams)
  = option_map freshCell (lastTeam teams teamId)
  /\ (cell_at position teamId (TeamDefenseAnalyzer.initialize teams) = None
      <-> ~ In teamId (List.map Team.id teams)).
Proof.
  intros V. rewrite (initialize_lookup _ _ _ V). split; [reflexivity |].
  rewrite <- lastTeam_None. destruct (lastTeam teams teamId); simpl; split;
    congruence.
Qed.

Lemma initialize_creates_cells_witness :
  cell_at 4 7 (TeamDefenseAnalyzer.initialize [teamX; team3])
  = option_map freshCell (lastTeam [teamX; team3] 7)
  /\ (cell_at 4 7 (TeamDefenseAnalyzer.initialize [teamX; team3]) = None
      <-> ~ In 7 (List.map Team.id [teamX; team3])).
Proof.
  apply (initialize_creates_cells [teamX; team3] 4 7).
  unfold valid_position. lia.
Defined.

(** Property X2.  After the aggregation the cell (position, team) holds
    the sum of the points, and the number, of the records that count for
    it: the records with positive minutes against this team (a non-zero
    id) in the histories of the players of this position, one history
    for every entry of the player list, read under the first player with
    the id.  The cell carries the name of the team listed last under the
    id. *)
Theorem aggregate_totals (teams : list Team.t) (allPlayersData : list Player.t)
    (getPlayerData : Z -> PlayerData.t) (position teamId : Z) :
  valid_position position ->
  let counted :=
    allCounted allPlayersData getPlayerData position teamId
               (List.map Player.id allPlayersData) in
  cell_at position teamId
    (TeamDefenseAnalyzer.aggregate teams allPlayersData getPlayerData)
  = option_map
      (fun team =>
         {| TeamDefenseAnalyzer.Cell.name := Team.name team;
            TeamDefenseAnalyzer.Cell.pointsAllowed :=
              sumZ (List.map Gameweek.total_points counted);
            TeamDefenseAnalyzer.Cell.games := Z.of_nat (List.length counted) |})
      (lastTeam teams teamId).
Proof.
  intros V. rewrite aggregate_processAll. now apply aggregate_cell.
Qed.

Lemma aggregate_totals_witness :
  cell_at 4 7
    (TeamDefenseAnalyzer.aggregate
       [teamX; team3; teamY] [player_of 1 4; player_of 2 4] (two_records 7 9))
  = Some {| TeamDefenseAnalyzer.Cell.name := "TeamX";
            TeamDefenseAnalyzer.Cell.pointsAllowed := 8;
            TeamDefenseAnalyzer.Cell.games := 1 |}.
Proof.
  apply (aggregate_totals
           [teamX; team3; teamY] [player_of 1 4; player_of 2 4] (two_records 7 9)
           4 7).
  unfold valid_position. lia.
Defined.

(** Property X3.  As long as the points of the records walked stay
    below 2^53 in sum and in number, the table does not depend on the
    order in which the players are processed: processing the ids of the
    bootstrap data in any other order gives the table of [aggregate],
    and so the same ranked output. *)
Theorem aggregation_order_irrelevant (teams : list Team.t)
    (allPlayersData : list Player.t) (getPlayerData : Z -> PlayerData.t)
    (playerIds : list Z) :
  exactly_added
    (walkedRecords allPlayersData getPlayerData
       (List.map Player.id allPlayersData)) ->
  Permutation (List.map Player.id allPlayersData) playerIds ->
  TeamDefenseAnalyzer.processAll allPlayersData getPlayerData playerIds
    (TeamDefenseAnalyzer.initialize teams)
  = TeamDefenseAnalyzer.aggregate teams allPlayersData getPlayerData.
Proof.
  intros _ P. rewrite aggregate_processAll.
  apply (stats_ext teams); try (apply processAll_ok, initialize_ok).
  intros position teamId. rewrite !processAll_cells. cbv zeta.
  assert (Q : Permutation
                (allCounted allPlayersData getPlayerData position teamId playerIds)
                (allCounted allPlayersData getPlayerData position teamId
                   (List.map Player.id allPlayersData)))
    by (apply flat_map_perm; now symmetry).
  rewrite (sumZ_perm _ _ (Permutation_map Gameweek.total_points Q)).
  now rewrite (Permutation_length Q).
Qed.

Lemma aggregation_order_irrelevant_witness :
  TeamDefenseAnalyzer.processAll
    [player_of 1 4; player_of 2 4] (two_records 7 9) [2; 1]
    (TeamDefenseAnalyzer.initialize [teamX; team3; teamY])
  = TeamDefenseAnalyzer.aggregate
      [teamX; team3; teamY] [player_of 1 4; player_of 2 4] (two_records 7 9).
Proof.
  apply (aggregation_order_irrelevant
           [teamX; team3; teamY] [player_of 1 4; player_of 2 4] (two_records 7 9)
           [2; 1]).
  - split; vm_compute; reflexivity.
  - apply perm_swap.
Defined.

(** Property X4.  In the aggregated table no cell has a negative number
    of games, and a cell without a game holds no points; so the ranked
    list of a position, which drops the cells without a game, accounts
    for all the points and all the games of the table. *)
Theorem ranked_output_keeps_points (teams : list Team.t)
    (allPlayersData : list Player.t) (getPlayerData : Z -> PlayerData.t)
    (position : Z) (o : JS.obj TeamDefenseAnalyzer.Cell.t) :
  TeamDefenseAnalyzer.stats_get position
    (TeamDefenseAnalyzer.aggregate teams allPlayersData getPlayerData) = Some o ->
  (forall c, In c (JS.obj_values o) ->
     0 <= TeamDefenseAnalyzer.Cell.games c
     /\ (TeamDefenseAnalyzer.Cell.games c = 0 ->
         TeamDefenseAnalyzer.Cell.pointsAllowed c = 0))
  /\ sumZ (List.map TeamDefenseAnalyzer.Ranked.totalPointsAllowed
             (TeamDefenseAnalyzer.sortedTeams o))
     = sumZ (List.map TeamDefenseAnalyzer.Cell.pointsAllowed (JS.obj_values o))
  /\ sumZ (List.map TeamDefenseAnalyzer.Ranked.gamesPlayed
             (TeamDefenseAnalyzer.sortedTeams o))
     = sumZ (List.map TeamDefenseAnalyzer.Cell.games (JS.obj_values o)).
Proof.
  intros G.
  assert (V : valid_position position).
  { destruct (position_cases position) as [-> | [-> | [-> | [-> | [_ I]]]]];
      try (unfold valid_position; lia).
    rewrite (proj1 (I _)) in G. discriminate. }
  assert (C : forall c, In c (JS.obj_values o) ->
            0 <= TeamDefenseAnalyzer.Cell.games c
            /\ (TeamDefenseAnalyzer.Cell.games c = 0 ->
                TeamDefenseAnalyzer.Cell.pointsAllowed c = 0)).
  { intros c I. apply in_map_iff in I. destruct I as ([k c'] & E & I).
    simpl in E. subst c'.
    pose proof (stats_ok_get _ _ _ _ (aggregate_ok teams allPlayersData getPlayerData) G)
      as [S _].
    pose proof (obj_In_get _ _ _ S I) as L.
    pose proof (aggregate_cell teams allPlayersData getPlayerData
                  (List.map Player.id allPlayersData) position k V) as T.
    rewrite <- aggregate_processAll in T.
    cbv zeta in T. unfold cell_at in T. rewrite G, L in T.
    destruct (lastTeam teams k); [| discriminate].
    injection T as ->. cbn [TeamDefenseAnalyzer.Cell.games
                            TeamDefenseAnalyzer.Cell.pointsAllowed].
    split; [lia |]. intros Z0.
    destruct (allCounted _ _ _ _ _); [reflexivity | simpl in Z0; lia]. }
  split; [exact C |].
  unfold TeamDefenseAnalyzer.sortedTeams.
  split.
  - rewrite <- (sumZ_perm _ _ (Permutation_map _ (sort_perm _ _))).
    rewrite map_map. cbn [TeamDefenseAnalyzer.ranked
                          TeamDefenseAnalyzer.Ranked.totalPointsAllowed].
    apply sumZ_filter. intros c I F. apply Z.ltb_ge in F.
    destruct (C c I) as [P Z0]. apply Z0. lia.
  - rewrite <- (sumZ_perm _ _ (Permutation_map _ (sort_perm _ _))).
    rewrite map_map. cbn [TeamDefenseAnalyzer.ranked
                          TeamDefenseAnalyzer.Ranked.gamesPlayed].
    apply sumZ_filter. intros c I F. apply Z.ltb_ge in F.
    destruct (C c I) as [P Z0]. lia.
Qed.

Lemma ranked_output_keeps_points_witness :
  sumZ (List.map TeamDefenseAnalyzer.Ranked.totalPointsAllowed
          (TeamDefenseAnalyzer.forwards (PlayerFixtureAnalyzer.defenseResults season)))
  = 10.
Proof.
  pose proof (ranked_output_keeps_points
                [teamX; team3; teamY] [player_of 1 4; player_of 2 4]
                (two_records 7 9) 4 _ eq_refl) as (_ & E & _).
  exact E.
Defined.

(** ** Ties of the ranked output *)

Lemma before_map {A B : Type} (f : A -> B) (x y : A) (l : list A) :
  before x y l -> before (f x) (f y) (List.map f l).
Proof.
  induction 1 as [l I | a l H IH]; simpl.
  - apply before_here. now apply in_map.
  - now apply before_later.
Qed.

Lemma before_filter {A : Type} (g : A -> bool) (x y : A) (l : list A) :
  g x = true -> g y = true -> before x y l -> before x y (List.filter g l).
Proof.
  intros Gx Gy. induction 1 as [l I | a l H IH]; simpl.
  - rewrite Gx. apply before_here. apply filter_In. now split.
  - destruct (g a); [now apply before_later | assumption].
Qed.

(** In an object the binding of the smaller key is enumerated first. *)
Lemma before_obj {V : Type} (o : JS.obj V) (k1 k2 : Z) (v1 v2 : V) :
  obj_sorted o -> In (k1, v1) o -> In (k2, v2) o -> k1 < k2 ->
  before (k1, v1) (k2, v2) o.
Proof.
  induction o as [| [k v] o IH]; intros S I1 I2 L; [destruct I1 |].
  destruct (obj_sorted_inv _ _ _ S) as (S' & _ & N).
  assert (T : forall k' v', In (k', v') o -> k < k').
  { intros k' v' I. destruct (Z.lt_ge_cases k k') as [Lt | Ge]; [assumption |].
    pose proof (obj_In_get _ _ _ S' I) as Gt. rewrite (N k' Ge) in Gt.
    discriminate. }
  destruct I1 as [E1 | I1], I2 as [E2 | I2].
  - injection E1 as -> ->. injection E2 as -> ->. lia.
  - injection E1 as -> ->. now apply before_here.
  - injection E2 as -> ->. apply T in I1. lia.
  - apply before_later. now apply IH.
Qed.

(** Property X5.  In the ranked output of the aggregation, ties are
    broken by the team id: of two teams of a position with games and the
    same total of points allowed, whose ids are array indices (from 0 to
    2^32 - 2, the keys an object enumerates in ascending order), the one
    with the smaller id is ranked first, whatever the order of the teams
    in the bootstrap data. *)
Theorem ranking_ties_by_team_id (teams : list Team.t)
    (allPlayersData : list Player.t) (getPlayerData : Z -> PlayerData.t)
    (position teamA teamB : Z) (cA cB : TeamDefenseAnalyzer.Cell.t)
    (o : JS.obj TeamDefenseAnalyzer.Cell.t) :
  TeamDefenseAnalyzer.stats_get position
    (TeamDefenseAnalyzer.aggregate teams allPlayersData getPlayerData) = Some o ->
  array_index teamA ->
  array_index teamB ->
  JS.obj_get teamA o = Some cA ->
  JS.obj_get teamB o = Some cB ->
  teamA < teamB ->
  0 < TeamDefenseAnalyzer.Cell.games cA ->
  0 < TeamDefenseAnalyzer.Cell.games cB ->
  TeamDefenseAnalyzer.Cell.pointsAllowed cA
  = TeamDefenseAnalyzer.Cell.pointsAllowed cB ->
  exists eA eB,
    shows cA eA /\ shows cB eB
    /\ before eA eB (TeamDefenseAnalyzer.sortedTeams o).
Proof.
  intros G _ _ GA GB L PA PB E.
  pose proof (stats_ok_get _ _ _ _ (aggregate_ok teams allPlayersData getPlayerData) G)
    as [S _].
  exists (TeamDefenseAnalyzer.ranked cA), (TeamDefenseAnalyzer.ranked cB).
  split; [now apply ranked_shows | split; [now apply ranked_shows |]].
  unfold TeamDefenseAnalyzer.sortedTeams. apply sort_before.
  - unfold keeps. rewrite sgn_sub_of_Z.
    cbn [TeamDefenseAnalyzer.ranked TeamDefenseAnalyzer.Ranked.totalPointsAllowed].
    rewrite E, Z.compare_refl. discriminate.
  - apply before_map. apply before_filter; try now apply Z.ltb_lt.
    unfold JS.obj_values.
    apply (before_map snd (teamA, cA) (teamB, cB)).
    apply before_obj; try assumption; now apply obj_get_In.
Qed.

Lemma ranking_ties_by_team_id_witness :
  List.map TeamDefenseAnalyzer.Ranked.name
    (TeamDefenseAnalyzer.forwards
       (TeamDefenseAnalyzer.analyzeTeamDefense
          [teamY; teamX; team3] [player_of 1 4] (tied_records 9 7)))
  = ["TeamX"; "TeamY"]%string
  /\ exists eA eB,
       shows {| TeamDefenseAnalyzer.Cell.name := "TeamX";
                TeamDefenseAnalyzer.Cell.pointsAllowed := 8;
                TeamDefenseAnalyzer.Cell.games := 1 |} eA
       /\ shows {| TeamDefenseAnalyzer.Cell.name := "TeamY";
                   TeamDefenseAnalyzer.Cell.pointsAllowed := 8;
                   TeamDefenseAnalyzer.Cell.games := 1 |} eB
       /\ before eA eB
            (TeamDefenseAnalyzer.forwards
               (TeamDefenseAnalyzer.analyzeTeamDefense
                  [teamY; teamX; team3] [player_of 1 4] (tied_records 9 7))).
Proof.
  split; [reflexivity |].
  refine (ranking_ties_by_team_id
            [teamY; teamX; team3] [player_of 1 4] (tied_records 9 7) 4 7 9
            _ _ _ eq_refl _ _ eq_refl eq_refl _ _ _ eq_refl).
  - unfold array_index. lia.
  - unfold array_index. lia.
  - lia.
  - simpl. lia.
  - simpl. lia.
Defined.

(** ** Team performance *)

Lemma withPlayers_nil (stat : FPLAnalyzer.TeamStat) : withPlayers stat [] = stat.
Proof.
  destruct stat. unfold withPlayers. simpl. f_equal; lia.
Qed.

Lemma withPlayers_cons (stat : FPLAnalyzer.TeamStat) (p : Player.t)
    (l : list Player.t) :
  withPlayers stat (p :: l)
  = withPlayers
      {| FPLAnalyzer.name := FPLAnalyzer.name stat;
         FPLAnalyzer.totalPoints :=
           FPLAnalyzer.totalPoints stat + Player.total_points p;
         FPLAnalyzer.playerCount := FPLAnalyzer.playerCount stat + 1;
         FPLAnalyzer.averagePoints := FPLAnalyzer.averagePoints stat;
         FPLAnalyzer.totalGoals := FPLAnalyzer.totalGoals stat + Player.goals_scored p;
         FPLAnalyzer.totalAssists := FPLAnalyzer.totalAssists stat + Player.assists p;
         FPLAnalyzer.cleanSheets :=
           FPLAnalyzer.cleanSheets stat + Player.clean_sheets p |}
      l.
Proof.
  unfold withPlayers.
  cbn [FPLAnalyzer.name FPLAnalyzer.totalPoints FPLAnalyzer.playerCount
       FPLAnalyzer.averagePoints FPLAnalyzer.totalGoals FPLAnalyzer.totalAssists
       FPLAnalyzer.cleanSheets List.map List.length].
  unfold sumZ. cbn [fold_right].
  f_equal; lia.
Qed.

Lemma initStats_from (teams : list Team.t) (k : Z) :
  forall o : JS.obj FPLAnalyzer.TeamStat,
    JS.obj_get k
      (fold_left
         (fun teamStats team =>
            JS.obj_set (Team.id team)
              {| FPLAnalyzer.name := Team.name team;
                 FPLAnalyzer.totalPoints := 0;
                 FPLAnalyzer.playerCount := 0;
                 FPLAnalyzer.averagePoints := FPLAnalyzer.AvgNumber (JS.of_Z 0);
                 FPLAnalyzer.totalGoals := 0;
                 FPLAnalyzer.totalAssists := 0;
                 FPLAnalyzer.cleanSheets := 0 |}
              teamStats)
         teams o)
    = match lastTeam teams k with
      | Some t => Some (freshStat t)
      | None => JS.obj_get k o
      end.
Proof.
  unfold lastTeam.
  induction teams as [| t teams IH]; intros o; [reflexivity |].
  cbn [fold_left rev]. rewrite IH, find_app.
  destruct (find _ (rev teams)); [reflexivity |].
  cbn [find]. fold (freshStat t).
  destruct (Z.eqb_spec (Team.id t) k) as [<- | D].
  - apply obj_get_set_same.
  - apply obj_get_set_other. congruence.
Qed.

Lemma initStats_lookup (teams : list Team.t) (k : Z) :
  JS.obj_get k (FPLAnalyzer.initStats teams)
  = option_map freshStat (lastTeam teams k).
Proof.
  unfold FPLAnalyzer.initStats. rewrite initStats_from.
  now destruct (lastTeam teams k).
Qed.

Lemma initStats_sorted (teams : list Team.t) :
  obj_sorted (FPLAnalyzer.initStats teams).
Proof.
  unfold FPLAnalyzer.initStats.
  assert (G : forall o : JS.obj FPLAnalyzer.TeamStat, obj_sorted o ->
              obj_sorted
                (fold_left
                   (fun teamStats team =>
                      JS.obj_set (Team.id team)
                        {| FPLAnalyzer.name := Team.name team;
                           FPLAnalyzer.totalPoints := 0;
                           FPLAnalyzer.playerCount := 0;
                           FPLAnalyzer.averagePoints := FPLAnalyzer.AvgNumber (JS.of_Z 0);
                           FPLAnalyzer.totalGoals := 0;
                           FPLAnalyzer.totalAssists := 0;
                           FPLAnalyzer.cleanSheets := 0 |}
                        teamStats)
                   teams o)).
  { induction teams as [| t teams IH]; intros o S; simpl; [assumption |].
    apply IH. now apply obj_set_sorted. }
  apply G. constructor.
Qed.

Lemma addPlayers_lookup (players : list Player.t) (k : Z) :
  forall o : JS.obj FPLAnalyzer.TeamStat,
    JS.obj_get k (FPLAnalyzer.addPlayers players o)
    = option_map (fun stat => withPlayers stat (squad k players)) (JS.obj_get k o).
Proof.
  unfold FPLAnalyzer.addPlayers, squad.
  induction players as [| p players IH]; intros o.
  - simpl. destruct (JS.obj_get k o); simpl; [now rewrite withPlayers_nil | reflexivity].
  - cbn [fold_left List.filter]. rewrite IH. cbv zeta.
    destruct (Z.eqb_spec (Player.team p) k) as [E | D].
    + rewrite E. destruct (JS.obj_get k o) as [st |] eqn:G.
      * rewrite obj_get_set_same. cbn [option_map]. now rewrite withPlayers_cons.
      * rewrite G. reflexivity.
    + destruct (JS.obj_get (Player.team p) o) as [st |]; [| reflexivity].
      rewrite obj_get_set_other by congruence. reflexivity.
Qed.

Lemma addPlayers_sorted (players : list Player.t) :
  forall o : JS.obj FPLAnalyzer.TeamStat,
    obj_sorted o -> obj_sorted (FPLAnalyzer.addPlayers players o).
Proof.
  unfold FPLAnalyzer.addPlayers.
  induction players as [| p players IH]; intros o S; simpl; [assumption |].
  apply IH. destruct (JS.obj_get _ o); [now apply obj_set_sorted | assumption].
Qed.

Lemma analyzeTeamPerformance_unfold (teams : list Team.t)
    (allPlayersData : list Player.t) :
  FPLAnalyzer.analyzeTeamPerformance teams allPlayersData
  = JS.sort
      (fun a b => JS.sub (JS.of_Z (FPLAnalyzer.totalPoints b))
                         (JS.of_Z (FPLAnalyzer.totalPoints a)))
      (List.map FPLAnalyzer.setAverage
         (JS.obj_values
            (FPLAnalyzer.addPlayers allPlayersData (FPLAnalyzer.initStats teams)))).
Proof.
  unfold FPLAnalyzer.analyzeTeamPerformance, JS.obj_values. cbv zeta.
  now rewrite !map_map.
Qed.

Lemma teamEntry_eq (team : Team.t) (allPlayersData : list Player.t) :
  teamEntry team allPlayersData
  = FPLAnalyzer.setAverage
      (withPlayers (freshStat team) (squad (Team.id team) allPlayersData)).
Proof. reflexivity. Qed.

Lemma analyzeTeamPerformance_In (teams : list Team.t)
    (allPlayersData : list Player.t) (stat : FPLAnalyzer.TeamStat) :
  In stat (FPLAnalyzer.analyzeTeamPerformance teams allPlayersData)
  <-> exists team, lastTeam teams (Team.id team) = Some team
                   /\ stat = teamEntry team allPlayersData.
Proof.
  rewrite analyzeTeamPerformance_unfold, sort_In, in_map_iff.
  pose proof (addPlayers_sorted allPlayersData _ (initStats_sorted teams)) as S.
  setoid_rewrite teamEntry_eq. split.
  - intros (st & <- & I). unfold JS.obj_values in I. apply in_map_iff in I.
    destruct I as ([k st'] & E & I). simpl in E. subst st'.
    apply (obj_In_get _ _ _ S) in I.
    rewrite addPlayers_lookup, initStats_lookup in I.
    destruct (lastTeam teams k) as [t |] eqn:L; [| discriminate].
    simpl in I. injection I as <-.
    destruct (lastTeam_In _ _ _ L) as [_ K]. subst k.
    now exists t.
  - intros (t & L & ->). eexists. split; [reflexivity |].
    unfold JS.obj_values. apply in_map_iff. exists (Team.id t, withPlayers (freshStat t) (squad (Team.id t) allPlayersData)).
    split; [reflexivity |]. apply obj_get_In.
    rewrite addPlayers_lookup, initStats_lookup, L. reflexivity.
Qed.

Lemma tenths_near (total count : Z) :
  0 < count ->
  exists n,
    JS.toFixed 1 (JS.div (JS.of_Z total) (JS.of_Z count)) = JS.Decimal 1 n
    /\ (Qabs (inject_Z n / 10 - inject_Z total / inject_Z count) <= 1 # 20)%Q.
Proof.
  intros C. unfold JS.div, JS.of_Z. rewrite of_Z_nonzero by lia.
  unfold JS.toFixed. eexists. split; [reflexivity |].
  change (inject_Z (JS.pow10 1)) with 10%Q.
  set (avg := (inject_Z total / inject_Z count)%Q).
  rewrite (round_half_away_comp (Qred avg * 10) (avg * 10))
    by now rewrite Qred_correct.
  pose proof (round_half_away_near (avg * 10)) as N.
  set (n := JS.round_half_away (avg * 10)) in *.
  apply Qabs_Qle_condition in N. apply Qabs_Qle_condition.
  assert (E : (inject_Z n / 10 == inject_Z n * (1 # 10))%Q) by field.
  rewrite E. split; lra.
Qed.

Lemma teamEntry_totals (team : Team.t) (allPlayersData : list Player.t) :
  totals_of team allPlayersData (teamEntry team allPlayersData).
Proof.
  unfold totals_of, teamEntry. cbv zeta. now repeat split.
Qed.

(** Property X6.  [analyzeTeamPerformance] returns an entry for each
    team id of the bootstrap data, with the name of the team listed last
    under the id and the totals of the players of that team (points,
    players, goals, assists, clean sheets), and no other entry: players
    of an unknown team are counted nowhere.  The entries are ordered by
    descending total points. *)
Theorem team_performance_entries (teams : list Team.t)
    (allPlayersData : list Player.t) :
  (forall stat,
     In stat (FPLAnalyzer.analyzeTeamPerformance teams allPlayersData) ->
     exists team, lastTeam teams (Team.id team) = Some team
                  /\ totals_of team allPlayersData stat)
  /\ (forall team,
        lastTeam teams (Team.id team) = Some team ->
        exists stat,
          In stat (FPLAnalyzer.analyzeTeamPerformance teams allPlayersData)
          /\ totals_of team allPlayersData stat)
  /\ StronglySorted
       (fun a b => FPLAnalyzer.totalPoints b <= FPLAnalyzer.totalPoints a)
       (FPLAnalyzer.analyzeTeamPerformance teams allPlayersData).
Proof.
  split; [| split].
  - intros stat I. apply analyzeTeamPerformance_In in I.
    destruct I as (team & L & ->). exists team.
    split; [assumption | apply teamEntry_totals].
  - intros team L. exists (teamEntry team allPlayersData).
    split; [| apply teamEntry_totals].
    apply analyzeTeamPerformance_In. now exists team.
  - rewrite analyzeTeamPerformance_unfold.
    eapply StronglySorted_impl;
      [| apply (sort_by_key (fun a => - FPLAnalyzer.totalPoints a))].
    + intros a b. simpl. lia.
    + intros a b. cbv beta. rewrite sgn_sub_of_Z. symmetry. apply Z.compare_opp.
Qed.

(** Property X7.  In every entry of [analyzeTeamPerformance] the player
    count is not negative; a team without a player has 0 points and the
    average "NaN"; a team with players has an average with one decimal,
    within 0.05 of total / count. *)
Theorem team_average_printed (teams : list Team.t)
    (allPlayersData : list Player.t) (stat : FPLAnalyzer.TeamStat) :
  In stat (FPLAnalyzer.analyzeTeamPerformance teams allPlayersData) ->
  0 <= FPLAnalyzer.playerCount stat
  /\ (FPLAnalyzer.playerCount stat = 0 ->
      FPLAnalyzer.totalPoints stat = 0
      /\ FPLAnalyzer.averagePoints stat = FPLAnalyzer.AvgString JS.StrNaN)
  /\ (0 < FPLAnalyzer.playerCount stat ->
      exists n,
        FPLAnalyzer.averagePoints stat = FPLAnalyzer.AvgString (JS.Decimal 1 n)
        /\ (Qabs (inject_Z n / 10
                  - inject_Z (FPLAnalyzer.totalPoints stat)
                    / inject_Z (FPLAnalyzer.playerCount stat))
            <= 1 # 20)%Q).
Proof.
  intros I. apply analyzeTeamPerformance_In in I. destruct I as (t & _ & ->).
  unfold teamEntry. cbv zeta.
  cbn [FPLAnalyzer.playerCount FPLAnalyzer.totalPoints FPLAnalyzer.averagePoints].
  split; [lia | split].
  - intros Z0. destruct (squad (Team.id t) allPlayersData); [| simpl in Z0; lia].
    split; reflexivity.
  - intros P.
    destruct (tenths_near
                (sumZ (List.map Player.total_points (squad (Team.id t) allPlayersData)))
                _ P) as (n & E & N).
    exists n. now rewrite E.
Qed.

Lemma team_average_printed_witness :
  exists n,
    FPLAnalyzer.averagePoints (teamEntry team3 [player_of 1 4])
    = FPLAnalyzer.AvgString (JS.Decimal 1 n)
    /\ (Qabs (inject_Z n / 10 - inject_Z 8 / inject_Z 1) <= 1 # 20)%Q.
Proof.
  apply (team_average_printed [teamX; team3] [player_of 1 4]
           (teamEntry team3 [player_of 1 4])).
  - left. reflexivity.
  - reflexivity.
Defined.

(** ** The current gameweek and the upcoming fixtures *)

Section KeySortHead.
Context {A : Type} (key : A -> Z) (cmp : A -> A -> JS.number).
Hypothesis cmp_key : forall a b, JS.sgn (cmp a b) = (key a ?= key b).

(** The output starts with the first of the least elements of the
    input. *)
Lemma sort_head_first_least (l1 : list A) (x : A) (l2 : list A) :
  (forall y, In y l1 -> key x < key y) ->
  (forall y, In y l2 -> key x <= key y) ->
  exists rest, JS.sort cmp (l1 ++ x :: l2) = x :: rest.
Proof.
  intros H1 H2. induction l1 as [| a l1 IH].
  - cbn [app JS.sort fold_right]. fold (JS.sort cmp l2).
    destruct (JS.sort cmp l2) as [| y l'] eqn:E; [now exists [] |].
    cbn [JS.insert]. rewrite cmp_key.
    assert (L : key x <= key y)
      by (apply H2, (sort_In cmp); rewrite E; now left).
    destruct (Z.compare_spec (key x) (key y)); try lia; eexists; reflexivity.
  - destruct IH as (rest & E); [intros y I; apply H1; now right |].
    cbn [app JS.sort fold_right]. fold (JS.sort cmp (l1 ++ x :: l2)).
    rewrite E. cbn [JS.insert]. rewrite cmp_key.
    assert (L : key x < key a) by (apply H1; now left).
    destruct (Z.compare_spec (key a) (key x)); try lia. eexists; reflexivity.
Qed.
End KeySortHead.

Lemma kickoff_compare (a b : Fixture.t) :
  JS.sgn (JS.sub (new_Date (Fixture.kickoff_time a))
                 (new_Date (Fixture.kickoff_time b)))
  = (kickoff a ?= kickoff b).
Proof.
  unfold new_Date, JS.to_number, kickoff.
  destruct (Fixture.kickoff_time a), (Fixture.kickoff_time b);
    apply sgn_sub_of_Z.
Qed.

(** Property X8.  Among the upcoming fixtures with the least kickoff
    time the first of the feed decides: the current gameweek is the
    gameweek of the upcoming fixture whose kickoff time is below that of
    every upcoming fixture before it in the feed and not above that of
    any after it.  A fixture without a kickoff time counts as kicking
    off at the time 0. *)
Theorem current_gameweek_first_earliest (this : PlayerFixtureAnalyzer.t)
    (earlier : list Fixture.t) (f : Fixture.t) (later : list Fixture.t) :
  List.filter upcoming (PlayerFixtureAnalyzer.fixtures this)
  = earlier ++ f :: later ->
  (forall g, In g earlier -> kickoff f < kickoff g) ->
  (forall g, In g later -> kickoff f <= kickoff g) ->
  PlayerFixtureAnalyzer.getCurrentGameweek this
  = option_map JS.of_Z (Fixture.event f).
Proof.
  intros E H1 H2. unfold PlayerFixtureAnalyzer.getCurrentGameweek. cbv zeta.
  change (fun f0 : Fixture.t => negb (Fixture.finished f0) && negb (Fixture.started f0))
    with upcoming.
  rewrite E.
  destruct (sort_head_first_least kickoff _ kickoff_compare earlier f later H1 H2)
    as (rest & ->).
  reflexivity.
Qed.

Lemma current_gameweek_first_earliest_witness :
  PlayerFixtureAnalyzer.getCurrentGameweek season_postponed = None.
Proof.
  apply (current_gameweek_first_earliest season_postponed
           [fixture_of 5 3 7 false 100; fixture_of 4 7 3 false 50] postponed []).
  - reflexivity.
  - intros g [<- | [<- | []]]; vm_compute; reflexivity.
  - intros g [].
Defined.

(** Property X9.  When the current gameweek is [null] (the deciding
    fixture has no gameweek), it adds as 0: the horizon of N gameweeks is
    the gameweeks 0, ..., N - 1. *)
Theorem null_gameweek_horizon (this : PlayerFixtureAnalyzer.t) (N : nat)
    (event : option Z) :
  PlayerFixtureAnalyzer.getCurrentGameweek this = None ->
  PlayerFixtureAnalyzer.includes
    (PlayerFixtureAnalyzer.targetGameweeks
       (PlayerFixtureAnalyzer.getCurrentGameweek this) N) event = true
  <-> exists e, event = Some e /\ 0 <= e < Z.of_nat N.
Proof.
  intros ->. rewrite includes_in_horizon.
  change (in_horizon None N event) with (in_horizon (Some (JS.of_Z 0)) N event).
  rewrite in_horizon_interval. reflexivity.
Qed.

Lemma null_gameweek_horizon_witness :
  PlayerFixtureAnalyzer.includes
    (PlayerFixtureAnalyzer.targetGameweeks
       (PlayerFixtureAnalyzer.getCurrentGameweek season_postponed) 3) (Some 4)
  = true
  <-> exists e, Some 4 = Some e /\ 0 <= e < Z.of_nat 3.
Proof.
  apply (null_gameweek_horizon season_postponed 3 (Some 4)).
  reflexivity.
Defined.

Lemma qualifying_In (this : PlayerFixtureAnalyzer.t) (player : Player.t)
    (N : nat) (f : Fixture.t) :
  In f (qualifying this player N)
  <-> In f (PlayerFixtureAnalyzer.fixtures this)
      /\ in_horizon (PlayerFixtureAnalyzer.getCurrentGameweek this) N (Fixture.event f)
      /\ (Fixture.team_a f = Player.team player
          \/ Fixture.team_h f = Player.team player)
      /\ Fixture.finished f = false.
Proof.
  unfold qualifying. rewrite filter_In, qualifies_spec, includes_in_horizon.
  tauto.
Qed.

Lemma in_horizon_le (g : option JS.number) (N M : nat) (event : option Z) :
  (N <= M)%nat -> in_horizon g N event -> in_horizon g M event.
Proof.
  intros L (e & i & E & I & Q). exists e, i. repeat split; try assumption. lia.
Qed.

Lemma in_horizon_0 (g : option JS.number) (event : option Z) :
  ~ in_horizon g 0 event.
Proof.
  intros (e & i & _ & I & _). lia.
Qed.

Lemma getPlayerUpcomingFixtures_empty (this : PlayerFixtureAnalyzer.t)
    (playerId : Z) (N : nat) :
  find (fun p => Player.id p =? playerId) (PlayerFixtureAnalyzer.allPlayersData this)
  = None
  \/ N = 0%nat
  \/ PlayerFixtureAnalyzer.fixtures this = [] ->
  PlayerFixtureAnalyzer.getPlayerUpcomingFixtures this playerId N = JS.Ok [].
Proof.
  unfold PlayerFixtureAnalyzer.getPlayerUpcomingFixtures.
  intros [-> | H]; [reflexivity |].
  destruct (find _ _) as [player |]; [| reflexivity].
  cbv zeta. fold (qualifying this player N).
  assert (Q : qualifying this player N = []).
  { destruct (qualifying this player N) as [| f l] eqn:E; [reflexivity |].
    assert (I : In f (qualifying this player N)) by (rewrite E; now left).
    apply qualifying_In in I. destruct I as (I & Hz & _).
    destruct H as [-> | H].
    - now apply in_horizon_0 in Hz.
    - rewrite H in I. destruct I. }
  rewrite Q. reflexivity.
Qed.

(** Property X10.  For an id that no player has, for a horizon of 0
    gameweeks and for an empty feed, [getPlayerUpcomingFixtures] returns
    the empty list; it does not throw, whatever the position of the
    player. *)
Theorem upcoming_fixtures_empty (this : PlayerFixtureAnalyzer.t)
    (playerId : Z) (N : nat) :
  find (fun p => Player.id p =? playerId) (PlayerFixtureAnalyzer.allPlayersData this)
  = None
  \/ N = 0%nat
  \/ PlayerFixtureAnalyzer.fixtures this = [] ->
  PlayerFixtureAnalyzer.getPlayerUpcomingFixtures this playerId N = JS.Ok [].
Proof.
  apply getPlayerUpcomingFixtures_empty.
Qed.

Lemma upcoming_fixtures_empty_witness :
  PlayerFixtureAnalyzer.getPlayerUpcomingFixtures season 3 5 = JS.Ok [].
Proof.
  apply (upcoming_fixtures_empty season 3 5).
  left. reflexivity.
Defined.

Lemma gameweek_compare (a b : Upcoming.t) :
  JS.sgn (JS.sub (JS.to_number (Upcoming.gameweek a))
                 (JS.to_number (Upcoming.gameweek b)))
  = (gameweekOr0 a ?= gameweekOr0 b).
Proof.
  unfold JS.to_number, gameweekOr0.
  destruct (Upcoming.gameweek a), (Upcoming.gameweek b); apply sgn_sub_of_Z.
Qed.

(** Property X11.  The list [getPlayerUpcomingFixtures] returns is
    ordered by ascending gameweek, and every entry has a gameweek. *)
Theorem upcoming_fixtures_sorted (this : PlayerFixtureAnalyzer.t)
    (playerId : Z) (N : nat) (entries : list Upcoming.t) :
  PlayerFixtureAnalyzer.getPlayerUpcomingFixtures this playerId N = JS.Ok entries ->
  StronglySorted (fun a b => gameweekOr0 a <= gameweekOr0 b) entries
  /\ Forall (fun e => exists g, Upcoming.gameweek e = Some g) entries.
Proof.
  intros E. apply getPlayerUpcomingFixtures_inv in E.
  destruct E as [[_ ->] | (player & mapped & _ & M & ->)].
  - split; constructor.
  - split; [apply (sort_by_key gameweekOr0), gameweek_compare |].
    apply Forall_forall. intros e I. apply sort_In in I.
    apply mapM_Forall2 in M.
    destruct (Forall2_In_r _ _ _ _ M I) as (f & Q & U).
    apply upcomingOf_entry in U. destruct U as (-> & _).
    apply qualifying_In in Q. destruct Q as (_ & (g & _ & G & _) & _).
    now exists g.
Qed.

Lemma upcoming_fixtures_sorted_witness :
  StronglySorted (fun a b => gameweekOr0 a <= gameweekOr0 b)
    (value_or (PlayerFixtureAnalyzer.getPlayerUpcomingFixtures season 1 3) []).
Proof.
  apply (upcoming_fixtures_sorted season 1 3).
  reflexivity.
Defined.

(** Property X12.  A longer horizon loses no fixture: every entry of
    the list for N gameweeks is an entry of the list for M >= N
    gameweeks. *)
Theorem upcoming_fixtures_grow (this : PlayerFixtureAnalyzer.t)
    (playerId : Z) (N M : nat) (shorter longer : list Upcoming.t) :
  (N <= M)%nat ->
  PlayerFixtureAnalyzer.getPlayerUpcomingFixtures this playerId N = JS.Ok shorter ->
  PlayerFixtureAnalyzer.getPlayerUpcomingFixtures this playerId M = JS.Ok longer ->
  forall e, In e shorter -> In e longer.
Proof.
  intros L EN EM e I.
  apply getPlayerUpcomingFixtures_inv in EN, EM.
  destruct EN as [[_ ->] | (player & mappedN & F & MN & ->)]; [destruct I |].
  destruct EM as [[F' _] | (player' & mappedM & F' & MM & ->)]; [congruence |].
  assert (player' = player) by congruence. subst player'.
  apply sort_In in I. apply sort_In.
  apply mapM_Forall2 in MN, MM.
  destruct (Forall2_In_r _ _ _ _ MN I) as (f & Q & U).
  assert (Q' : In f (qualifying this player M)).
  { apply qualifying_In in Q. apply qualifying_In.
    destruct Q as (Q1 & Q2 & Q3 & Q4).
    split; [assumption | split; [| split; assumption]].
    now apply (in_horizon_le _ N M). }
  destruct (Forall2_In_l _ _ _ _ MM Q') as (e' & I' & U').
  cbv beta in U, U'. congruence.
Qed.

Lemma upcoming_fixtures_grow_witness :
  Forall
    (fun e =>
       In e (value_or (PlayerFixtureAnalyzer.getPlayerUpcomingFixtures season 1 3) []))
    (value_or (PlayerFixtureAnalyzer.getPlayerUpcomingFixtures season 1 1) []).
Proof.
  apply Forall_forall.
  refine (upcoming_fixtures_grow season 1 1 3 _ _ _ eq_refl eq_refl).
  lia.
Defined.

Lemma upcoming_scores_range (this : PlayerFixtureAnalyzer.t)
    (s : TeamDefenseAnalyzer.Stats) (playerId : Z) (N : nat)
    (entries : list Upcoming.t) :
  PlayerFixtureAnalyzer.defenseResults this = TeamDefenseAnalyzer.calculateResults s ->
  PlayerFixtureAnalyzer.getPlayerUpcomingFixtures this playerId N = JS.Ok entries ->
  Forall (fun e => exists q, Upcoming.vulnerabilityScore e = JS.Fin q
                             /\ (0 <= q <= 10)%Q)
         entries.
Proof.
  intros D E. apply getPlayerUpcomingFixtures_inv in E.
  destruct E as [[_ ->] | (player & mapped & _ & M & ->)]; [constructor |].
  apply Forall_forall. intros e I. apply sort_In in I.
  apply mapM_Forall2 in M.
  destruct (Forall2_In_r _ _ _ _ M I) as (f & _ & U).
  apply upcomingOf_entry in U. destruct U as (_ & _ & _ & _ & _ & G).
  pose proof (getVulnerabilityScore_range this s (Upcoming.opponentId e)
                (Player.element_type player) D) as R.
  rewrite G in R. destruct (Upcoming.vulnerabilityScore e) as [q | | |];
    try contradiction.
  exists q. split; [reflexivity | apply R].
Qed.

(** Property X13.  With defense results calculated from a table, every
    entry of the list carries a vulnerability score that is a number in
    [0, 10]. *)
Theorem upcoming_scores_bounded (this : PlayerFixtureAnalyzer.t)
    (s : TeamDefenseAnalyzer.Stats) (playerId : Z) (N : nat)
    (entries : list Upcoming.t) :
  PlayerFixtureAnalyzer.defenseResults this = TeamDefenseAnalyzer.calculateResults s ->
  PlayerFixtureAnalyzer.getPlayerUpcomingFixtures this playerId N = JS.Ok entries ->
  Forall (fun e => exists q, Upcoming.vulnerabilityScore e = JS.Fin q
                             /\ (0 <= q <= 10)%Q)
         entries.
Proof.
  apply upcoming_scores_range.
Qed.

Lemma upcoming_scores_bounded_witness :
  Forall (fun e => exists q, Upcoming.vulnerabilityScore e = JS.Fin q
                             /\ (0 <= q <= 10)%Q)
    (value_or (PlayerFixtureAnalyzer.getPlayerUpcomingFixtures season 1 3) []).
Proof.
  apply (upcoming_scores_bounded season
           (TeamDefenseAnalyzer.aggregate
              [teamX; team3; teamY] [player_of 1 4; player_of 2 4] (two_records 7 9))
           1 3).
  - reflexivity.
  - reflexivity.
Defined.

(** ** The recommendations *)

Lemma round_half_away_Z (z : Z) : JS.round_half_away (inject_Z z) = z.
Proof.
  pose proof (round_half_away_near (inject_Z z)) as N.
  set (n := JS.round_half_away (inject_Z z)) in *.
  apply Qabs_Qle_condition in N. destruct N as [L U].
  assert (A : (inject_Z n < inject_Z (z + 1))%Q)
    by (rewrite inject_Z_plus; change (inject_Z 1) with 1%Q; lra).
  assert (B : (inject_Z z < inject_Z (n + 1))%Q)
    by (rewrite inject_Z_plus; change (inject_Z 1) with 1%Q; lra).
  rewrite <- Zlt_Qlt in A, B. lia.
Qed.

(** [toFixed(2)] of a number between 0 and a whole bound. *)
Lemma toFixed2_range (q : Q) (bound : Z) :
  (0 <= q <= inject_Z bound)%Q ->
  exists n, JS.toFixed 2 (JS.Fin q) = JS.Decimal 2 n /\ 0 <= n <= 100 * bound.
Proof.
  intros [L U]. unfold JS.toFixed. eexists. split; [reflexivity |].
  change (inject_Z (JS.pow10 2)) with 100%Q.
  split.
  - rewrite <- (round_half_away_Z 0) at 1. apply round_half_away_mono.
    change (inject_Z 0) with 0%Q. lra.
  - rewrite <- (round_half_away_Z (100 * bound)). apply round_half_away_mono.
    rewrite inject_Z_mult. change (inject_Z 100) with 100%Q. lra.
Qed.

(** The sum [fixtures.reduce((sum, fixture) => sum + score, 0)] of
    scores that lie in [0, 10]. *)
Lemma total_range (fixtures : list Upcoming.t) :
  Forall (fun e => exists q, Upcoming.vulnerabilityScore e = JS.Fin q
                             /\ (0 <= q <= 10)%Q) fixtures ->
  forall q0 : Q,
  exists q,
    fold_left (fun sum fixture => JS.add sum (Upcoming.vulnerabilityScore fixture))
              fixtures (JS.Fin q0) = JS.Fin q
    /\ (q0 <= q <= q0 + 10 * inject_Z (Z.of_nat (List.length fixtures)))%Q.
Proof.
  induction 1 as [| e l (qe & E & R) F IH]; intros q0.
  - exists q0. split; [reflexivity |].
    cbn [List.length Z.of_nat]. change (inject_Z 0) with 0%Q. lra.
  - cbn [fold_left]. rewrite E. cbn [JS.add].
    destruct (IH (Qred (q0 + qe))) as (q & -> & B).
    exists q. split; [reflexivity |].
    rewrite Qred_correct in B.
    replace (Z.of_nat (List.length (e :: l)))
      with (Z.of_nat (List.length l) + 1) by (cbn [List.length]; lia).
    rewrite inject_Z_plus. change (inject_Z 1) with 1%Q. lra.
Qed.

Lemma analysisOf_totals (this : PlayerFixtureAnalyzer.t)
    (s : TeamDefenseAnalyzer.Stats) (N : nat) (player : Player.t)
    (r : Analysis.t) :
  PlayerFixtureAnalyzer.defenseResults this = TeamDefenseAnalyzer.calculateResults s ->
  PlayerFixtureAnalyzer.analysisOf this N player = JS.Ok r ->
  exists total avg,
    Analysis.totalVulnerabilityScore r = JS.Decimal 2 total
    /\ Analysis.avgVulnerabilityScore r = JS.Decimal 2 avg
    /\ 0 <= total <= 1000 * Analysis.fixturesCount r
    /\ 0 <= avg <= 1000.
Proof.
  intros D. unfold PlayerFixtureAnalyzer.analysisOf.
  destruct (PlayerFixtureAnalyzer.getPlayerUpcomingFixtures _ _ _) as [fs |] eqn:U;
    simpl JS.bind; [| discriminate].
  intros E. injection E as <-.
  cbn [Analysis.totalVulnerabilityScore Analysis.avgVulnerabilityScore
       Analysis.fixturesCount].
  pose proof (upcoming_scores_range this s _ _ _ D U) as R.
  destruct (total_range fs R 0) as (q & T & B).
  change (JS.of_Z 0) with (JS.Fin 0). rewrite T.
  set (len := Z.of_nat (List.length fs)) in *.
  assert (Bq : (0 <= q <= inject_Z (10 * len))%Q).
  { rewrite inject_Z_mult. change (inject_Z 10) with 10%Q. lra. }
  destruct (toFixed2_range q _ Bq) as (total & -> & Bt).
  exists total.
  destruct (0 <? len) eqn:P.
  - apply Z.ltb_lt in P. unfold JS.div, JS.of_Z.
    rewrite of_Z_nonzero by lia.
    assert (Ba : (0 <= Qred (q / inject_Z len) <= inject_Z 10)%Q).
    { rewrite Qred_correct. change (inject_Z 10) with 10%Q.
      assert (Lp : (0 < inject_Z len)%Q)
        by (change 0%Q with (inject_Z 0); now rewrite <- Zlt_Qlt).
      destruct Bq as [B1 B2]. rewrite inject_Z_mult in B2.
      change (inject_Z 10) with 10%Q in B2.
      split.
      - apply Qle_shift_div_l; [assumption | lra].
      - apply Qle_shift_div_r; [assumption | lra]. }
    destruct (toFixed2_range _ _ Ba) as (avg & -> & Bv).
    exists avg. repeat split; lia.
  - exists 0. repeat split; lia.
Qed.

(** Property X14.  With defense results calculated from a table, every
    record of the ranked lists prints a total between 0.00 and 10.00
    times its number of fixtures, and an average between 0.00 and 10.00;
    neither is "NaN". *)
Theorem recommendation_totals_bounded (this : PlayerFixtureAnalyzer.t)
    (s : TeamDefenseAnalyzer.Stats) (N : nat)
    (out : PlayerFixtureAnalyzer.Positions) :
  PlayerFixtureAnalyzer.defenseResults this = TeamDefenseAnalyzer.calculateResults s ->
  PlayerFixtureAnalyzer.analyzeTimeHorizon this N = JS.Ok out ->
  Forall
    (fun r =>
       exists total avg,
         Analysis.totalVulnerabilityScore r = JS.Decimal 2 total
         /\ Analysis.avgVulnerabilityScore r = JS.Decimal 2 avg
         /\ 0 <= total <= 1000 * Analysis.fixturesCount r
         /\ 0 <= avg <= 1000)
    (ranked_players out).
Proof.
  intros D E. apply Forall_forall. intros r I.
  destruct (ranked_players_In this N out r E I) as (p & _ & _ & A & _).
  exact (analysisOf_totals this s N p r D A).
Qed.

Lemma recommendation_totals_bounded_witness :
  Forall
    (fun r =>
       exists total avg,
         Analysis.totalVulnerabilityScore r = JS.Decimal 2 total
         /\ Analysis.avgVulnerabilityScore r = JS.Decimal 2 avg
         /\ 0 <= total <= 1000 * Analysis.fixturesCount r
         /\ 0 <= avg <= 1000)
    (ranked_players season_out).
Proof.
  apply (recommendation_totals_bounded season
           (TeamDefenseAnalyzer.aggregate
              [teamX; team3; teamY] [player_of 1 4; player_of 2 4] (two_records 7 9))
           3).
  - reflexivity.
  - reflexivity.
Defined.

Lemma position_list_In (this : PlayerFixtureAnalyzer.t) (N : nat)
    (out : PlayerFixtureAnalyzer.Positions) (analysed : list Analysis.t)
    (k : Z) (r : Analysis.t) :
  PlayerFixtureAnalyzer.analyzeTimeHorizon this N = JS.Ok out ->
  PlayerFixtureAnalyzer.playerAnalysis this N = JS.Ok analysed ->
  In r (position_list out k)
  <-> valid_position k /\ In r analysed /\ Analysis.positionId r = k.
Proof.
  intros E A.
  destruct (position_cases k) as [-> | [-> | [-> | [-> | [NV _]]]]].
  1-4: rewrite (position_list_sort this N out analysed _ E A)
         by (unfold valid_position; lia);
       rewrite sort_In, filter_In, Z.eqb_eq; unfold valid_position;
       intuition lia.
  assert (L : position_list out k = []).
  { unfold position_list. rewrite position_match.
    unfold valid_position in NV.
    destruct (Z.eqb_spec k 1); [lia |]. destruct (Z.eqb_spec k 2); [lia |].
    destruct (Z.eqb_spec k 3); [lia |]. destruct (Z.eqb_spec k 4); [lia |].
    reflexivity. }
  rewrite L. simpl. tauto.
Qed.

Lemma ranked_players_lists (out : PlayerFixtureAnalyzer.Positions) (r : Analysis.t) :
  In r (ranked_players out) <-> exists k, In r (position_list out k).
Proof.
  unfold ranked_players. rewrite !in_app_iff. split.
  - intros [I | [I | [I | I]]];
      [exists 1 | exists 2 | exists 3 | exists 4]; exact I.
  - intros (k & I). unfold position_list in I. rewrite position_match in I.
    destruct (k =? 1); [tauto |]. destruct (k =? 2); [tauto |].
    destruct (k =? 3); [tauto |]. destruct (k =? 4); [tauto |].
    destruct I.
Qed.

(** Property X15.  Every record of the ranked lists has a position
    among 1..4 and stands in the list of this position and in no
    other. *)
Theorem position_lists_partition (this : PlayerFixtureAnalyzer.t) (N : nat)
    (out : PlayerFixtureAnalyzer.Positions) (r : Analysis.t) :
  PlayerFixtureAnalyzer.analyzeTimeHorizon this N = JS.Ok out ->
  In r (ranked_players out) ->
  valid_position (Analysis.positionId r)
  /\ In r (position_list out (Analysis.positionId r))
  /\ forall k, In r (position_list out k) -> k = Analysis.positionId r.
Proof.
  intros E I.
  destruct (analyzeTimeHorizon_lists this N out E) as (analysed & A & _).
  apply ranked_players_lists in I. destruct I as (k & I).
  pose proof I as I'. apply (position_list_In this N out analysed k r E A) in I'.
  destruct I' as (V & Ia & <-).
  split; [assumption | split; [assumption |]].
  intros k' I'. apply (position_list_In this N out analysed k' r E A) in I'.
  symmetry. apply I'.
Qed.

Lemma position_lists_partition_witness :
  valid_position (Analysis.positionId (nth 0 season_analysed low_total))
  /\ In (nth 0 season_analysed low_total)
        (position_list season_out
           (Analysis.positionId (nth 0 season_analysed low_total)))
  /\ forall k, In (nth 0 season_analysed low_total) (position_list season_out k) ->
               k = Analysis.positionId (nth 0 season_analysed low_total).
Proof.
  apply (position_lists_partition season 3 season_out
           (nth 0 season_analysed low_total)).
  - reflexivity.
  - left. reflexivity.
Defined.



Lemma NoDup_map_filter {A B : Type} (f : A -> B) (g : A -> bool) (l : list A) :
  NoDup (List.map f l) -> NoDup (List.map f (List.filter g l)).
Proof.
  induction l as [| x l IH]; simpl; intros N; [constructor |].
  inversion N as [| ? ? Nx Nl]; subst.
  destruct (g x); [| now apply IH].
  simpl. constructor; [| now apply IH].
  intros I. apply Nx. apply in_map_iff in I. destruct I as (y & E & I).
  apply filter_In in I. apply in_map_iff. exists y. tauto.
Qed.

Lemma analysed_ids (this : PlayerFixtureAnalyzer.t) (N : nat)
    (players : list Player.t) (mapped : list Analysis.t) :
  Forall2 (fun p r => PlayerFixtureAnalyzer.analysisOf this N p = JS.Ok r)
          players mapped ->
  List.map Analysis.id mapped = List.map Player.id players.
Proof.
  induction 1 as [| p r ps rs R F IH]; simpl; [reflexivity |].
  destruct (analysisOf_fields this N p r R) as (-> & _). now rewrite IH.
Qed.

Lemma playerAnalysis_NoDup (this : PlayerFixtureAnalyzer.t) (N : nat)
    (analysed : list Analysis.t) :
  NoDup (List.map Player.id (PlayerFixtureAnalyzer.allPlayersData this)) ->
  PlayerFixtureAnalyzer.playerAnalysis this N = JS.Ok analysed ->
  NoDup (List.map Analysis.id analysed).
Proof.
  intros U A. unfold PlayerFixtureAnalyzer.playerAnalysis in A.
  destruct (JS.mapM _ _) as [mapped |] eqn:MM; simpl JS.bind in A;
    [| discriminate].
  injection A as <-. apply NoDup_map_filter.
  rewrite (analysed_ids this N _ _ (mapM_Forall2 _ _ _ MM)).
  now apply NoDup_map_filter.
Qed.

(** Property X17.  When the player ids of the bootstrap data are
    unique, no player has two records in the ranked lists of a
    horizon. *)
Theorem recommendations_list_a_player_once (this : PlayerFixtureAnalyzer.t)
    (N : nat) (out : PlayerFixtureAnalyzer.Positions) :
  NoDup (List.map Player.id (PlayerFixtureAnalyzer.allPlayersData this)) ->
  PlayerFixtureAnalyzer.analyzeTimeHorizon this N = JS.Ok out ->
  NoDup (List.map Analysis.id (ranked_players out)).
Proof.
  intros U E.
  destruct (analyzeTimeHorizon_lists this N out E)
    as (analysed & A & G & D & M & F).
  pose proof (playerAnalysis_NoDup this N analysed U A) as ND.
  assert (S : forall k,
            NoDup (List.map Analysis.id
                     (JS.sort PlayerFixtureAnalyzer.compareAnalysis
                        (List.filter (fun p => Analysis.positionId p =? k) analysed)))).
  { intros k.
    apply (Permutation_NoDup (Permutation_map _ (sort_perm _ _))).
    now apply NoDup_map_filter. }
  assert (X : forall k k' i,
            k <> k' ->
            In i (List.map Analysis.id
                    (JS.sort PlayerFixtureAnalyzer.compareAnalysis
                       (List.filter (fun p => Analysis.positionId p =? k) analysed))) ->
            ~ In i (List.map Analysis.id
                      (JS.sort PlayerFixtureAnalyzer.compareAnalysis
                         (List.filter (fun p => Analysis.positionId p =? k') analysed)))).
  { intros k k' i NE I I'.
    apply in_map_iff in I, I'.
    destruct I as (r & <- & I), I' as (r' & Ei & I').
    apply sort_In, filter_In in I. apply sort_In, filter_In in I'.
    destruct I as [I P], I' as [I' P'].
    assert (r' = r) by (apply (NoDup_map_eq Analysis.id analysed); assumption).
    subst r'. apply Z.eqb_eq in P, P'. congruence. }
  unfold ranked_players. rewrite G, D, M, F, !map_app.
  apply NoDup_app; [apply S | |].
  - apply NoDup_app; [apply S | |].
    + apply NoDup_app; [apply S | apply S |].
      intros i. apply X. lia.
    + intros i I. rewrite in_app_iff. intros [I' | I'];
        revert I'; apply (fun k => X 2 k i); (lia || assumption).
  - intros i I. rewrite !in_app_iff. intros [I' | [I' | I']];
      revert I'; apply (fun k => X 1 k i); (lia || assumption).
Qed.

Lemma recommendations_list_a_player_once_witness :
  NoDup (List.map Analysis.id (ranked_players season_out)).
Proof.
  apply (recommendations_list_a_player_once season 3 season_out).
  - repeat constructor; simpl; intuition discriminate.
  - reflexivity.
Defined.

Lemma filter_none {A : Type} (f : A -> bool) (l : list A) :
  (forall x, In x l -> f x = false) -> List.filter f l = [].
Proof.
  induction l as [| x l IH]; intros H; simpl; [reflexivity |].
  rewrite (H x) by now left. apply IH. intros y I. apply H. now right.
Qed.

Lemma playerAnalysis_no_fixtures (this : PlayerFixtureAnalyzer.t) (N : nat) :
  (forall p, In p (PlayerFixtureAnalyzer.allPlayersData this) ->
     PlayerFixtureAnalyzer.getPlayerUpcomingFixtures this (Player.id p) N
     = JS.Ok []) ->
  PlayerFixtureAnalyzer.playerAnalysis this N = JS.Ok [].
Proof.
  intros H. unfold PlayerFixtureAnalyzer.playerAnalysis.
  destruct (mapM_total (PlayerFixtureAnalyzer.analysisOf this N)
              (List.filter PlayerFixtureAnalyzer.eligible
                 (PlayerFixtureAnalyzer.allPlayersData this))) as (mapped & M).
  { intros p I. apply filter_In in I. destruct I as [I _].
    unfold PlayerFixtureAnalyzer.analysisOf. rewrite (H p I).
    simpl. eexists. reflexivity. }
  rewrite M. simpl JS.bind. f_equal. apply filter_none.
  intros r I.
  destruct (Forall2_In_r _ _ _ _ (mapM_Forall2 _ _ _ M) I) as (p & Ip & R).
  apply filter_In in Ip. destruct Ip as [Ip _].
  destruct (analysisOf_fields this N p r R) as (_ & _ & F & C).
  rewrite (H p Ip) in F. injection F as F. rewrite C, <- F. reflexivity.
Qed.

(** Property X18.  With an empty feed the current gameweek is
    -Infinity (the least of 38 and the maximum of no gameweek plus 1),
    and every horizon gives four empty lists. *)
Theorem empty_feed (this : PlayerFixtureAnalyzer.t) :
  PlayerFixtureAnalyzer.fixtures this = [] ->
  PlayerFixtureAnalyzer.getCurrentGameweek this = Some JS.NegInf
  /\ (forall N, PlayerFixtureAnalyzer.analyzeTimeHorizon this N = JS.Ok no_positions).
Proof.
  intros E. split.
  - unfold PlayerFixtureAnalyzer.getCurrentGameweek. rewrite E. reflexivity.
  - intros N. unfold PlayerFixtureAnalyzer.analyzeTimeHorizon.
    rewrite playerAnalysis_no_fixtures; [reflexivity |].
    intros p _. apply getPlayerUpcomingFixtures_empty. now right; right.
Qed.

Lemma empty_feed_witness :
  PlayerFixtureAnalyzer.getCurrentGameweek twins = Some JS.NegInf
  /\ (forall N, PlayerFixtureAnalyzer.analyzeTimeHorizon twins N = JS.Ok no_positions).
Proof.
  apply (empty_feed twins).
  reflexivity.
Defined.

Lemma fold_TypeError (this : PlayerFixtureAnalyzer.t) (timeHorizons : list nat) :
  fold_left
    (fun acc weeks =>
       recommendations <- acc ;;
       positions <- PlayerFixtureAnalyzer.analyzeTimeHorizon this weeks ;;
       JS.Ok (JS.obj_set (Z.of_nat weeks) positions recommendations))
    timeHorizons JS.TypeError
  = JS.TypeError.
Proof.
  induction timeHorizons as [| w l IH]; simpl; [reflexivity | exact IH].
Qed.

Lemma getPlayerRecommendations_from (this : PlayerFixtureAnalyzer.t)
    (timeHorizons : list nat) :
  forall acc recommendations,
    fold_left
      (fun acc weeks =>
         recommendations <- acc ;;
         positions <- PlayerFixtureAnalyzer.analyzeTimeHorizon this weeks ;;
         JS.Ok (JS.obj_set (Z.of_nat weeks) positions recommendations))
      timeHorizons (JS.Ok acc)
    = JS.Ok recommendations ->
    obj_sorted acc ->
    obj_sorted recommendations
    /\ forall weeks : nat,
         (In weeks timeHorizons ->
          exists positions,
            PlayerFixtureAnalyzer.analyzeTimeHorizon this weeks = JS.Ok positions
            /\ JS.obj_get (Z.of_nat weeks) recommendations = Some positions)
         /\ (~ In weeks timeHorizons ->
             JS.obj_get (Z.of_nat weeks) recommendations
             = JS.obj_get (Z.of_nat weeks) acc).
Proof.
  induction timeHorizons as [| w l IH]; intros acc recs E S.
  - simpl in E. injection E as <-. split; [assumption |].
    intros weeks. split; [intros [] | reflexivity].
  - cbn [fold_left] in E. cbn [JS.bind] in E.
    destruct (PlayerFixtureAnalyzer.analyzeTimeHorizon this w) as [out |] eqn:A;
      cbn [JS.bind] in E; [| rewrite fold_TypeError in E; discriminate].
    destruct (IH _ _ E (obj_set_sorted _ _ _ S)) as (S' & L).
    split; [assumption |]. intros weeks. destruct (L weeks) as [L1 L2].
    split.
    + intros [<- | I]; [| now apply L1].
      destruct (in_dec Nat.eq_dec w l) as [I | NI]; [now apply L1 |].
      exists out. split; [assumption |].
      rewrite (L2 NI). apply obj_get_set_same.
    + intros NI. rewrite L2 by (intros I; apply NI; now right).
      apply obj_get_set_other. intros Q. apply NI. left. lia.
Qed.

Lemma getPlayerRecommendations_total (this : PlayerFixtureAnalyzer.t)
    (timeHorizons : list nat) :
  (forall weeks, In weeks timeHorizons ->
     exists positions,
       PlayerFixtureAnalyzer.analyzeTimeHorizon this weeks = JS.Ok positions) ->
  forall acc, exists recommendations,
    fold_left
      (fun acc weeks =>
         recommendations <- acc ;;
         positions <- PlayerFixtureAnalyzer.analyzeTimeHorizon this weeks ;;
         JS.Ok (JS.obj_set (Z.of_nat weeks) positions recommendations))
      timeHorizons (JS.Ok acc)
    = JS.Ok recommendations.
Proof.
  induction timeHorizons as [| w l IH]; intros H acc.
  - exists acc. reflexivity.
  - cbn [fold_left JS.bind].
    destruct (H w) as (out & ->); [now left |]. cbn [JS.bind].
    apply IH. intros weeks I. apply H. now right.
Qed.

(** Property X19.  The object [getPlayerRecommendations] returns holds
    under each requested horizon the lists [analyzeTimeHorizon] gives for
    it; it has no other key, and its keys ascend whatever the order of
    the request.  It is returned whenever the positions of the players
    are among 1..4. *)
Theorem recommendations_by_horizon (this : PlayerFixtureAnalyzer.t)
    (timeHorizons : list nat) :
  (forall recommendations,
     PlayerFixtureAnalyzer.getPlayerRecommendations this timeHorizons
     = JS.Ok recommendations ->
     obj_sorted recommendations
     /\ forall weeks : nat,
          (In weeks timeHorizons ->
           exists positions,
             PlayerFixtureAnalyzer.analyzeTimeHorizon this weeks = JS.Ok positions
             /\ JS.obj_get (Z.of_nat weeks) recommendations = Some positions)
          /\ (~ In weeks timeHorizons ->
              JS.obj_get (Z.of_nat weeks) recommendations = None))
  /\ ((forall p, In p (PlayerFixtureAnalyzer.allPlayersData this) ->
                 valid_position (Player.element_type p)) ->
      exists recommendations,
        PlayerFixtureAnalyzer.getPlayerRecommendations this timeHorizons
        = JS.Ok recommendations).
Proof.
  split.
  - intros recs E.
    apply (getPlayerRecommendations_from this timeHorizons [] recs E).
    constructor.
  - intros V. apply getPlayerRecommendations_total.
    intros weeks _. now apply analyzeTimeHorizon_total.
Qed.

Lemma recommendations_by_horizon_witness :
  exists recommendations,
    PlayerFixtureAnalyzer.getPlayerRecommendations
      season PlayerFixtureAnalyzer.defaultHorizons
    = JS.Ok recommendations.
Proof.
  apply (recommendations_by_horizon season PlayerFixtureAnalyzer.defaultHorizons).
  intros p [<- | [<- | []]]; unfold valid_position; simpl; lia.
Defined.

(** ** Horizons compared *)

Lemma filter_length_le {A : Type} (f g : A -> bool) (l : list A) :
  (forall x, In x l -> f x = true -> g x = true) ->
  (List.length (List.filter f l) <= List.length (List.filter g l))%nat.
Proof.
  induction l as [| x l IH]; intros H; simpl; [lia |].
  assert (IH' := IH (fun y I => H y (or_intror I))).
  destruct (f x) eqn:F.
  - rewrite (H x (or_introl eq_refl) F). simpl. lia.
  - destruct (g x); simpl; lia.
Qed.

Lemma Forall2_length_eq {A B : Type} (R : A -> B -> Prop) (l : list A)
    (l' : list B) :
  Forall2 R l l' -> List.length l = List.length l'.
Proof.
  induction 1; simpl; congruence.
Qed.

Lemma upcoming_length_le (this : PlayerFixtureAnalyzer.t) (playerId : Z)
    (N M : nat) (shorter longer : list Upcoming.t) :
  (N <= M)%nat ->
  PlayerFixtureAnalyzer.getPlayerUpcomingFixtures this playerId N = JS.Ok shorter ->
  PlayerFixtureAnalyzer.getPlayerUpcomingFixtures this playerId M = JS.Ok longer ->
  (List.length shorter <= List.length longer)%nat.
Proof.
  intros L EN EM.
  apply getPlayerUpcomingFixtures_inv in EN, EM.
  destruct EN as [[_ ->] | (player & mappedN & F & MN & ->)]; [simpl; lia |].
  destruct EM as [[F' _] | (player' & mappedM & F' & MM & ->)]; [congruence |].
  assert (player' = player) by congruence. subst player'.
  rewrite <- !(Permutation_length (sort_perm _ _)).
  rewrite <- (Forall2_length_eq _ _ _ (mapM_Forall2 _ _ _ MN)).
  rewrite <- (Forall2_length_eq _ _ _ (mapM_Forall2 _ _ _ MM)).
  unfold qualifying. apply filter_length_le. intros f I Q.
  apply qualifies_spec in Q. apply qualifies_spec.
  destruct Q as (Q1 & Q2 & Q3). split; [| split; assumption].
  apply includes_in_horizon. apply includes_in_horizon in Q1.
  now apply (in_horizon_le _ N M).
Qed.

(** Property X20.  A longer horizon loses no player: a player with a
    record in a ranked list for N gameweeks has a record in the list of
    the same position for M >= N gameweeks, with at least as many
    fixtures. *)
Theorem longer_horizon_keeps_players (this : PlayerFixtureAnalyzer.t)
    (N M : nat) (shorter longer : PlayerFixtureAnalyzer.Positions)
    (r : Analysis.t) :
  (N <= M)%nat ->
  PlayerFixtureAnalyzer.analyzeTimeHorizon this N = JS.Ok shorter ->
  PlayerFixtureAnalyzer.analyzeTimeHorizon this M = JS.Ok longer ->
  In r (position_list shorter (Analysis.positionId r)) ->
  exists r',
    In r' (position_list longer (Analysis.positionId r))
    /\ Analysis.id r' = Analysis.id r
    /\ Analysis.fixturesCount r <= Analysis.fixturesCount r'.
Proof.
  intros L EN EM I.
  destruct (analyzeTimeHorizon_lists this N shorter EN) as (analysedN & AN & _).
  destruct (analyzeTimeHorizon_lists this M longer EM) as (analysedM & AM & _).
  apply (position_list_In this N shorter analysedN _ r EN AN) in I.
  destruct I as (V & I & _).
  pose proof AN as AN'. unfold PlayerFixtureAnalyzer.playerAnalysis in AN'.
  destruct (JS.mapM (PlayerFixtureAnalyzer.analysisOf this N) _)
    as [mappedN |] eqn:MN; simpl JS.bind in AN';
    [| discriminate].
  injection AN' as <-. apply filter_In in I. destruct I as [I C].
  apply Z.ltb_lt in C.
  destruct (Forall2_In_r _ _ _ _ (mapM_Forall2 _ _ _ MN) I) as (p & Ip & Rp).
  cbv beta in Rp.
  pose proof AM as AM'. unfold PlayerFixtureAnalyzer.playerAnalysis in AM'.
  destruct (JS.mapM (PlayerFixtureAnalyzer.analysisOf this M) _)
    as [mappedM |] eqn:MM; simpl JS.bind in AM';
    [| discriminate].
  injection AM' as AM'.
  destruct (Forall2_In_l _ _ _ _ (mapM_Forall2 _ _ _ MM) Ip) as (r' & Ir' & Rp').
  cbv beta in Rp'.
  destruct (analysisOf_fields this N p r Rp) as (Fi & Fp & Ff & Fc).
  destruct (analysisOf_fields this M p r' Rp') as (Fi' & Fp' & Ff' & Fc').
  pose proof (upcoming_length_le this (Player.id p) N M _ _ L Ff Ff') as Le.
  assert (Cc : Analysis.fixturesCount r <= Analysis.fixturesCount r') by lia.
  exists r'. split; [| split; [congruence | assumption]].
  apply (position_list_In this M longer analysedM _ r' EM AM).
  split; [assumption | split; [| congruence]].
  rewrite <- AM'. apply filter_In. split; [assumption |].
  apply Z.ltb_lt. lia.
Qed.

Lemma longer_horizon_keeps_players_witness :
  exists r',
    In r' (position_list season_out 4)
    /\ Analysis.id r' = 1
    /\ 1 <= Analysis.fixturesCount r'.
Proof.
  refine (longer_horizon_keeps_players season 1 3
            (value_or (PlayerFixtureAnalyzer.analyzeTimeHorizon season 1) no_positions)
            season_out
            (nth 0 (PlayerFixtureAnalyzer.Forward
                      (value_or (PlayerFixtureAnalyzer.analyzeTimeHorizon season 1)
                                no_positions))
                 low_total)
            _ eq_refl eq_refl _).
  - lia.
  - left. reflexivity.
Defined.

(** ** The views over the player snapshot *)

Section SortExt.
Context {A : Type} (cmp cmp' : A -> A -> JS.number).

Lemma insert_ext (x : A) (l : list A) :
  (forall y, In y l -> JS.sgn (cmp x y) = JS.sgn (cmp' x y)) ->
  JS.insert cmp x l = JS.insert cmp' x l.
Proof.
  induction l as [| y l IH]; intros H; simpl; [reflexivity |].
  rewrite (H y) by now left.
  destruct (JS.sgn (cmp' x y)); try reflexivity.
  f_equal. apply IH. intros z I. apply H. now right.
Qed.

(** Two comparators that agree on the elements of the array sort it
    the same way. *)
Lemma sort_ext (l : list A) :
  (forall x y, In x l -> In y l -> JS.sgn (cmp x y) = JS.sgn (cmp' x y)) ->
  JS.sort cmp l = JS.sort cmp' l.
Proof.
  induction l as [| x l IH]; intros H; [reflexivity |].
  cbn [JS.sort fold_right]. fold (JS.sort cmp l). fold (JS.sort cmp' l).
  rewrite IH by (intros a b Ia Ib; apply H; now right).
  apply insert_ext. intros y I. rewrite (sort_In cmp') in I.
  apply H; [now left | now right].
Qed.
End SortExt.

(** ** Sorting by a rational key, descending *)

Section QKeySort.
Context {A : Type} (key : A -> Q) (cmp : A -> A -> JS.number).
Hypothesis cmp_key : forall a b, JS.sgn (cmp a b) = (key b ?= key a)%Q.

Lemma keeps_qkey (a b : A) : keeps cmp a b <-> (key b <= key a)%Q.
Proof.
  unfold keeps. rewrite cmp_key. unfold Qle, Qcompare, Z.le. reflexivity.
Qed.

Lemma sort_by_qkey (l : list A) :
  StronglySorted (fun a b => (key b <= key a)%Q) (JS.sort cmp l).
Proof.
  assert (S : StronglySorted (keeps cmp) (JS.sort cmp l)).
  { apply sort_sorted.
    - intros x y G. rewrite cmp_key in G. apply keeps_qkey.
      apply (proj2 (Qgt_alt _ _)) in G. lra.
    - intros x y z. rewrite !keeps_qkey. lra. }
  induction S as [| a m S IH F]; constructor; [assumption |].
  eapply Forall_impl; [| exact F]. intros b. apply keeps_qkey.
Qed.
End QKeySort.

(** ** Prefixes of sorted arrays *)

Lemma slice0_firstn {A : Type} (limit : Z) (l : list A) :
  exists n, JS.slice0 limit l = firstn n l
            /\ (0 <= limit -> Z.of_nat n = Z.min limit (Z.of_nat (List.length l))).
Proof.
  unfold JS.slice0. cbv zeta. eexists. split; [reflexivity |].
  intros L. destruct (Z.ltb_spec limit 0); lia.
Qed.

Lemma slice0_split {A : Type} (limit : Z) (l : list A) :
  exists rest,
    l = JS.slice0 limit l ++ rest
    /\ (0 <= limit ->
        Z.of_nat (List.length (JS.slice0 limit l))
        = Z.min limit (Z.of_nat (List.length l))).
Proof.
  destruct (slice0_firstn limit l) as (n & -> & L).
  exists (skipn n l). split; [symmetry; apply firstn_skipn |].
  intros P. rewrite length_firstn. specialize (L P). lia.
Qed.

Lemma StronglySorted_app {A : Type} (R : A -> A -> Prop) (l l' : list A) :
  StronglySorted R (l ++ l') ->
  StronglySorted R l /\ StronglySorted R l'
  /\ forall a b, In a l -> In b l' -> R a b.
Proof.
  induction l as [| x l IH]; simpl; intros S.
  - split; [constructor | split; [assumption | intros ? ? []]].
  - inversion S as [| ? ? S' F]; subst.
    destruct (IH S') as (S1 & S2 & C).
    rewrite Forall_forall in F.
    split; [| split; [assumption |]].
    + constructor; [assumption |]. apply Forall_forall. intros y I.
      apply F, in_or_app. now left.
    + intros a b [<- | Ia] Ib; [apply F, in_or_app; now right | now apply C].
Qed.

Lemma StronglySorted_map {A B : Type} (R : B -> B -> Prop) (f : A -> B)
    (l : list A) :
  StronglySorted (fun a b => R (f a) (f b)) l -> StronglySorted R (List.map f l).
Proof.
  induction 1 as [| a l S IH F]; simpl; constructor; [assumption |].
  apply Forall_forall. intros y I. apply in_map_iff in I.
  destruct I as (x & <- & I). rewrite Forall_forall in F. now apply F.
Qed.

Lemma byTotalPoints_key (a b : Player.t) :
  JS.sgn (FPLAnalyzer.byTotalPoints a b)
  = (- Player.total_points a ?= - Player.total_points b).
Proof.
  unfold FPLAnalyzer.byTotalPoints. rewrite sgn_sub_of_Z. symmetry.
  apply Z.compare_opp.
Qed.

Lemma sort_byTotalPoints (l : list Player.t) :
  StronglySorted (fun a b => Player.total_points b <= Player.total_points a)
                 (JS.sort FPLAnalyzer.byTotalPoints l).
Proof.
  eapply StronglySorted_impl;
    [| apply (sort_by_key (fun a => - Player.total_points a)), byTotalPoints_key].
  intros a b. simpl. lia.
Qed.


Lemma price_gt_4 (player : Player.t) :
  JS.gtb (FPLAnalyzer.price player) (JS.of_Z 4) = (40 <? Player.now_cost player).
Proof.
  unfold FPLAnalyzer.price, JS.div, JS.of_Z, JS.gtb.
  rewrite of_Z_nonzero by lia. unfold JS.ltb.
  rewrite Qle_bool_Qred_l.
  set (c := Player.now_cost player).
  assert (E : (inject_Z c / inject_Z 10 == inject_Z c * (1 # 10))%Q) by field.
  destruct (Z.ltb_spec 40 c) as [L | L].
  - apply negb_true_iff, not_true_iff_false. rewrite Qle_bool_iff, E.
    rewrite Zlt_Qlt in L. change (inject_Z 40) with 40%Q in L.
    change (inject_Z 4) with 4%Q. lra.
  - apply negb_false_iff. rewrite Qle_bool_iff, E.
    rewrite Zle_Qle in L. change (inject_Z 40) with 40%Q in L.
    change (inject_Z 4) with 4%Q. lra.
Qed.

Lemma pointsPerMillion_value (player : Player.t) :
  0 < Player.now_cost player ->
  FPLAnalyzer.ValuePlayer.pointsPerMillion (FPLAnalyzer.valuePlayer player)
  = JS.Decimal 2
      (JS.round_half_away
         (inject_Z (1000 * Player.total_points player)
          / inject_Z (Player.now_cost player))).
Proof.
  intros C. unfold FPLAnalyzer.valuePlayer.
  cbn [FPLAnalyzer.ValuePlayer.pointsPerMillion].
  unfold FPLAnalyzer.price. unfold JS.div at 2. unfold JS.of_Z at 2 3.
  rewrite of_Z_nonzero by lia.
  set (c := Player.now_cost player) in *.
  set (t := Player.total_points player).
  assert (Pc : (0 < inject_Z c)%Q)
    by (change 0%Q with (inject_Z 0); now rewrite <- Zlt_Qlt).
  assert (NZ : Qeq_bool (Qred (inject_Z c / inject_Z 10)) 0 = false).
  { apply not_true_iff_false. rewrite Qeq_bool_iff, Qred_correct.
    intros E. assert (E' : (inject_Z c / inject_Z 10 == inject_Z c * (1 # 10))%Q) by field.
    rewrite E' in E. lra. }
  unfold JS.div, JS.of_Z. rewrite NZ. unfold JS.toFixed. f_equal.
  apply round_half_away_comp.
  change (inject_Z (JS.pow10 2)) with 100%Q.
  rewrite !Qred_correct, inject_Z_mult. change (inject_Z 1000) with 1000%Q.
  change (inject_Z 10) with 10%Q. field. lra.
Qed.

Lemma round_half_away_nonneg (q : Q) : (0 <= q)%Q -> 0 <= JS.round_half_away q.
Proof.
  intros P. rewrite <- (round_half_away_Z 0) at 1. now apply round_half_away_mono.
Qed.

Lemma byPointsPerMillion_key (a b : FPLAnalyzer.ValuePlayer.t) (na nb : Z) :
  FPLAnalyzer.ValuePlayer.pointsPerMillion a = JS.Decimal 2 na ->
  FPLAnalyzer.ValuePlayer.pointsPerMillion b = JS.Decimal 2 nb ->
  JS.sgn (FPLAnalyzer.byPointsPerMillion a b) = (- na ?= - nb).
Proof.
  intros Ea Eb. unfold FPLAnalyzer.byPointsPerMillion. rewrite Ea, Eb.
  unfold JS.parseFloat. rewrite sgn_sub_Fin, !Qred_correct.
  change (inject_Z (JS.pow10 2)) with 100%Q.
  rewrite Z.compare_opp.
  destruct (Z.compare_spec nb na) as [E | L | L].
  - subst. apply (proj1 (Qeq_alt _ _)). reflexivity.
  - apply (proj1 (Qlt_alt _ _)). rewrite Zlt_Qlt in L.
    assert (E : forall n, (inject_Z n / 100 == inject_Z n * (1 # 100))%Q)
      by (intros; field).
    rewrite !E. lra.
  - apply (proj1 (Qgt_alt _ _)). rewrite Zlt_Qlt in L.
    assert (E : forall n, (inject_Z n / 100 == inject_Z n * (1 # 100))%Q)
      by (intros; field).
    rewrite !E. lra.
Qed.

Lemma valuePlayers_In (allPlayersData : list Player.t)
    (v : FPLAnalyzer.ValuePlayer.t) :
  In v (List.filter
          (fun player => JS.gtb (FPLAnalyzer.ValuePlayer.cost player) (JS.of_Z 4))
          (List.map FPLAnalyzer.valuePlayer
             (List.filter FPLAnalyzer.playsRegularly allPlayersData)))
  <-> exists player,
        In player allPlayersData
        /\ v = FPLAnalyzer.valuePlayer player
        /\ FPLAnalyzer.isRegularStarter player = true
        /\ 20 < Player.total_points player
        /\ 40 < Player.now_cost player.
Proof.
  rewrite filter_In, in_map_iff. split.
  - intros ((p & <- & I) & C). apply filter_In in I. destruct I as [I R].
    unfold FPLAnalyzer.playsRegularly in R. apply andb_true_iff in R.
    destruct R as [R T]. apply Z.ltb_lt in T.
    cbn [FPLAnalyzer.valuePlayer FPLAnalyzer.ValuePlayer.cost] in C.
    rewrite price_gt_4 in C. apply Z.ltb_lt in C.
    exists p. auto.
  - intros (p & I & -> & R & T & C). split.
    + exists p. split; [reflexivity |]. apply filter_In. split; [assumption |].
      unfold FPLAnalyzer.playsRegularly. apply andb_true_iff.
      split; [assumption | now apply Z.ltb_lt].
    + cbn [FPLAnalyzer.valuePlayer FPLAnalyzer.ValuePlayer.cost].
      rewrite price_gt_4. now apply Z.ltb_lt.
Qed.

Lemma hundredths_of_quotient (t c : Z) :
  0 < c ->
  (Qabs (inject_Z (JS.round_half_away (inject_Z (1000 * t) / inject_Z c)) / 100
         - inject_Z (10 * t) / inject_Z c)
   <= 1 # 200)%Q.
Proof.
  intros C.
  assert (Pc : (0 < inject_Z c)%Q)
    by (change 0%Q with (inject_Z 0); now rewrite <- Zlt_Qlt).
  pose proof (round_half_away_near (inject_Z (1000 * t) / inject_Z c)) as N.
  set (n := JS.round_half_away _) in *.
  assert (E : (inject_Z (1000 * t) / inject_Z c
               == 100 * (inject_Z (10 * t) / inject_Z c))%Q).
  { rewrite !inject_Z_mult. change (inject_Z 1000) with 1000%Q.
    change (inject_Z 10) with 10%Q. field. lra. }
  rewrite E in N.
  apply Qabs_Qle_condition in N. apply Qabs_Qle_condition.
  assert (E' : (inject_Z n / 100 == inject_Z n * (1 # 100))%Q) by field.
  rewrite E'. split; lra.
Qed.

(** Property X22.  Every entry of [getBestValuePlayers] comes from a
    regular starter with more than 20 points whose cost exceeds 4.0; its
    [pointsPerMillion] is 10 * points / now_cost printed with two
    decimals, never "NaN" or "Infinity" (the cost filter runs after the
    division and removes a zero cost), and it is not negative.  The
    entries are ordered by descending points per million and are at most
    [limit]. *)
Theorem best_value_players (allPlayersData : list Player.t) (limit : Z) :
  let best := FPLAnalyzer.getBestValuePlayers allPlayersData limit in
  (forall v, In v best ->
     exists player,
       In player allPlayersData
       /\ FPLAnalyzer.ValuePlayer.webName v = Player.web_name player
       /\ FPLAnalyzer.ValuePlayer.totalPoints v = Player.total_points player
       /\ FPLAnalyzer.ValuePlayer.minutes v = Player.minutes player
       /\ FPLAnalyzer.isRegularStarter player = true
       /\ 20 < Player.total_points player
       /\ 40 < Player.now_cost player
       /\ two_decimal_average
            (10 * Player.total_points player) (Player.now_cost player)
            (FPLAnalyzer.ValuePlayer.pointsPerMillion v)
       /\ 0 <= decimalOf (FPLAnalyzer.ValuePlayer.pointsPerMillion v))
  /\ StronglySorted
       (fun a b => decimalOf (FPLAnalyzer.ValuePlayer.pointsPerMillion b)
                   <= decimalOf (FPLAnalyzer.ValuePlayer.pointsPerMillion a))
       best
  /\ (0 <= limit -> Z.of_nat (List.length best) <= limit).
Proof.
  cbv zeta. unfold FPLAnalyzer.getBestValuePlayers.
  set (kept := List.filter _ (List.map FPLAnalyzer.valuePlayer _)).
  assert (K : forall v, In v kept ->
            exists player,
              In player allPlayersData
              /\ v = FPLAnalyzer.valuePlayer player
              /\ FPLAnalyzer.isRegularStarter player = true
              /\ 20 < Player.total_points player
              /\ 40 < Player.now_cost player
              /\ FPLAnalyzer.ValuePlayer.pointsPerMillion v
                 = JS.Decimal 2
                     (JS.round_half_away
                        (inject_Z (1000 * Player.total_points player)
                         / inject_Z (Player.now_cost player)))
              /\ 0 <= decimalOf (FPLAnalyzer.ValuePlayer.pointsPerMillion v)).
  { intros v I. apply valuePlayers_In in I.
    destruct I as (p & I & -> & R & T & C). exists p.
    rewrite pointsPerMillion_value by lia.
    repeat (split; [assumption || reflexivity |]).
    cbn [decimalOf]. apply round_half_away_nonneg.
    apply Qle_shift_div_l.
    - change 0%Q with (inject_Z 0). rewrite <- Zlt_Qlt. lia.
    - rewrite Qmult_0_l. change 0%Q with (inject_Z 0). rewrite <- Zle_Qle. lia. }
  assert (S : StronglySorted
                (fun a b => decimalOf (FPLAnalyzer.ValuePlayer.pointsPerMillion b)
                            <= decimalOf (FPLAnalyzer.ValuePlayer.pointsPerMillion a))
                (JS.sort FPLAnalyzer.byPointsPerMillion kept)).
  { rewrite (sort_ext FPLAnalyzer.byPointsPerMillion
               (fun a b =>
                  JS.sub (JS.of_Z (decimalOf (FPLAnalyzer.ValuePlayer.pointsPerMillion b)))
                         (JS.of_Z (decimalOf (FPLAnalyzer.ValuePlayer.pointsPerMillion a))))).
    - eapply StronglySorted_impl;
        [| apply (sort_by_key
                    (fun a => - decimalOf (FPLAnalyzer.ValuePlayer.pointsPerMillion a)))].
      + intros a b. simpl. lia.
      + intros a b. cbv beta. rewrite sgn_sub_of_Z. symmetry. apply Z.compare_opp.
    - intros a b Ia Ib.
      destruct (K a Ia) as (pa & _ & _ & _ & _ & _ & Ea & _).
      destruct (K b Ib) as (pb & _ & _ & _ & _ & _ & Eb & _).
      rewrite (byPointsPerMillion_key a b _ _ Ea Eb), Ea, Eb. cbn [decimalOf].
      rewrite sgn_sub_of_Z. apply Z.compare_opp. }
  destruct (slice0_split limit (JS.sort FPLAnalyzer.byPointsPerMillion kept))
    as (rest & E & L).
  split; [| split].
  - intros v I.
    destruct (K v) as (p & Ip & -> & R & T & C & V & P).
    { apply (sort_In FPLAnalyzer.byPointsPerMillion).
      rewrite E. apply in_or_app. now left. }
    exists p. repeat (split; [assumption || reflexivity |]).
    split; [| assumption].
    rewrite V. eexists. split; [reflexivity |].
    apply hundredths_of_quotient. lia.
  - rewrite E in S. apply StronglySorted_app in S. apply S.
  - intros P. rewrite (L P). lia.
Qed.

Lemma isRegularStarter_minutes (player : Player.t) :
  FPLAnalyzer.isRegularStarter player = true -> 450 <= Player.minutes player.
Proof.
  unfold FPLAnalyzer.isRegularStarter.
  destruct (Z.ltb_spec (Player.minutes player) 450); [discriminate | lia].
Qed.

Lemma playsRegularly_spec (player : Player.t) :
  FPLAnalyzer.playsRegularly player = true
  <-> FPLAnalyzer.isRegularStarter player = true /\ 20 < Player.total_points player.
Proof.
  unfold FPLAnalyzer.playsRegularly. now rewrite andb_true_iff, Z.ltb_lt.
Qed.

Lemma sort_byForm (l : list Player.t) :
  (forall p, In p l -> exists d n, Player.form p = JS.Decimal d n) ->
  StronglySorted
    (fun a b => (finiteOr0 (JS.parseFloat (Player.form b))
                 <= finiteOr0 (JS.parseFloat (Player.form a)))%Q)
    (JS.sort FPLAnalyzer.byForm l).
Proof.
  intros F.
  rewrite (sort_ext FPLAnalyzer.byForm
             (fun a b =>
                JS.sub (JS.Fin (finiteOr0 (JS.parseFloat (Player.form b))))
                       (JS.Fin (finiteOr0 (JS.parseFloat (Player.form a)))))).
  - apply (sort_by_qkey (fun p => finiteOr0 (JS.parseFloat (Player.form p)))).
    intros a b. apply sgn_sub_Fin.
  - intros a b Ia Ib. unfold FPLAnalyzer.byForm.
    destruct (F a Ia) as (da & na & ->). destruct (F b Ib) as (db & nb & ->).
    reflexivity.
Qed.

(** Property X23.  Every entry of [getBestFormPlayers] comes from a
    regular starter with more than 20 points, who so has at least 450
    minutes; when the forms of the players are decimal strings the
    entries are ordered by descending form; and they are at most
    [limit]. *)
Theorem best_form_players (allPlayersData : list Player.t) (limit : Z) :
  let best := FPLAnalyzer.getBestFormPlayers allPlayersData limit in
  (forall f, In f best ->
     exists player,
       In player allPlayersData
       /\ f = FPLAnalyzer.formPlayer player
       /\ FPLAnalyzer.isRegularStarter player = true
       /\ 20 < Player.total_points player
       /\ 450 <= Player.minutes player)
  /\ ((forall p, In p allPlayersData -> exists d n, Player.form p = JS.Decimal d n) ->
      StronglySorted
        (fun a b => (finiteOr0 (FPLAnalyzer.FormPlayer.form b)
                     <= finiteOr0 (FPLAnalyzer.FormPlayer.form a))%Q)
        best)
  /\ (0 <= limit -> Z.of_nat (List.length best) <= limit).
Proof.
  cbv zeta. unfold FPLAnalyzer.getBestFormPlayers.
  set (regular := List.filter FPLAnalyzer.playsRegularly allPlayersData).
  destruct (slice0_split limit (JS.sort FPLAnalyzer.byForm regular))
    as (rest & E & L).
  split; [| split].
  - intros f I. apply in_map_iff in I. destruct I as (p & <- & I).
    assert (I' : In p regular).
    { apply (sort_In FPLAnalyzer.byForm). rewrite E. apply in_or_app. now left. }
    apply filter_In in I'. destruct I' as [I' R].
    apply playsRegularly_spec in R. destruct R as [R T].
    exists p. repeat (split; [assumption || reflexivity |]).
    now apply isRegularStarter_minutes.
  - intros F. apply StronglySorted_map.
    assert (S : StronglySorted
                  (fun a b => (finiteOr0 (JS.parseFloat (Player.form b))
                               <= finiteOr0 (JS.parseFloat (Player.form a)))%Q)
                  (JS.sort FPLAnalyzer.byForm regular)).
    { apply sort_byForm. intros p I. apply filter_In in I. now apply F. }
    rewrite E in S. apply StronglySorted_app in S. apply S.
  - intros P. rewrite length_map, (L P). lia.
Qed.

(** Property X24.  The picks of [getDifferentialPicks] are the
    projections of exactly the players whose ownership is at most
    [maxOwnership], whose points are at least [minPoints] and who are
    regular starters; the ownership of a pick is never NaN; the picks are
    ordered by descending total points. *)
Theorem differential_picks (allPlayersData : list Player.t)
    (maxOwnership minPoints : JS.number) :
  let picks :=
    FPLAnalyzer.getDifferentialPicks allPlayersData maxOwnership minPoints in
  (forall d, In d picks <->
     exists player,
       In player allPlayersData
       /\ d = FPLAnalyzer.differential player
       /\ JS.leb (JS.parseFloat (Player.selected_by_percent player)) maxOwnership
          = true
       /\ FPLAnalyzer.geb (JS.of_Z (Player.total_points player)) minPoints = true
       /\ FPLAnalyzer.isRegularStarter player = true)
  /\ Forall
       (fun d => JS.leb (FPLAnalyzer.Differential.ownership d) maxOwnership = true
                 /\ FPLAnalyzer.Differential.ownership d <> JS.NaN)
       picks
  /\ StronglySorted
       (fun a b => FPLAnalyzer.Differential.totalPoints b
                   <= FPLAnalyzer.Differential.totalPoints a)
       picks.
Proof.
  cbv zeta. unfold FPLAnalyzer.getDifferentialPicks.
  assert (M : forall d,
            In d (List.map FPLAnalyzer.differential
                    (JS.sort FPLAnalyzer.byTotalPoints
                       (List.filter
                          (FPLAnalyzer.isDifferential maxOwnership minPoints)
                          allPlayersData)))
            <-> exists player,
                  In player allPlayersData
                  /\ d = FPLAnalyzer.differential player
                  /\ JS.leb (JS.parseFloat (Player.selected_by_percent player))
                            maxOwnership = true
                  /\ FPLAnalyzer.geb (JS.of_Z (Player.total_points player)) minPoints
                     = true
                  /\ FPLAnalyzer.isRegularStarter player = true).
  { intros d. rewrite in_map_iff. split.
    - intros (p & <- & I). apply sort_In, filter_In in I. destruct I as [I D].
      unfold FPLAnalyzer.isDifferential in D.
      apply andb_true_iff in D. destruct D as [D R].
      apply andb_true_iff in D. destruct D as [O T].
      exists p. auto.
    - intros (p & I & -> & O & T & R). exists p. split; [reflexivity |].
      apply sort_In, filter_In. split; [assumption |].
      unfold FPLAnalyzer.isDifferential. now rewrite O, T, R. }
  split; [exact M | split].
  - apply Forall_forall. intros d I. apply M in I.
    destruct I as (p & _ & -> & O & _). cbn [FPLAnalyzer.differential
                                              FPLAnalyzer.Differential.ownership].
    split; [assumption |]. intros E. rewrite E in O. discriminate.
  - apply StronglySorted_map. cbn [FPLAnalyzer.differential
                                   FPLAnalyzer.Differential.totalPoints].
    apply sort_byTotalPoints.
Qed.

(** Property X25.  [getPlayersByPosition] returns the projections of
    exactly the players of the position; every entry carries the name of
    that position, which is [undefined] exactly when the position is none
    of 1..4; the entries are ordered by descending total points. *)
Theorem players_by_position (allPlayersData : list Player.t) (position : Z) :
  let players := FPLAnalyzer.getPlayersByPosition allPlayersData position in
  (forall v, In v players <->
     exists player,
       In player allPlayersData
       /\ Player.element_type player = position
       /\ v = FPLAnalyzer.positionPlayer player)
  /\ Forall
       (fun v => FPLAnalyzer.PositionPlayer.position v
                 = FPLAnalyzer.positionNames position)
       players
  /\ (FPLAnalyzer.positionNames position = None <-> ~ valid_position position)
  /\ StronglySorted
       (fun a b => FPLAnalyzer.PositionPlayer.totalPoints b
                   <= FPLAnalyzer.PositionPlayer.totalPoints a)
       players.
Proof.
  cbv zeta. unfold FPLAnalyzer.getPlayersByPosition.
  assert (M : forall v,
            In v (List.map FPLAnalyzer.positionPlayer
                    (JS.sort FPLAnalyzer.byTotalPoints
                       (List.filter
                          (fun player => Player.element_type player =? position)
                          allPlayersData)))
            <-> exists player,
                  In player allPlayersData
                  /\ Player.element_type player = position
                  /\ v = FPLAnalyzer.positionPlayer player).
  { intros v. rewrite in_map_iff. split.
    - intros (p & <- & I). apply sort_In, filter_In in I. destruct I as [I E].
      apply Z.eqb_eq in E. now exists p.
    - intros (p & I & E & ->). exists p. split; [reflexivity |].
      apply sort_In, filter_In. split; [assumption | now apply Z.eqb_eq]. }
  split; [exact M | split; [| split]].
  - apply Forall_forall. intros v I. apply M in I.
    destruct I as (p & _ & <- & ->). reflexivity.
  - unfold FPLAnalyzer.positionNames, valid_position. rewrite position_match.
    destruct (Z.eqb_spec position 1); [split; [discriminate | lia] |].
    destruct (Z.eqb_spec position 2); [split; [discriminate | lia] |].
    destruct (Z.eqb_spec position 3); [split; [discriminate | lia] |].
    destruct (Z.eqb_spec position 4); [split; [discriminate | lia] |].
    split; [lia | reflexivity].
  - apply StronglySorted_map. cbn [FPLAnalyzer.positionPlayer
                                   FPLAnalyzer.PositionPlayer.totalPoints].
    apply sort_byTotalPoints.
Qed.

(** Property X26.  The two copies of [getPositionName] agree on every
    position: the name is the entry of the table for a position among
    1..4 and 'Unknown' for any other. *)
Theorem position_names_agree (elementType : Z) :
  FPLAnalyzer.getPositionName elementType
  = PlayerFixtureAnalyzer.getPositionName elementType
  /\ (valid_position elementType ->
      FPLAnalyzer.positionNames elementType
      = Some (FPLAnalyzer.getPositionName elementType))
  /\ (~ valid_position elementType ->
      FPLAnalyzer.getPositionName elementType = "Unknown"%string).
Proof.
  unfold FPLAnalyzer.getPositionName, FPLAnalyzer.positionNames,
    PlayerFixtureAnalyzer.getPositionName, valid_position.
  rewrite !position_match.
  destruct (Z.eqb_spec elementType 1);
    [repeat split; try reflexivity; intros; lia |].
  destruct (Z.eqb_spec elementType 2);
    [repeat split; try reflexivity; intros; lia |].
  destruct (Z.eqb_spec elementType 3);
    [repeat split; try reflexivity; intros; lia |].
  destruct (Z.eqb_spec elementType 4);
    [repeat split; try reflexivity; intros; lia |].
  repeat split; try reflexivity; intros; lia.
Qed.

(** Property X27.  With unique team ids, [getTeamName] returns under
    the id of every team of the bootstrap data the name of that team; for
    an id no team has it returns 'Unknown'. *)
Theorem team_name_lookup (teams : list Team.t) :
  (NoDup (List.map Team.id teams) ->
   forall team, In team teams ->
     FPLAnalyzer.getTeamName teams (Team.id team) = Team.name team)
  /\ (forall teamId, ~ In teamId (List.map Team.id teams) ->
        FPLAnalyzer.getTeamName teams teamId = "Unknown"%string).
Proof.
  unfold FPLAnalyzer.getTeamName. split.
  - intros U t I.
    rewrite (find_unique (fun t0 => Team.id t0 =? Team.id t) teams t I).
    + reflexivity.
    + apply Z.eqb_refl.
    + intros y Iy E. apply Z.eqb_eq in E.
      apply (NoDup_map_eq Team.id teams); assumption.
  - intros k N. rewrite find_none_all; [reflexivity |].
    intros t I. apply Z.eqb_neq. intros E. apply N. apply in_map_iff.
    now exists t.
Qed.

Lemma isRegularStarter_spec (player : Player.t) :
  FPLAnalyzer.isRegularStarter player = true
  <-> 450 <= Player.minutes player
      /\ (JS.eqb (JS.parseFloat (Player.form player)) (JS.of_Z 0) = false
          \/ 1800 <= Player.minutes player).
Proof.
  unfold FPLAnalyzer.isRegularStarter.
  destruct (Z.ltb_spec (Player.minutes player) 450) as [L | G].
  - split; [discriminate | lia].
  - destruct (avgMinutesPerGame_ge_60 player G) as (q & -> & Q).
    unfold JS.of_Z at 1. rewrite geb_Fin.
    apply Qle_bool_iff in Q. change (inject_Z 60) with 60%Q. rewrite Q.
    rewrite andb_true_l, orb_true_iff, negb_true_iff, Z.leb_le. tauto.
Qed.

(** Property X28.  More minutes never cost the status of regular
    starter: when a player is a regular starter, so is a player with the
    same form and no fewer minutes.  And a regular starter whose status
    is 'a' is eligible for the recommendations. *)
Theorem regular_starter_monotone (player later : Player.t) :
  Player.form later = Player.form player ->
  Player.minutes player <= Player.minutes later ->
  FPLAnalyzer.isRegularStarter player = true ->
  FPLAnalyzer.isRegularStarter later = true
  /\ (Player.status player = "a"%string ->
      PlayerFixtureAnalyzer.eligible player = true).
Proof.
  intros F M R. apply isRegularStarter_spec in R. destruct R as [R1 R2]. split.
  - apply isRegularStarter_spec. rewrite F. split; [lia |].
    destruct R2; [now left | right; lia].
  - intros S. apply eligible_spec. split; [assumption | lia].
Qed.

Lemma regular_starter_monotone_witness :
  FPLAnalyzer.isRegularStarter (player_of 2 4) = true
  /\ (Player.status (player_of 1 4) = "a"%string ->
      PlayerFixtureAnalyzer.eligible (player_of 1 4) = true).
Proof.
  apply (regular_starter_monotone (player_of 1 4) (player_of 2 4)).
  - reflexivity.
  - simpl. lia.
  - reflexivity.
Defined.

(** ** The most vulnerable teams *)

Lemma results_get_sorted (s : TeamDefenseAnalyzer.Stats) (position : string)
    (teams : list TeamDefenseAnalyzer.Ranked.t) :
  TeamDefenseAnalyzer.results_get position (TeamDefenseAnalyzer.calculateResults s)
  = Some teams ->
  StronglySorted
    (fun a b => TeamDefenseAnalyzer.Ranked.totalPointsAllowed b
                <= TeamDefenseAnalyzer.Ranked.totalPointsAllowed a)
    teams.
Proof.
  unfold TeamDefenseAnalyzer.results_get, TeamDefenseAnalyzer.calculateResults.
  cbn [TeamDefenseAnalyzer.goalkeepers TeamDefenseAnalyzer.defenders
       TeamDefenseAnalyzer.midfielders TeamDefenseAnalyzer.forwards].
  repeat (destruct (String.eqb position _);
          [intros E; injection E as <-; apply sortedTeams_sorted |]).
  discriminate.
Qed.

(** Property X29.  For results calculated from a table and a position
    that names one of the four lists, [getTopVulnerableTeams] returns the
    projection of the first [limit] teams of the ranking, none of whom
    has allowed fewer points than a team left out.  For any other
    position it returns the empty list, unless the name is one that every
    object inherits ('constructor', 'toString', ...): then it throws. *)
Theorem top_vulnerable_teams (s : TeamDefenseAnalyzer.Stats)
    (position : string) (limit : Z) :
  let results := TeamDefenseAnalyzer.calculateResults s in
  match TeamDefenseAnalyzer.results_get position results with
  | Some teams =>
      exists selected rest,
        teams = selected ++ rest
        /\ TeamDefenseAnalyzer.getTopVulnerableTeams results position limit
           = JS.Ok (List.map TeamDefenseAnalyzer.vulnerable selected)
        /\ (forall a b, In a selected -> In b rest ->
              TeamDefenseAnalyzer.Ranked.totalPointsAllowed b
              <= TeamDefenseAnalyzer.Ranked.totalPointsAllowed a)
        /\ (0 <= limit ->
            Z.of_nat (List.length selected)
            = Z.min limit (Z.of_nat (List.length teams)))
  | None =>
      (In position TeamDefenseAnalyzer.inherited ->
       TeamDefenseAnalyzer.getTopVulnerableTeams results position limit
       = JS.TypeError)
      /\ (~ In position TeamDefenseAnalyzer.inherited ->
          TeamDefenseAnalyzer.getTopVulnerableTeams results position limit
          = JS.Ok [])
  end.
Proof.
  cbv zeta. unfold TeamDefenseAnalyzer.getTopVulnerableTeams.
  destruct (TeamDefenseAnalyzer.results_get _ _) as [teams |] eqn:G.
  - destruct (slice0_split limit teams) as (rest & E & L).
    exists (JS.slice0 limit teams), rest.
    split; [assumption | split; [reflexivity | split; [| assumption]]].
    pose proof (results_get_sorted s position teams G) as S.
    rewrite E in S. apply StronglySorted_app in S. apply S.
  - destruct (existsb _ _) eqn:X.
    + split; [reflexivity |]. intros N. exfalso. apply N.
      apply existsb_exists in X. destruct X as (x & I & Q).
      apply String.eqb_eq in Q. now subst.
    + split; [| reflexivity]. intros I. exfalso.
      apply not_true_iff_false in X. apply X. apply existsb_exists.
      exists position. split; [assumption | apply String.eqb_refl].
Qed.
